(** * Invoice extractor: a shallow embedding of the extraction core

    The development follows the Python sources module by module:
    - [PyStr]: the string built-ins the sources call ([in], [lower],
      [strip], [split], [join], [replace]) and the character classes of [re];
    - [PyFloat]: binary64 numbers, the built-in [float] and [round];
    - [Py]: Python values, truthiness and exceptions;
    - [Pdf]: what the PDF decoder hands over (pages, glyphs, tables);
    - [Validators], [Amazon], [Flipkart], [Zomato], [Blinkit], [Instamart],
      [Cluster], [Base], [Main]: the functions of validators.py, the
      extractors_*.py files, base.py and main.py.

    The second part states and proves the properties, one [...Facts] module
    per module of the first part.

    Text is modelled with one [ascii] per character, read as a code point
    below 256.  Floats are IEEE 754 binary64 values ([spec_float] with
    precision 53 and maximal exponent 1024), so signed zeros, infinities and
    NaN are all present. *)

From Stdlib Require Import ZArith List String Ascii Bool Lia Sorted.
From Stdlib Require Import Floats.SpecFloat DecimalString.
From stdpp Require Import gmap strings.

Open Scope string_scope.

(** ** Python strings *)
Module PyStr.

Definition code (c : ascii) : nat := nat_of_ascii c.

(** [ch.isspace()], which is also the class [\s] of [re] on [str] patterns
    and the set removed by [str.strip()]. *)
Definition is_space (c : ascii) : bool :=
  let n := code c in
  (((9 <=? n) && (n <=? 13)) || ((28 <=? n) && (n <=? 32))
   || (n =? 133) || (n =? 160))%nat.

(** The class [\d] of [re]. *)
Definition is_digit (c : ascii) : bool :=
  let n := code c in ((48 <=? n) && (n <=? 57))%nat.

Definition is_upper (c : ascii) : bool :=
  let n := code c in
  (((65 <=? n) && (n <=? 90))
   || ((192 <=? n) && (n <=? 222) && negb (n =? 215)))%nat.

Definition lower_char (c : ascii) : ascii :=
  if is_upper c then ascii_of_nat (code c + 32) else c.

(** [s.lower()] *)
Fixpoint lower (s : string) : string :=
  match s with
  | EmptyString => EmptyString
  | String c s' => String (lower_char c) (lower s')
  end.

(** [s.startswith(p)] *)
Fixpoint startswith (p s : string) : bool :=
  match p, s with
  | EmptyString, _ => true
  | String a p', String b s' => Ascii.eqb a b && startswith p' s'
  | String _ _, EmptyString => false
  end.

(** [sub in s] *)
Fixpoint str_in (sub s : string) : bool :=
  startswith sub s
  || match s with
     | EmptyString => false
     | String _ s' => str_in sub s'
     end.

(** [s.lstrip()], [s.rstrip()], [s.strip()] *)
Fixpoint lstrip (s : string) : string :=
  match s with
  | String c s' => if is_space c then lstrip s' else s
  | EmptyString => EmptyString
  end.

Fixpoint rstrip (s : string) : string :=
  match s with
  | EmptyString => EmptyString
  | String c s' =>
      match rstrip s' with
      | EmptyString => if is_space c then EmptyString else String c EmptyString
      | r => String c r
      end
  end.

Definition strip (s : string) : string := rstrip (lstrip s).

(** [s.replace(c, "")] for a one-character [c] *)
Fixpoint remove_char (c : ascii) (s : string) : string :=
  match s with
  | EmptyString => EmptyString
  | String a s' =>
      if Ascii.eqb a c then remove_char c s' else String a (remove_char c s')
  end.

(** [s.split(c)] for a one-character separator; the result is never empty. *)
Fixpoint split_on (c : ascii) (s : string) : list string :=
  match s with
  | EmptyString => [EmptyString]
  | String a s' =>
      if Ascii.eqb a c then EmptyString :: split_on c s'
      else match split_on c s' with
           | w :: ws => String a w :: ws
           | [] => [String a EmptyString]
           end
  end.

(** [sep.join(l)] *)
Fixpoint join (sep : string) (l : list string) : string :=
  match l with
  | [] => EmptyString
  | [s] => s
  | s :: l' => s +:+ sep +:+ join sep l'
  end.

(** "[sub] occurs in [s]", as a proposition. *)
Definition contains (sub s : string) : Prop :=
  exists a b, s = a +:+ sub +:+ b.

(** Every character of [s] satisfies [f]. *)
Fixpoint forall_chars (f : ascii -> bool) (s : string) : bool :=
  match s with
  | EmptyString => true
  | String c s' => f c && forall_chars f s'
  end.

(** [s.strip(chars)]: the characters that satisfy [f] are removed at both
    ends. *)
Fixpoint lstrip_of (f : ascii -> bool) (s : string) : string :=
  match s with
  | String c s' => if f c then lstrip_of f s' else s
  | EmptyString => EmptyString
  end.

Fixpoint rstrip_of (f : ascii -> bool) (s : string) : string :=
  match s with
  | EmptyString => EmptyString
  | String c s' =>
      match rstrip_of f s' with
      | EmptyString => if f c then EmptyString else String c EmptyString
      | r => String c r
      end
  end.

Definition strip_of (f : ascii -> bool) (s : string) : string :=
  rstrip_of f (lstrip_of f s).

(** [s.replace(a, b)] for one-character [a] and [b] *)
Fixpoint replace_char (a b : ascii) (s : string) : string :=
  match s with
  | EmptyString => EmptyString
  | String c s' =>
      String (if Ascii.eqb c a then b else c) (replace_char a b s')
  end.

End PyStr.

(** ** Python floats *)
Module PyFloat.
Import PyStr.

Definition prec : Z := 53.
Definition emax : Z := 1024.

Definition float : Set := spec_float.

(** The literal [0.0]. *)
Definition zero : float := S754_zero false.

(** 12.5 = 25 * 2^-1 and 112.5 = 225 * 2^-1, with the mantissa on 53 bits. *)
Definition twelve_and_a_half : float := S754_finite false (25 * 2 ^ 48) (-49).
Definition hundred_twelve_and_a_half : float :=
  S754_finite false (225 * 2 ^ 45) (-46).

Definition fadd : float -> float -> float := SFadd prec emax.
Definition fsub : float -> float -> float := SFsub prec emax.
Definition fmul : float -> float -> float := SFmul prec emax.
Definition fdiv : float -> float -> float := SFdiv prec emax.
Definition fsqrt : float -> float := SFsqrt prec emax.

Definition is_finite (x : float) : bool :=
  match x with
  | S754_zero _ | S754_finite _ _ _ => true
  | _ => false
  end.

(** [x != 0.0], the truth value of a float: both zeros are false, NaN is
    true. *)
Definition nonzero (x : float) : bool :=
  match x with
  | S754_zero _ => false
  | _ => true
  end.

(** The binary64 number nearest to [(-1)^neg * m * 10^e] (ties to even), as
    the decimal-to-binary conversion of the interpreter computes it. *)
Definition float_of_decimal (neg : bool) (m e : Z) : float :=
  match m with
  | Zpos p =>
      if (0 <=? e)%Z then
        binary_round prec emax neg (p * Z.to_pos (10 ^ e)) 0
      else
        let '(q, e', l) :=
          SFdiv_core_binary prec emax (Zpos p) 0 (10 ^ (- e)) 0 in
        binary_round_aux prec emax neg q e' l
  | _ => S754_zero neg
  end.

(** [float(n)] for an [int]: [None] stands for [OverflowError]. *)
Definition float_of_int (n : Z) : option float :=
  match binary_normalize prec emax n 0 false with
  | S754_infinity _ => None
  | x => Some x
  end.

(** *** [float(s)] for a [str] *)

Definition digit_val (c : ascii) : Z := Z.of_nat (code c - 48).

(** Underscores may only sit between two digits; they are dropped. *)
Fixpoint drop_underscores (prev : option ascii) (s : string) : option string :=
  match s with
  | EmptyString =>
      match prev with
      | Some "_"%char => None
      | _ => Some EmptyString
      end
  | String c s' =>
      if Ascii.eqb c "_" then
        match prev with
        | Some d => if is_digit d then drop_underscores (Some c) s' else None
        | None => None
        end
      else
        match prev with
        | Some "_"%char =>
            if is_digit c then
              option_map (String c) (drop_underscores (Some c) s')
            else None
        | _ => option_map (String c) (drop_underscores (Some c) s')
        end
  end.

(** The blanks that [float] skips at both ends of its argument. *)
Definition is_float_space (c : ascii) : bool :=
  let n := code c in
  (((9 <=? n) && (n <=? 13)) || (n =? 32) || (n =? 133) || (n =? 160))%nat.

Fixpoint lskip (s : string) : string :=
  match s with
  | String c s' => if is_float_space c then lskip s' else s
  | EmptyString => EmptyString
  end.

Fixpoint rskip (s : string) : string :=
  match s with
  | EmptyString => EmptyString
  | String c s' =>
      match rskip s' with
      | EmptyString =>
          if is_float_space c then EmptyString else String c EmptyString
      | r => String c r
      end
  end.

Definition take_sign (s : string) : bool * string :=
  match s with
  | String "-" r => (true, r)
  | String "+" r => (false, r)
  | _ => (false, s)
  end.

(** Reads the longest run of digits: the number read so far, how many
    digits were read, and what is left. *)
Fixpoint take_digits (s : string) (acc : Z) (n : nat) : Z * nat * string :=
  match s with
  | String c r =>
      if is_digit c then take_digits r (10 * acc + digit_val c)%Z (S n)
      else (acc, n, s)
  | EmptyString => (acc, n, EmptyString)
  end.

(** [sign? digits? (. digits?)? ([eE] sign? digits)?] with a digit in the
    mantissa, and nothing after it. *)
Definition parse_decimal (u : string) : option float :=
  let '(neg, r0) := take_sign u in
  let '(ip, ni, r1) := take_digits r0 0 0 in
  let '(m, nf, r2) :=
    match r1 with
    | String "." r => take_digits r ip 0
    | _ => (ip, 0%nat, r1)
    end in
  if (ni + nf =? 0)%nat then None
  else
    match r2 with
    | EmptyString => Some (float_of_decimal neg m (- Z.of_nat nf))
    | String c r3 =>
        if Ascii.eqb c "e" || Ascii.eqb c "E" then
          let '(eneg, r4) := take_sign r3 in
          let '(ex, ne, r5) := take_digits r4 0 0 in
          match ne, r5 with
          | S _, EmptyString =>
              Some (float_of_decimal neg m
                      ((if eneg then - ex else ex) - Z.of_nat nf))
          | _, _ => None
          end
        else None
    end.

(** [sign? (inf | infinity | nan)], in any letter case. *)
Definition parse_inf_nan (u : string) : option float :=
  let '(neg, r) := take_sign u in
  let w := lower r in
  if String.eqb w "inf" || String.eqb w "infinity" then Some (S754_infinity neg)
  else if String.eqb w "nan" then Some S754_nan
  else None.

(** [float(s)]: [None] stands for [ValueError]. *)
Definition float_of_str (s : string) : option float :=
  match drop_underscores None s with
  | None => None
  | Some t =>
      let u := rskip (lskip t) in
      match parse_decimal u with
      | Some x => Some x
      | None => parse_inf_nan u
      end
  end.

(** *** [round(x, 2)] *)

(** The integer nearest to [a / b], ties to even ([0 <= a], [0 < b]). *)
Definition div_half_even (a b : Z) : Z :=
  let q := (a / b)%Z in
  match (2 * (a mod b) ?= b)%Z with
  | Lt => q
  | Gt => (q + 1)%Z
  | Eq => if Z.even q then q else (q + 1)%Z
  end.

(** [round(x, 2)]: the exact value of [x] is rounded to two decimals (ties
    to even) and the decimal is converted back. *)
Definition round2 (x : float) : float :=
  match x with
  | S754_finite s m e =>
      let n :=
        if (0 <=? e)%Z then (Zpos m * 2 ^ e * 100)%Z
        else div_half_even (Zpos m * 100) (2 ^ (- e)) in
      float_of_decimal s n (-2)
  | _ => x
  end.

End PyFloat.

(** ** Python values and exceptions *)
Module Py.
Import PyStr PyFloat.

Inductive exn : Set :=
| TypeError | ValueError | OverflowError | KeyError | IndexError
| ValidationError.

Inductive result (A : Type) : Type :=
| Ok (a : A)
| Raise (e : exn).
Arguments Ok {A} a.
Arguments Raise {A} e.

Definition bind {A B : Type} (r : result A) (k : A -> result B) : result B :=
  match r with
  | Ok a => k a
  | Raise e => Raise e
  end.

Notation "'let*' x ':=' r 'in' k" := (bind r (fun x => k))
  (at level 10, x pattern, r at level 100, k at level 200).

(** The values a field map may hold. *)
#[warnings="-register-all"]
Inductive value : Type :=
| VNone
| VBool (b : bool)
| VInt (n : Z)
| VFloat (x : float)
| VStr (s : string)
| VList (l : list value).

(** [bool(v)] *)
Definition truthy (v : value) : bool :=
  match v with
  | VNone => false
  | VBool b => b
  | VInt n => negb (n =? 0)%Z
  | VFloat x => nonzero x
  | VStr s => negb (String.eqb s "")
  | VList l => match l with [] => false | _ => true end
  end.

(** [float(v)] *)
Definition float_of (v : value) : result float :=
  match v with
  | VNone => Raise TypeError
  | VBool b => Ok (if b then float_of_decimal false 1 0 else zero)
  | VInt n =>
      match float_of_int n with
      | Some x => Ok x
      | None => Raise OverflowError
      end
  | VFloat x => Ok x
  | VStr s =>
      match float_of_str s with
      | Some x => Ok x
      | None => Raise ValueError
      end
  | VList _ => Raise TypeError
  end.

(** [str(n)] for an [int] *)
Definition str_of_int (n : Z) : string :=
  NilZero.string_of_int (Z.to_int n).

End Py.

(** ** validators.py *)
Module Validators.
Import PyStr PyFloat Py.

(** The declared type of a field of [InvoiceData]: [str], [Optional[str]]
    or [float]. *)
Inductive kind : Set := KStr | KOptStr | KFloat.

Inductive field : Set :=
| f_invoice_type | f_invoice_number | f_invoice_date | f_order_number
| f_order_date | f_seller_name | f_seller_address | f_seller_info
| f_seller_gst | f_seller_pan | f_fssai_license | f_billing_address
| f_shipping_address | f_billing_state_code | f_shipping_state_code
| f_place_of_supply | f_place_of_delivery | f_invoice_details
| f_amount_in_words | f_total_tax | f_total_amount | f_reverse_charge.

Definition all_fields : list field :=
  [f_invoice_type; f_invoice_number; f_invoice_date; f_order_number;
   f_order_date; f_seller_name; f_seller_address; f_seller_info;
   f_seller_gst; f_seller_pan; f_fssai_license; f_billing_address;
   f_shipping_address; f_billing_state_code; f_shipping_state_code;
   f_place_of_supply; f_place_of_delivery; f_invoice_details;
   f_amount_in_words; f_total_tax; f_total_amount; f_reverse_charge].

Definition name (f : field) : string :=
  match f with
  | f_invoice_type => "invoice_type"
  | f_invoice_number => "invoice_number"
  | f_invoice_date => "invoice_date"
  | f_order_number => "order_number"
  | f_order_date => "order_date"
  | f_seller_name => "seller_name"
  | f_seller_address => "seller_address"
  | f_seller_info => "seller_info"
  | f_seller_gst => "seller_gst"
  | f_seller_pan => "seller_pan"
  | f_fssai_license => "fssai_license"
  | f_billing_address => "billing_address"
  | f_shipping_address => "shipping_address"
  | f_billing_state_code => "billing_state_code"
  | f_shipping_state_code => "shipping_state_code"
  | f_place_of_supply => "place_of_supply"
  | f_place_of_delivery => "place_of_delivery"
  | f_invoice_details => "invoice_details"
  | f_amount_in_words => "amount_in_words"
  | f_total_tax => "total_tax"
  | f_total_amount => "total_amount"
  | f_reverse_charge => "reverse_charge"
  end.

Definition kind_of (f : field) : kind :=
  match f with
  | f_order_date => KOptStr
  | f_total_tax | f_total_amount => KFloat
  | _ => KStr
  end.

(** The default of the class body. *)
Definition default (f : field) : value :=
  match f with
  | f_invoice_type => VStr "Tax Invoice"
  | f_reverse_charge => VStr "No"
  | f_total_tax | f_total_amount => VFloat zero
  | _ => VStr ""
  end.

(** An instance of [InvoiceData]: one Python value per attribute. *)
Record InvoiceData : Type := {
  invoice_type : value;
  invoice_number : value;
  invoice_date : value;
  order_number : value;
  order_date : value;
  seller_name : value;
  seller_address : value;
  seller_info : value;
  seller_gst : value;
  seller_pan : value;
  fssai_license : value;
  billing_address : value;
  shipping_address : value;
  billing_state_code : value;
  shipping_state_code : value;
  place_of_supply : value;
  place_of_delivery : value;
  invoice_details : value;
  amount_in_words : value;
  total_tax : value;
  total_amount : value;
  reverse_charge : value
}.

Definition get (r : InvoiceData) (f : field) : value :=
  match f with
  | f_invoice_type => invoice_type r
  | f_invoice_number => invoice_number r
  | f_invoice_date => invoice_date r
  | f_order_number => order_number r
  | f_order_date => order_date r
  | f_seller_name => seller_name r
  | f_seller_address => seller_address r
  | f_seller_info => seller_info r
  | f_seller_gst => seller_gst r
  | f_seller_pan => seller_pan r
  | f_fssai_license => fssai_license r
  | f_billing_address => billing_address r
  | f_shipping_address => shipping_address r
  | f_billing_state_code => billing_state_code r
  | f_shipping_state_code => shipping_state_code r
  | f_place_of_supply => place_of_supply r
  | f_place_of_delivery => place_of_delivery r
  | f_invoice_details => invoice_details r
  | f_amount_in_words => amount_in_words r
  | f_total_tax => total_tax r
  | f_total_amount => total_amount r
  | f_reverse_charge => reverse_charge r
  end.

(** [convert_to_float(cls, v)], the [pre=True] validator of [total_tax] and
    [total_amount]: the bare [except] absorbs every exception of [float(v)]. *)
Definition convert_to_float (v : value) : result value :=
  match (if truthy v then float_of v else Ok zero) with
  | Ok x => Ok (VFloat x)
  | Raise _ => Ok (VFloat zero)
  end.

(** What the [float] annotation does to the value the pre-validator
    returned: a float passes, anything else goes through [float(v)]. *)
Definition float_validator (v : value) : result value :=
  match v with
  | VFloat _ => Ok v
  | _ =>
      match float_of v with
      | Ok x => Ok (VFloat x)
      | Raise _ => Raise ValidationError
      end
  end.

(** The construction of the model from the validated fields, in the order
    of the class body: a field that fails makes it raise. *)
Definition construct (vf : field -> result value) : result InvoiceData :=
  let* v_invoice_type := vf f_invoice_type in
  let* v_invoice_number := vf f_invoice_number in
  let* v_invoice_date := vf f_invoice_date in
  let* v_order_number := vf f_order_number in
  let* v_order_date := vf f_order_date in
  let* v_seller_name := vf f_seller_name in
  let* v_seller_address := vf f_seller_address in
  let* v_seller_info := vf f_seller_info in
  let* v_seller_gst := vf f_seller_gst in
  let* v_seller_pan := vf f_seller_pan in
  let* v_fssai_license := vf f_fssai_license in
  let* v_billing_address := vf f_billing_address in
  let* v_shipping_address := vf f_shipping_address in
  let* v_billing_state_code := vf f_billing_state_code in
  let* v_shipping_state_code := vf f_shipping_state_code in
  let* v_place_of_supply := vf f_place_of_supply in
  let* v_place_of_delivery := vf f_place_of_delivery in
  let* v_invoice_details := vf f_invoice_details in
  let* v_amount_in_words := vf f_amount_in_words in
  let* v_total_tax := vf f_total_tax in
  let* v_total_amount := vf f_total_amount in
  let* v_reverse_charge := vf f_reverse_charge in
  Ok {|
    invoice_type := v_invoice_type;
    invoice_number := v_invoice_number;
    invoice_date := v_invoice_date;
    order_number := v_order_number;
    order_date := v_order_date;
    seller_name := v_seller_name;
    seller_address := v_seller_address;
    seller_info := v_seller_info;
    seller_gst := v_seller_gst;
    seller_pan := v_seller_pan;
    fssai_license := v_fssai_license;
    billing_address := v_billing_address;
    shipping_address := v_shipping_address;
    billing_state_code := v_billing_state_code;
    shipping_state_code := v_shipping_state_code;
    place_of_supply := v_place_of_supply;
    place_of_delivery := v_place_of_delivery;
    invoice_details := v_invoice_details;
    amount_in_words := v_amount_in_words;
    total_tax := v_total_tax;
    total_amount := v_total_amount;
    reverse_charge := v_reverse_charge
  |}.

Section Schema.

(** What the [str] annotation does to a number ([int], [bool], [float])
    depends on the release of pydantic: release 1 prints it with [str],
    release 2 refuses it ([None] here).  The schema is read for either. *)
Variable str_of_number : value -> option string.

(** What the [str] annotation does: a string passes, a number is treated as
    the release decides, anything else is refused. *)
Definition str_validator (v : value) : result value :=
  match v with
  | VStr _ => Ok v
  | VInt _ | VBool _ | VFloat _ =>
      match str_of_number v with
      | Some s => Ok (VStr s)
      | None => Raise ValidationError
      end
  | VNone | VList _ => Raise ValidationError
  end.

(** One field of [InvoiceData] built from the keywords [fm]: a key that is absent takes the
    default unvalidated; [None] is accepted by [Optional[str]] only; the
    pre-validator of the float fields runs before anything else. *)
Definition validate_field (fm : gmap string value) (f : field) : result value :=
  match fm !! name f with
  | None => Ok (default f)
  | Some v =>
      match kind_of f with
      | KFloat => let* w := convert_to_float v in float_validator w
      | KStr => str_validator v
      | KOptStr =>
          match v with
          | VNone => Ok VNone
          | _ => str_validator v
          end
      end
  end.

(** [InvoiceData] built from the keywords [fm]: keys that name no field are
    ignored, and a field that fails makes the construction raise
    [ValidationError]. *)
Definition validate (fm : gmap string value) : result InvoiceData :=
  construct (validate_field fm).

End Schema.

(** [r.dict()] *)
Definition dict (r : InvoiceData) : gmap string value :=
  list_to_map (List.map (fun f => (name f, get r f)) all_fields).

(** pydantic 2: a number is not a string. *)
Definition refuse_numbers (v : value) : option string := None.

(** pydantic 1 on integers and booleans. *)
Definition print_integers (v : value) : option string :=
  match v with
  | VInt n => Some (str_of_int n)
  | VBool b => Some (if b then "True" else "False")
  | _ => None
  end.

(** A zero of either sign becomes [0.0]: what [v if v else 0.0] does to a
    float. *)
Definition unsigned_zero (v : value) : value :=
  match v with
  | VFloat (S754_zero _) => VFloat zero
  | _ => v
  end.

(** The record with the sign of a zero total dropped. *)
Definition unsigned_zeros (r : InvoiceData) : InvoiceData :=
  {| invoice_type := invoice_type r;
     invoice_number := invoice_number r;
     invoice_date := invoice_date r;
     order_number := order_number r;
     order_date := order_date r;
     seller_name := seller_name r;
     seller_address := seller_address r;
     seller_info := seller_info r;
     seller_gst := seller_gst r;
     seller_pan := seller_pan r;
     fssai_license := fssai_license r;
     billing_address := billing_address r;
     shipping_address := shipping_address r;
     billing_state_code := billing_state_code r;
     shipping_state_code := shipping_state_code r;
     place_of_supply := place_of_supply r;
     place_of_delivery := place_of_delivery r;
     invoice_details := invoice_details r;
     amount_in_words := amount_in_words r;
     total_tax := unsigned_zero (total_tax r);
     total_amount := unsigned_zero (total_amount r);
     reverse_charge := reverse_charge r |}.

(** Field maps used as examples below. *)
Definition fm_abc_none : gmap string value :=
  <[ "total_tax" := VStr "abc" ]> (<[ "total_amount" := VNone ]> ∅).

Definition fm_12_5 : gmap string value :=
  <[ "total_tax" := VStr "12.5" ]> ∅.

Definition fm_number_as_text : gmap string value :=
  <[ "order_number" := VInt 4051 ]> ∅.

Definition fm_order_date_none : gmap string value :=
  <[ "order_date" := VNone ]> ∅.

Definition fm_negative_zero : gmap string value :=
  <[ "total_tax" := VStr "-0.0" ]> ∅.

Definition is_float (v : value) : Prop := exists x, v = VFloat x.
Definition is_str (v : value) : Prop := exists s, v = VStr s.

End Validators.

(** ** What the PDF decoder hands over *)
Module Pdf.
Import PyStr PyFloat Py.

(** A table cell is a [str] or [None]. *)
Definition cell : Set := option string.
Definition row : Set := list cell.
Definition table : Set := list row.

(** A character of a page with its bounding box. *)
Record glyph : Set := {
  x0 : float;
  x1 : float;
  top : float;
  bottom : float;
  text : string
}.

(** [page.chars] and [page.extract_tables()]. *)
Record page : Set := {
  chars : list glyph;
  tables : list table
}.

(** [pdf.pages] *)
Definition document : Set := list page.

(** [bool(c)] for a cell *)
Definition cell_truthy (c : cell) : bool :=
  match c with
  | Some s => negb (String.eqb s "")
  | None => false
  end.

(** [str(c)] for a cell *)
Definition str_of_cell (c : cell) : string :=
  match c with
  | Some s => s
  | None => "None"
  end.

(** [max(tables, key=len)]: the first table with the most rows. *)
Fixpoint max_by_len (best : table) (ts : list table) : table :=
  match ts with
  | [] => best
  | t :: ts' =>
      if (length best <? length t)%nat then max_by_len t ts'
      else max_by_len best ts'
  end.

(** [max(len([c for c in row if c]) for row in table)]; [max] of nothing
    raises [ValueError]. *)
Definition filled (r : row) : nat := length (List.filter cell_truthy r).

Definition max_cols (t : table) : result nat :=
  match t with
  | [] => Raise ValueError
  | r :: rs => Ok (fold_left (fun m r' => Nat.max m (filled r')) rs (filled r))
  end.

(** *** The DataFrame operations the extractors use *)

(** Number of columns of [pd.DataFrame(table)]. *)
Definition width (t : table) : nat :=
  fold_right (fun r m => Nat.max (length r) m) 0%nat t.

(** Rows shorter than the frame are filled with [None]. *)
Definition pad (n : nat) (r : row) : row :=
  (r ++ repeat None (n - length r))%list.

Definition frame (t : table) : table := List.map (pad (width t)) t.

Definition is_blank (r : row) : bool :=
  forallb (fun c => match c with None => true | Some _ => false end) r.

(** [df.dropna(how="all")] *)
Definition dropna_all (t : table) : table :=
  List.filter (fun r => negb (is_blank r)) t.

(** [row[i]] by position *)
Definition at_col (r : row) (i : nat) : cell := nth i r None.

(** A row of the item frame: the values stored under "Sl.No",
    "Description", "UnitPrice", ... *)
Record line_item : Type := {
  SlNo : nat;
  Description : value;
  UnitPrice : value;
  Discount : value;
  Qty : value;
  NetAmount : value;
  TaxRate : value;
  TaxType : value;
  TaxAmount : value;
  TotalAmount : value
}.

(** A cell as a Python value. *)
Definition value_of_cell (c : cell) : value :=
  match c with
  | Some s => VStr s
  | None => VNone
  end.

End Pdf.

(** ** extractors_amazon.py *)
Module Amazon.
Import PyStr PyFloat Py Pdf.

(** The class [[\d.]] *)
Definition is_num_dot (c : ascii) : bool := is_digit c || Ascii.eqb c ".".

(** [re.findall(r"[\d.]+", s)]: the maximal runs of digits and dots, from
    left to right; [run] is the run being read. *)
Fixpoint findall_num_dot (s : string) (run : string) : list string :=
  match s with
  | EmptyString =>
      match run with
      | EmptyString => []
      | _ => [run]
      end
  | String c s' =>
      if is_num_dot c then findall_num_dot s' (run +:+ String c EmptyString)
      else
        match run with
        | EmptyString => findall_num_dot s' EmptyString
        | _ => run :: findall_num_dot s' EmptyString
        end
  end.

(** The header scan: the last column whose lowercased text has both "tax"
    and "amount", and the last one with both "total" and "amount". *)
Fixpoint scan_header (header : list string) (idx : nat)
    (tax_col total_col : option nat) : option nat * option nat :=
  match header with
  | [] => (tax_col, total_col)
  | col :: rest =>
      let c := lower col in
      let tax_col :=
        if str_in "tax" c && str_in "amount" c then Some idx else tax_col in
      let total_col :=
        if str_in "total" c && str_in "amount" c then Some idx else total_col in
      scan_header rest (S idx) tax_col total_col
  end.

(** [any("total" in str(cell).lower() for cell in row)] *)
Definition mentions_total (r : row) : bool :=
  existsb (fun c => str_in "total" (lower (str_of_cell c))) r.

(** [float(v[0]) if v else 0.0] for [v = re.findall(r"[\d.]+", str(c))] *)
Definition first_number (c : cell) : result float :=
  match findall_num_dot (str_of_cell c) EmptyString with
  | [] => Ok zero
  | v :: _ =>
      match float_of_str v with
      | Some x => Ok x
      | None => Raise ValueError
      end
  end.

(** The loop over the data rows: the first row that mentions "total"
    decides; [None] when the loop ends without returning. *)
Fixpoint scan_rows (data : list row) (tax_col total_col : nat)
    : option (result (float * float)) :=
  match data with
  | [] => None
  | r :: rest =>
      if mentions_total r then
        Some (let* tax := first_number (at_col r tax_col) in
              let* amt := first_number (at_col r total_col) in
              Ok (tax, amt))
      else scan_rows rest tax_col total_col
  end.

(** [extract_totals_amazon(pdf_path)], on the decoded pages. *)
Fixpoint extract_totals_amazon (pages : document) : result (float * float) :=
  match pages with
  | [] => Ok (zero, zero)
  | p :: rest =>
      match tables p with
      | [] => extract_totals_amazon rest
      | t0 :: ts =>
          let table := max_by_len t0 ts in
          let* n := max_cols table in
          if (n <? 6)%nat then extract_totals_amazon rest
          else
            match dropna_all (frame table) with
            | [] => Raise IndexError
            | header :: data =>
                match scan_header (List.map str_of_cell header) 0 None None with
                | (Some tax_col, Some total_col) =>
                    match scan_rows data tax_col total_col with
                    | Some r => r
                    | None => extract_totals_amazon rest
                    end
                | _ => Ok (zero, zero)
                end
            end
      end
  end.

(** The header row of a table as the function reads it: the first row of
    the frame that is not all [None]. *)
Definition header_row (t : table) : option (list string) :=
  match dropna_all (frame t) with
  | [] => None
  | header :: _ => Some (List.map str_of_cell header)
  end.

Definition is_tax_amount (col : string) : bool :=
  str_in "tax" (lower col) && str_in "amount" (lower col).

Definition is_total_amount (col : string) : bool :=
  str_in "total" (lower col) && str_in "amount" (lower col).

(** The header row has a tax-amount column and a total-amount column. *)
Definition has_both_columns (t : table) : bool :=
  match header_row t with
  | Some h => existsb is_tax_amount h && existsb is_total_amount h
  | None => false
  end.

(** The decoder never yields a table without rows. *)
Definition well_formed (pages : document) : Prop :=
  forall p t, In p pages -> In t (tables p) -> t <> [].

(** The table of the end-to-end scenario. *)
Definition scenario_table : table :=
  [ [Some "Description"; Some "Qty"; Some "Tax Amount"; Some "Total Amount"];
    [Some "Total"; Some "5"; Some "12.5"; Some "112.5"] ].

(** The same table behind two more columns. *)
Definition wide_table (a b : string) (c d : cell) : table :=
  [ [Some a; Some b; Some "Description"; Some "Qty"; Some "Tax Amount";
     Some "Total Amount"];
    [c; d; Some "Total"; Some "5"; Some "12.5"; Some "112.5"] ].

Definition one_table (t : table) : document :=
  [ {| chars := []; tables := [t] |} ].

(** A six-column table without amount columns. *)
Definition plain_table : table :=
  [ [Some "Sl"; Some "Description"; Some "Unit Price"; Some "Qty";
     Some "Net"; Some "Remarks"];
    [Some "1"; Some "Total"; Some "100"; Some "5"; Some "500"; None] ].

(** The last position of [header], counted from [idx], whose column
    satisfies [f]; [acc] when there is none. *)
Fixpoint last_index (f : string -> bool) (header : list string) (idx : nat)
    (acc : option nat) : option nat :=
  match header with
  | [] => acc
  | col :: rest => last_index f rest (S idx) (if f col then Some idx else acc)
  end.

(** [s] begins with a digit or a dot. *)
Definition starts_num_dot (s : string) : bool :=
  match s with
  | String c _ => is_num_dot c
  | EmptyString => false
  end.

(** A page whose table has six columns but no amount columns, before a
    page with the totals. *)
Definition plain_then_totals : document :=
  [ {| chars := []; tables := [plain_table] |};
    {| chars := []; tables := [wide_table "Sl" "HSN" None None] |} ].

(** A totals row whose tax cell begins with a currency mark. *)
Definition rupees_table : table :=
  [ [Some "Sl"; Some "HSN"; Some "Description"; Some "Qty";
     Some "Tax Amount"; Some "Total Amount"];
    [Some "1"; Some "85"; Some "Total"; Some "5"; Some "Rs. 12";
     Some "112.5"] ].

(** A table with two rows that mention a total. *)
Definition two_totals_table : table :=
  [ [Some "Sl"; Some "HSN"; Some "Description"; Some "Qty";
     Some "Tax Amount"; Some "Total Amount"];
    [Some "1"; Some "8544"; Some "Cable"; Some "5"; Some "2.5"; Some "52.5"];
    [None; None; Some "Sub Total"; Some "5"; Some "12.5"; Some "112.5"];
    [None; None; Some "Grand Total"; None; Some "15.0"; Some "150.0"] ].

(** Column [i] of [h] satisfies [f] and no later column does. *)
Definition last_with (f : string -> bool) (h : list string) (i : nat)
    : Prop :=
  exists col, h !! i = Some col /\ f col = true
    /\ forall j col', (i < j)%nat -> h !! j = Some col' -> f col' = false.

(** *** [extract_item_table_amazon] *)

(** [c and c.strip()] as a truth value *)
Definition has_text (c : cell) : bool :=
  match c with
  | Some s => negb (String.eqb s "") && negb (String.eqb (strip s) "")
  | None => false
  end.

(** [[r for r in table if any(c and c.strip() for c in r)]] *)
Definition rows_with_text (t : table) : table :=
  List.filter (existsb has_text) t.

(** [[str(c).lower() if c else "" for c in table[0]]] *)
Definition item_header (r : row) : list string :=
  List.map (fun c => if cell_truthy c then lower (str_of_cell c) else "") r.

(** The test on the header: a description, a quantity and a total. *)
Definition is_item_header (header : list string) : bool :=
  existsb (str_in "description") header
  && existsb (fun h => str_in "qty" h || str_in "quantity" h) header
  && existsb (str_in "total") header.

(** [[cell.strip() if cell else "" for cell in row]] *)
Definition strip_row (r : row) : list string :=
  List.map (fun c => if cell_truthy c then strip (str_of_cell c) else "") r.

(** The frame [pd.DataFrame(rows, columns=clean_header)]: its column names
    and its rows; shorter rows are filled with [None], and rows wider or
    narrower than the header altogether are refused with [ValueError]. *)
Definition item_frame : Type := list string * list row.

Definition make_frame (rows : list (list string)) (columns : list string)
    : result item_frame :=
  let data := List.map (List.map (@Some string)) rows in
  match rows with
  | [] => Ok (columns, [])
  | _ =>
      if (width data =? length columns)%nat then Ok (columns, frame data)
      else Raise ValueError
  end.

Section ItemTable.

(** [str.title], the capitalisation of every word; it can leave the
    characters below 256 and is left open. *)
Variable title : string -> string.

(** [h.replace(" ", "_").title() if h else f"Col_{i}"] *)
Fixpoint clean_header (header : list string) (i : nat) : list string :=
  match header with
  | [] => []
  | h :: rest =>
      (if String.eqb h "" then "Col_" +:+ str_of_int (Z.of_nat i)
       else title (replace_char " " "_" h))
      :: clean_header rest (S i)
  end.

(** The loop over the tables of a page; [None] when no table is taken. *)
Fixpoint item_table_of (ts : list table) : option (result item_frame) :=
  match ts with
  | [] => None
  | t :: rest =>
      match rows_with_text t with
      | [] => item_table_of rest
      | first :: others =>
          let header := item_header first in
          if is_item_header header then
            Some (make_frame (List.map strip_row others)
                             (clean_header header 0))
          else item_table_of rest
      end
  end.

(** [extract_item_table_amazon(pdf_path)]; the empty frame is
    [pd.DataFrame()]. *)
Fixpoint extract_item_table_amazon (pages : document) : result item_frame :=
  match pages with
  | [] => Ok ([], [])
  | p :: rest =>
      match item_table_of (tables p) with
      | Some r => r
      | None => extract_item_table_amazon rest
      end
  end.

End ItemTable.

(** A cell of the item frame is stripped text, or the [None] that fills a
    short row. *)
Definition stripped_cell (c : cell) : bool :=
  match c with
  | Some s => String.eqb (strip s) s
  | None => true
  end.

Definition nonempty_cell (c : cell) : bool :=
  match c with
  | Some s => negb (String.eqb s "")
  | None => false
  end.

(** What a row of the item frame looks like. *)
Definition item_row_ok (cols : list string) (r : row) : Prop :=
  length r = length cols
  /\ forallb stripped_cell r = true
  /\ existsb nonempty_cell r = true.

(** All rows of [t] have the same number of cells. *)
Definition rectangular (t : table) : Prop :=
  exists n, forall r, In r t -> length r = n.

(** An item table behind a blank row, with cells to strip. *)
Definition item_table_example : table :=
  [ [None; Some "  "; None; None];
    [Some "Sl No"; Some "Description"; Some "Qty"; Some "Total Amount"];
    [Some " 1 "; Some "USB cable
"; Some "2"; Some " 398.00"];
    [None; None; None; Some ""] ].

Definition plain_title (s : string) : string := s.

End Amazon.

(** ** extractors_flipkart.py *)
Module Flipkart.
Import PyStr PyFloat Py Pdf.

(** *** [extract_line_items] *)

(** Where the scan of [\d+\.\d+|\d+] stands: between numbers, in the digits
    before the dot, or in the digits after it. *)
Inductive scan_state : Set :=
| Idle
| InInt (tok : string)
| InFrac (tok : string).

Definition starts_with_digit (s : string) : bool :=
  match s with
  | String c _ => is_digit c
  | EmptyString => false
  end.

Definition snoc (s : string) (c : ascii) : string := s +:+ String c EmptyString.

(** [re.findall(r"\d+\.\d+|\d+", s)]: a dot belongs to a number only when a
    digit follows it. *)
Fixpoint findall_numbers (s : string) (st : scan_state) : list string :=
  match s with
  | EmptyString =>
      match st with
      | Idle => []
      | InInt tok | InFrac tok => [tok]
      end
  | String c r =>
      match st with
      | Idle =>
          if is_digit c then findall_numbers r (InInt (String c EmptyString))
          else findall_numbers r Idle
      | InInt tok =>
          if is_digit c then findall_numbers r (InInt (snoc tok c))
          else if Ascii.eqb c "." && starts_with_digit r then
            findall_numbers r (InFrac (snoc tok c))
          else tok :: findall_numbers r Idle
      | InFrac tok =>
          if is_digit c then findall_numbers r (InFrac (snoc tok c))
          else tok :: findall_numbers r Idle
      end
  end.

(** [nums[-6:]] *)
Definition last_six (nums : list string) : list string :=
  skipn (length nums - 6) nums.

(** The lines of a table: every non-empty cell, split at newlines. *)
Definition table_lines (t : table) : list string :=
  flat_map
    (fun r : row =>
       flat_map
         (fun c : cell =>
            match c with
            | Some s => if String.eqb s "" then [] else split_on "010" s
            | None => []
            end) r) t.

(** The first loop: a line with six numbers or more closes a row, whose
    description is what was read since the row before. *)
Fixpoint group_rows (lines : list string) (desc : list string)
    : list (list string * list string) :=
  match lines with
  | [] => []
  | line :: rest =>
      let nums := findall_numbers line Idle in
      if (6 <=? length nums)%nat then
        (desc, last_six nums) :: group_rows rest []
      else group_rows rest (desc ++ [line])%list
  end.

Definition is_charge (full_desc : string) : bool :=
  str_in "shipping" (lower full_desc) || str_in "handling" (lower full_desc).

Definition item_of (i : nat) (full_desc : string) (n : list string) : line_item :=
  {| SlNo := i;
     Description := VStr full_desc;
     UnitPrice := VStr (nth 1 n "");
     Discount := VStr (nth 2 n "");
     Qty := VStr (nth 0 n "");
     NetAmount := VStr (nth 3 n "");
     TaxRate := VStr "";
     TaxType := VStr "IGST";
     TaxAmount := VStr (nth 4 n "");
     TotalAmount := VStr (nth 5 n "") |}.

(** The second loop, [for i, (d, n) in enumerate(rows, i)]. *)
Fixpoint build_items (rows : list (list string * list string)) (i : nat)
    : list line_item :=
  match rows with
  | [] => []
  | (d, n) :: rest =>
      let full_desc := join " " d in
      if is_charge full_desc then build_items rest (S i)
      else item_of i full_desc n :: build_items rest (S i)
  end.

(** [extract_line_items(pdf_path)]: the rows of the frame it returns. *)
Definition extract_line_items (pages : document) : result (list line_item) :=
  match pages with
  | [] => Raise IndexError
  | page :: _ =>
      match tables page with
      | [] => Ok []
      | table :: _ => Ok (build_items (group_rows (table_lines table) []) 1)
      end
  end.

(** The description pending after the lines [lines], started from [desc]. *)
Fixpoint pending (lines : list string) (desc : list string) : list string :=
  match lines with
  | [] => desc
  | line :: rest =>
      if (6 <=? length (findall_numbers line Idle))%nat then pending rest []
      else pending rest (desc ++ [line])%list
  end.

(** The six numbers of the round trip. *)
Definition six_numbers : list string :=
  ["2"; "100.0"; "10.0"; "180.0"; "18.0"; "198.0"].

(** *** The total-price rule of [extract_fields] *)

(** A pattern letter under [re.I]. *)
Definition ci_eqb (a b : ascii) : bool :=
  Ascii.eqb (lower_char a) (lower_char b).

(** Matches the literal [lit] at the head of [s], in any letter case, and
    gives what follows it. *)
Fixpoint match_literal (lit s : string) : option string :=
  match lit, s with
  | EmptyString, _ => Some s
  | String a lit', String b s' =>
      if ci_eqb a b then match_literal lit' s' else None
  | String _ _, EmptyString => None
  end.

Fixpoint skip_while (f : ascii -> bool) (s : string) : string :=
  match s with
  | String c s' => if f c then skip_while f s' else s
  | EmptyString => EmptyString
  end.

Fixpoint take_while (f : ascii -> bool) (s : string) : string :=
  match s with
  | String c s' => if f c then String c (take_while f s') else EmptyString
  | EmptyString => EmptyString
  end.

(** The class written [[\\d.]] in the raw pattern: a backslash, the letter
    d (of either case, the rule being case-insensitive) and the dot. *)
Definition in_price_class (c : ascii) : bool :=
  Ascii.eqb c "\" || Ascii.eqb c "d" || Ascii.eqb c "D" || Ascii.eqb c ".".

(** The class [[:\s]] *)
Definition is_colon_or_space (c : ascii) : bool :=
  Ascii.eqb c ":" || is_space c.

(** [TOTAL\s*PRICE], matched at the head of [s]. *)
Definition match_label (s : string) : option string :=
  match match_literal "TOTAL" s with
  | Some r => match_literal "PRICE" (skip_while is_space r)
  | None => None
  end.

(** [TOTAL\s*PRICE[:\s]*([\\d.]+)] matched at the head of [s]: the group.
    Each starred class is disjoint from what follows it, so the longest run
    is the only one that can lead to a match. *)
Definition match_total_price_at (s : string) : option string :=
  match match_label s with
  | Some r =>
      match take_while in_price_class (skip_while is_colon_or_space r) with
      | EmptyString => None
      | g => Some g
      end
  | None => None
  end.

(** [re.search]: the leftmost position where the pattern matches. *)
Fixpoint search_total_price (s : string) : option string :=
  match match_total_price_at s with
  | Some g => Some g
  | None =>
      match s with
      | String _ s' => search_total_price s'
      | EmptyString => None
      end
  end.

(** [data["total_amount"]] of [extract_fields(cluster)], that is
    [grab(r"TOTAL\s*PRICE[:\s]*([\\d.]+)")]. *)
Definition total_amount_field (cluster : string) : string :=
  match search_total_price cluster with
  | Some g => strip g
  | None => EmptyString
  end.

(** *** [extract_fields] *)

Section Fields.

(** [grab(pattern, flags)] on the cluster text: the first group of the
    first match, stripped, or the empty text.  The regular-expression
    engine is left open; the boolean tells whether [re.S] is set. *)
Variable grab : string -> bool -> string -> string.

Definition is_comma_or_blank (c : ascii) : bool :=
  Ascii.eqb c "," || Ascii.eqb c " ".

(** [extract_fields(cluster)]: the dictionary, the keys set last
    outermost.  The total price is the rule modelled above. *)
Definition extract_fields (cluster : string) : gmap string value :=
  let seller_name := grab "Sold\s*By\s+([^,|]+)" false cluster in
  let seller_address :=
    grab "Sold\s*By.*?,\s*(.*?)\s*(Billing\s*Address|BillingAddress)" true
         cluster in
  let state := grab "IN-([A-Z]{2})" false cluster in
  <[ "amount_in_words" := VStr "" ]>
    (<[ "fssai_license" := VStr "" ]>
    (<[ "invoice_details" := VStr "" ]>
    (<[ "seller_info" :=
          VStr (strip_of is_comma_or_blank
                  (seller_name +:+ ", " +:+ seller_address)) ]>
    (<[ "place_of_delivery" := VStr state ]>
    (<[ "place_of_supply" := VStr state ]>
    (<[ "shipping_state_code" := VStr state ]>
    (<[ "billing_state_code" := VStr state ]>
    (<[ "reverse_charge" := VStr "No" ]>
    (<[ "total_amount" := VStr (total_amount_field cluster) ]>
    (<[ "shipping_address" :=
          VStr (grab "Shipping\s*ADDRESS\s+(.*?)\s+Seller\s*Registered\s*Address"
                     true cluster) ]>
    (<[ "billing_address" :=
          VStr (grab "Billing\s*Address\s+(.*?)\s+Shipping\s*ADDRESS" true
                     cluster) ]>
    (<[ "seller_address" := VStr seller_address ]>
    (<[ "seller_name" := VStr seller_name ]>
    (<[ "seller_pan" :=
          VStr (grab "PAN[:\s]*([A-Z]{5}\d{4}[A-Z])" false cluster) ]>
    (<[ "seller_gst" :=
          VStr (grab "GSTIN[:\s]*([0-9A-Z]{15})" false cluster) ]>
    (<[ "invoice_date" :=
          VStr (grab "Invoice\s*Date[:\s]*([\d\-,: ]+[APM]{2})" false
                     cluster) ]>
    (<[ "invoice_number" :=
          VStr (grab "Invoice\s*No[:\s]*([A-Z0-9]+)" false cluster) ]>
    (<[ "order_date" :=
          VStr (grab "Order\s*Date[:\s]*([\d\-,: ]+[APM]{2})" false
                     cluster) ]>
    (<[ "order_number" :=
          VStr (grab "Order\s*Id[:\s]*([A-Z0-9]+)" false cluster) ]>
    (<[ "invoice_type" := VStr "Tax Invoice" ]> ∅)))))))))))))))))))).

End Fields.

(** Every character of [s] satisfies [f]. *)
Fixpoint all_chars (f : ascii -> bool) (s : string) : bool :=
  match s with
  | EmptyString => true
  | String c s' => f c && all_chars f s'
  end.

(** Wherever the label [TOTAL\s*PRICE] matches in [s], what follows it after
    colons and blanks begins with a digit. *)
Fixpoint every_label_before_digit (s : string) : bool :=
  match match_label s with
  | Some r => starts_with_digit (skip_while is_colon_or_space r)
  | None => true
  end
  && match s with
     | String _ s' => every_label_before_digit s'
     | EmptyString => true
     end.

(** The item the round trip expects for row [k] with description [d]. *)
Definition expected_item (k : nat) (d : string) : line_item :=
  {| SlNo := k;
     Description := VStr d;
     UnitPrice := VStr "100.0";
     Discount := VStr "10.0";
     Qty := VStr "2";
     NetAmount := VStr "180.0";
     TaxRate := VStr "";
     TaxType := VStr "IGST";
     TaxAmount := VStr "18.0";
     TotalAmount := VStr "198.0" |}.

(** A number as the scan yields it: digits, and after them nothing or a
    dot and digits. *)
Definition is_number_text (t : string) : bool :=
  starts_with_digit t
  && match skip_while is_digit t with
     | EmptyString => true
     | String c f =>
         Ascii.eqb c "." && starts_with_digit f && all_chars is_digit f
     end.

Definition is_number_value (v : value) : bool :=
  match v with
  | VStr t => is_number_text t
  | _ => false
  end.

(** The six amounts of an item. *)
Definition amounts (it : line_item) : list value :=
  [Qty it; UnitPrice it; Discount it; NetAmount it; TaxAmount it;
   TotalAmount it].

(** The state of the scan fits what is left to read: a token in the making
    is a run of digits, or digits and a dot with digits to follow. *)
Definition scan_ok (st : scan_state) (s : string) : Prop :=
  match st with
  | Idle => True
  | InInt tok => tok <> "" /\ all_chars is_digit tok = true
  | InFrac tok =>
      exists i f, tok = i +:+ String "." f
        /\ i <> "" /\ all_chars is_digit i = true
        /\ all_chars is_digit f = true
        /\ (f = "" -> starts_with_digit s = true)
  end.

(** Example inputs. *)
Definition widget_table : table :=
  [ [Some "Sl"; Some "Item"];
    [Some "1"; Some "Widget blue, model 7"];
    [Some "HSN 8471 2 100.0 10.0 180.0 18.0 198.0"; None] ].

Definition widget_page : page := {| chars := []; tables := [widget_table] |}.

(** The same table with a shipping row and a closing remark. *)
Definition widget_shipping_table : table :=
  [ [Some "Widget blue"; Some "HSN 8471 2 100.0 10.0 180.0 18.0 198.0"];
    [Some "Shipping and Handling Charges"; Some "1 40.0 0.0 40.0 0.0 40.0"];
    [Some "Thank you"; Some "Order 7"] ].

Definition widget_shipping_page : page :=
  {| chars := []; tables := [widget_shipping_table] |}.

Definition cluster_198 : string :=
  "Grand Total | TOTAL PRICE: 198.0 | All values are in INR".

Definition cluster_dot_5 : string := "TOTAL PRICE: .5".

End Flipkart.

(** ** extractors_zomato.py *)
Module Zomato.
Import PyStr PyFloat Py Pdf.

(** [safe_float(val)] on a cell *)
Definition safe_float (c : cell) : float :=
  match c with
  | None => zero
  | Some s =>
      match float_of_str (strip (remove_char "," (remove_char "%" s))) with
      | Some x => x
      | None => zero
      end
  end.

(** [find_col(keys)]: the first column whose label holds every key.  The
    code returns the label; the column is given here by its position, the
    first one that bears this label. *)
Fixpoint find_col (header : list string) (keys : list string) (idx : nat)
    : option nat :=
  match header with
  | [] => None
  | c :: rest =>
      if forallb (fun k => str_in k c) keys then Some idx
      else find_col rest keys (S idx)
  end.

(** The labels of the frame after [df.columns = header], and the nine
    columns looked up in them. *)
Record cols : Set := {
  labels : list string;
  part_col : option nat;
  gross_col : option nat;
  disc_col : option nat;
  net_col : option nat;
  cgst_rate_col : option nat;
  cgst_amt_col : option nat;
  sgst_rate_col : option nat;
  sgst_amt_col : option nat;
  total_col : option nat
}.

Definition find_cols (header : list string) : cols :=
  {| labels := header;
     part_col := find_col header ["particular"] 0;
     gross_col := find_col header ["gross"] 0;
     disc_col := find_col header ["discount"] 0;
     net_col := find_col header ["net"] 0;
     cgst_rate_col := find_col header ["cgst"; "rate"] 0;
     cgst_amt_col := find_col header ["cgst"; "inr"] 0;
     sgst_rate_col := find_col header ["sgst"; "rate"] 0;
     sgst_amt_col := find_col header ["sgst"; "inr"] 0;
     total_col := find_col header ["total"] 0 |}.

(** [row[col]] on a frame whose looked-up labels are not repeated
    ([unique_labels] below): the cell of the column.  A column that was not
    found is the label [None], which the row does not have.  Under a label
    that the header repeats pandas returns no cell but the series of the
    cells under that label ([by_label] below); the loop is modelled, and
    the theorems on it are stated, for headers without such a repeat. *)
Definition get (r : row) (col : option nat) : result cell :=
  match col with
  | Some i => Ok (at_col r i)
  | None => Raise KeyError
  end.

(** The positions of the columns that bear the label of column [i]. *)
Definition same_label (header : list string) (i : nat) : list nat :=
  List.filter (fun j => String.eqb (nth j header "") (nth i header ""))
              (seq 0 (length header)).

(** What pandas gives for [row[label]]: the cell when one column bears the
    label, the series of the cells under it when several do. *)
Inductive looked : Set :=
| Scalar (c : cell)
| Series (cells : list cell).

(** [row[col]] read by label, as pandas reads it. *)
Definition by_label (cs : cols) (r : row) (col : option nat)
    : result looked :=
  match col with
  | None => Raise KeyError
  | Some i =>
      match same_label (labels cs) i with
      | [] => Raise KeyError
      | [j] => Ok (Scalar (at_col r j))
      | js => Ok (Series (List.map (at_col r) js))
      end
  end.

(** The label of a column that was found is borne by this column only. *)
Definition label_once (cs : cols) (col : option nat) : bool :=
  match col with
  | None => true
  | Some i => (length (same_label (labels cs) i) =? 1)%nat
  end.

(** None of the labels that were looked up is repeated in the header: every
    [row[col]] of the loop is then a cell, the one [get] gives. *)
Definition unique_labels (cs : cols) : bool :=
  label_once cs (part_col cs) && label_once cs (gross_col cs)
  && label_once cs (disc_col cs) && label_once cs (net_col cs)
  && label_once cs (cgst_rate_col cs) && label_once cs (cgst_amt_col cs)
  && label_once cs (sgst_rate_col cs) && label_once cs (sgst_amt_col cs)
  && label_once cs (total_col cs).

(** The variables the loop updates. *)
Record state : Type := {
  line_items : list line_item;
  sl : nat;
  net_value : float;
  total_value : float;
  tax_value : float
}.

Definition init : state :=
  {| line_items := []; sl := 1; net_value := zero; total_value := zero;
     tax_value := zero |}.

Definition is_total_value (part : string) : bool := str_in "total value" part.
Definition is_subtotal (part : string) : bool := str_in "item(s) total" part.
Definition is_filled (part : string) : bool := negb (String.eqb (strip part) "").

(** One turn of [for _, row in df.iterrows()]. *)
Definition step (cs : cols) (st : state) (r : row) : result state :=
  let* p := get r (part_col cs) in
  let part := lower (str_of_cell p) in
  if is_total_value part then
    let* n := get r (net_col cs) in
    let* t := get r (total_col cs) in
    Ok {| line_items := line_items st;
          sl := sl st;
          net_value := safe_float n;
          total_value := safe_float t;
          tax_value := round2 (fsub (safe_float t) (safe_float n)) |}
  else if is_subtotal part then Ok st
  else if is_filled part then
    let* g := get r (gross_col cs) in
    let* d := get r (disc_col cs) in
    let* n := get r (net_col cs) in
    let* cr := get r (cgst_rate_col cs) in
    let* sr := get r (sgst_rate_col cs) in
    let* ca := get r (cgst_amt_col cs) in
    let* sa := get r (sgst_amt_col cs) in
    let* t := get r (total_col cs) in
    Ok {| line_items :=
            (line_items st
             ++ [ {| SlNo := sl st;
                     Description := value_of_cell p;
                     UnitPrice := VFloat (safe_float g);
                     Discount := VFloat (safe_float d);
                     Qty := VInt 1;
                     NetAmount := VFloat (safe_float n);
                     TaxRate := VStr (str_of_cell cr +:+ " + " +:+ str_of_cell sr);
                     TaxType := VStr "CGST+SGST";
                     TaxAmount := VFloat (fadd (safe_float ca) (safe_float sa));
                     TotalAmount := VFloat (safe_float t) |} ])%list;
          sl := S (sl st);
          net_value := net_value st;
          total_value := total_value st;
          tax_value := tax_value st |}
  else Ok st.

Fixpoint run_rows (cs : cols) (rows : list row) (st : state) : result state :=
  match rows with
  | [] => Ok st
  | r :: rest => let* st' := step cs st r in run_rows cs rest st'
  end.

(** What the loop over the tables does with one table up to its rows:
    [None] when the table is passed over, [IndexError] when the frame has
    no row left to serve as header. *)
Definition open_table (t : table) : option (result (cols * list row)) :=
  if (width t <? 6)%nat then None
  else
    match dropna_all (frame t) with
    | [] => Some (Raise IndexError)
    | h :: rows =>
        let header := List.map (fun c => lower (str_of_cell c)) h in
        if str_in "particulars" (join " " header) then
          Some (Ok (find_cols header, rows))
        else None
    end.

Definition outcome : Type := list line_item * float * float * float.

(** The frame of items with the net, tax and total values, in the order of
    the [return]. *)
Definition finish (st : state) : outcome :=
  (line_items st, net_value st, tax_value st, total_value st).

Fixpoint scan_tables (ts : list table) : option (result outcome) :=
  match ts with
  | [] => None
  | t :: rest =>
      match open_table t with
      | Some r =>
          Some (let* cr := r in
                let* st := run_rows (fst cr) (snd cr) init in
                Ok (finish st))
      | None => scan_tables rest
      end
  end.

(** [extract_table_and_totals(pdf_path)] *)
Fixpoint extract_table_and_totals (pages : document) : result outcome :=
  match pages with
  | [] => Ok ([], zero, zero, zero)
  | p :: rest =>
      match scan_tables (tables p) with
      | Some r => r
      | None => extract_table_and_totals rest
      end
  end.

(** The text of the particulars cell of a row, as the loop tests it. *)
Definition part_text (cs : cols) (r : row) : string :=
  match part_col cs with
  | Some i => lower (str_of_cell (at_col r i))
  | None => EmptyString
  end.

(** The cell of a row under a column that was found. *)
Definition cell_at (r : row) (col : option nat) : cell :=
  match col with
  | Some i => at_col r i
  | None => None
  end.

(** A row that becomes a line item. *)
Definition is_item (cs : cols) (r : row) : bool :=
  negb (is_total_value (part_text cs r))
  && negb (is_subtotal (part_text cs r))
  && is_filled (part_text cs r).

Definition found (col : option nat) : bool :=
  match col with
  | Some _ => true
  | None => false
  end.

(** All nine columns were found. *)
Definition complete (cs : cols) : bool :=
  found (part_col cs) && found (gross_col cs) && found (disc_col cs)
  && found (net_col cs) && found (cgst_rate_col cs)
  && found (cgst_amt_col cs) && found (sgst_rate_col cs)
  && found (sgst_amt_col cs) && found (total_col cs).

(** The item built from row [r] with rank [n]. *)
Definition item_of (cs : cols) (n : nat) (r : row) : line_item :=
  {| SlNo := n;
     Description := value_of_cell (cell_at r (part_col cs));
     UnitPrice := VFloat (safe_float (cell_at r (gross_col cs)));
     Discount := VFloat (safe_float (cell_at r (disc_col cs)));
     Qty := VInt 1;
     NetAmount := VFloat (safe_float (cell_at r (net_col cs)));
     TaxRate := VStr (str_of_cell (cell_at r (cgst_rate_col cs)) +:+ " + "
                      +:+ str_of_cell (cell_at r (sgst_rate_col cs)));
     TaxType := VStr "CGST+SGST";
     TaxAmount := VFloat (fadd (safe_float (cell_at r (cgst_amt_col cs)))
                               (safe_float (cell_at r (sgst_amt_col cs))));
     TotalAmount := VFloat (safe_float (cell_at r (total_col cs))) |}.

(** The turn of the loop when all nine columns were found. *)
Definition step_found (cs : cols) (st : state) (r : row) : state :=
  if is_total_value (part_text cs r) then
    {| line_items := line_items st;
       sl := sl st;
       net_value := safe_float (cell_at r (net_col cs));
       total_value := safe_float (cell_at r (total_col cs));
       tax_value := round2 (fsub (safe_float (cell_at r (total_col cs)))
                                 (safe_float (cell_at r (net_col cs)))) |}
  else if is_item cs r then
    {| line_items := (line_items st ++ [item_of cs (sl st) r])%list;
       sl := S (sl st);
       net_value := net_value st;
       total_value := total_value st;
       tax_value := tax_value st |}
  else st.

(** The items of a list of rows. *)
Definition items_of (cs : cols) (rows : list row) : result (list line_item) :=
  let* st := run_rows cs rows init in Ok (line_items st).

Definition one_table (t : table) : document :=
  [ {| chars := []; tables := [t] |} ].

(** The rows that become items, numbered from [n] on. *)
Fixpoint number_items (cs : cols) (rows : list row) (n : nat)
    : list line_item :=
  match rows with
  | [] => []
  | r :: rest =>
      if is_item cs r then item_of cs n r :: number_items cs rest (S n)
      else number_items cs rest n
  end.

(** The first table of the document that the loops do not pass over, with
    its columns and rows. *)
Fixpoint first_open (ts : list table) : option (result (cols * list row)) :=
  match ts with
  | [] => None
  | t :: rest =>
      match open_table t with
      | Some r => Some r
      | None => first_open rest
      end
  end.

Fixpoint first_table (pages : document) : option (result (cols * list row)) :=
  match pages with
  | [] => None
  | p :: rest =>
      match first_open (tables p) with
      | Some r => Some r
      | None => first_table rest
      end
  end.

(** The columns other than the particulars. *)
Definition other_cols (cs : cols) : list (option nat) :=
  [gross_col cs; disc_col cs; net_col cs; cgst_rate_col cs; cgst_amt_col cs;
   sgst_rate_col cs; sgst_amt_col cs; total_col cs].

(** An invoice table with a row below the totals row. *)
Definition zomato_header : row :=
  [Some "Particulars"; Some "Gross value"; Some "Discount"; Some "Net value";
   Some "CGST Rate"; Some "CGST (INR)"; Some "SGST Rate"; Some "SGST (INR)";
   Some "Total"].

Definition paneer_row : row :=
  [Some "Paneer Tikka"; Some "200"; Some "0"; Some "200"; Some "2.5%";
   Some "5"; Some "2.5%"; Some "5"; Some "210"].

Definition total_row : row :=
  [Some "Total Value"; Some "200"; Some "0"; Some "200"; Some ""; Some "5";
   Some ""; Some "5"; Some "210"].

Definition packing_row : row :=
  [Some "Packing charge"; Some "10"; Some "0"; Some "10"; Some "2.5%";
   Some "0.25"; Some "2.5%"; Some "0.25"; Some "10.5"].

Definition zomato_table : table :=
  [zomato_header; paneer_row; total_row; packing_row].

(** A table without the discount column, and one whose second row has no
    particulars cell and which has no totals row. *)
Definition no_discount_table : table :=
  [ [Some "Particulars"; Some "Gross value"; Some "Net value";
     Some "CGST Rate"; Some "CGST (INR)"; Some "SGST Rate"; Some "SGST (INR)";
     Some "Total"];
    [Some "Item(s) total"; Some "200"; Some "200"; None; Some "5"; None;
     Some "5"; Some "210"];
    [Some "Paneer Tikka"; Some "200"; Some "200"; Some "2.5%"; Some "5";
     Some "2.5%"; Some "5"; Some "210"] ].

(** The header of [zomato_table] with a second column labelled "Total". *)
Definition twice_total_header : row :=
  (zomato_header ++ [Some "Total"])%list.

Definition unnamed_row : row :=
  [None; Some "30"; Some "0"; Some "30"; Some "2.5%"; Some "0.75";
   Some "2.5%"; Some "0.75"; Some "31.5"].

Definition unnamed_table : table := [zomato_header; paneer_row; unnamed_row].

End Zomato.

(** ** extractors_blinkit.py *)

Module Blinkit.
Import PyStr PyFloat Py Pdf.

(** [safe_float(val)] on a cell; [str(None)] is no number, and any failure
    gives 0.0. *)
Definition safe_float (c : cell) : float :=
  match float_of_str
          (strip (remove_char "%" (remove_char "," (str_of_cell c)))) with
  | Some x => x
  | None => zero
  end.

(** [re.sub(r"\s+", " ", s)]: every run of blanks becomes one space;
    [in_run] tells that the character before was a blank. *)
Fixpoint collapse (s : string) (in_run : bool) : string :=
  match s with
  | EmptyString => EmptyString
  | String c r =>
      if is_space c then
        if in_run then collapse r true else String " " (collapse r true)
      else String c (collapse r false)
  end.

(** [clean(text)] *)
Definition clean (c : cell) : string :=
  strip (collapse (str_of_cell c) false).

(** [row[i]] on a row of a frame with [w] columns, which are labelled
    0, ..., w-1: a label that is not there raises [KeyError]. *)
Definition col (w : nat) (r : row) (i : nat) : result cell :=
  if (i <? w)%nat then Ok (at_col r i) else Raise KeyError.

(** [str(row[0]).strip().lower() == "total"] *)
Definition is_total (c0 : cell) : bool :=
  String.eqb (lower (strip (str_of_cell c0))) "total".

Definition item_of (sl : nat) (desc : string) (c3 c4 c5 c6 c13 : cell)
    : line_item :=
  {| SlNo := sl;
     Description := VStr desc;
     UnitPrice := VFloat (safe_float c3);
     Discount := VFloat (safe_float c4);
     Qty := VFloat (safe_float c5);
     NetAmount := VFloat (safe_float c6);
     TaxRate := VStr "";
     TaxType := VStr "GST";
     TaxAmount := VFloat (round2 (fsub (safe_float c13) (safe_float c6)));
     TotalAmount := VFloat (safe_float c13) |}.

(** The loop [for i in range(FIRST_ITEM_ROW, len(df))] on the rows it
    visits: the items, [total_tax] and [total_amount] when it ends. *)
Fixpoint loop (w : nat) (rows : list row) (items : list line_item) (sl : nat)
    : result (list line_item * float * float) :=
  match rows with
  | [] => Ok (items, zero, zero)
  | r :: rest =>
      let* c0 := col w r 0 in
      if is_total c0 then
        let* c8 := col w r 8 in
        let* c10 := col w r 10 in
        let* c13 := col w r 13 in
        Ok (items, fadd (safe_float c8) (safe_float c10), safe_float c13)
      else
        let* c2 := col w r 2 in
        let desc := clean c2 in
        if String.eqb desc "" then loop w rest items sl
        else
          let* c6 := col w r 6 in
          let* c13 := col w r 13 in
          let* c3 := col w r 3 in
          let* c4 := col w r 4 in
          let* c5 := col w r 5 in
          loop w rest (items ++ [item_of sl desc c3 c4 c5 c6 c13])%list (S sl)
  end.

(** [extract_items_and_totals(df)] for [df = pd.DataFrame(table)]. *)
Definition extract_items_and_totals (t : table)
    : result (list line_item * float * float) :=
  let* r := loop (width t) (skipn 6 (frame t)) [] 1 in
  Ok (fst (fst r), round2 (snd (fst r)), round2 (snd r)).

(** Blanks are plain spaces and never follow one another; [prev] tells
    that a blank stands before [s]. *)
Fixpoint single_spaced (s : string) (prev : bool) : bool :=
  match s with
  | EmptyString => true
  | String c r =>
      if is_space c then Ascii.eqb c " " && negb prev && single_spaced r true
      else single_spaced r false
  end.

(** A row that the loop turns into an item. *)
Definition is_item (r : row) : bool :=
  negb (is_total (at_col r 0)) && negb (String.eqb (clean (at_col r 2)) "").

(** The items of the rows [rows], numbered from [n] on. *)
Fixpoint number_items (rows : list row) (n : nat) : list line_item :=
  match rows with
  | [] => []
  | r :: rest =>
      if is_item r then
        item_of n (clean (at_col r 2)) (at_col r 3) (at_col r 4) (at_col r 5)
                (at_col r 6) (at_col r 13)
        :: number_items rest (S n)
      else number_items rest n
  end.

(** A table of fourteen columns: six rows of headings, two items around a
    row without description, the totals, and a row below them. *)
Definition blank14 : row := repeat None 14.

Definition item_row (desc net total : string) : row :=
  [Some "1"; None; Some desc; Some "50"; Some "0"; Some "2"; Some net; None;
   Some "2.5"; None; Some "2.5"; None; None; Some total].

Definition totals_row : row :=
  [Some " Total "; None; None; None; None; None; Some "300"; None;
   Some "7.5"; None; Some "7.5"; None; None; Some "315"].

Definition blinkit_table : table :=
  (repeat blank14 6
   ++ [ item_row "Amul  Butter" "100" "105";
        item_row "  " "0" "0";
        item_row "Bread" "200" "210";
        totals_row ])%list.

Definition note_row : row := [Some "2"; None; Some "Delivery note"].

(** The same rows cut to seven columns. *)
Definition narrow_table : table :=
  List.map (firstn 7) blinkit_table.

End Blinkit.


(** ** extractors_instamart.py *)

Module Instamart.
Import PyStr PyFloat Py Pdf.

(** [safe_float(val)] on a cell: [None] when [float] fails. *)
Definition safe_float (c : cell) : option float :=
  float_of_str (strip (remove_char "%" (remove_char "," (str_of_cell c)))).

Definition value_of_float (x : option float) : value :=
  match x with
  | Some y => VFloat y
  | None => VNone
  end.

(** The variables the loops update. *)
Record state : Type := {
  items : list line_item;
  total_tax : float;
  total_amount : float;
  sl : nat
}.

Definition init : state :=
  {| items := []; total_tax := zero; total_amount := zero; sl := 1 |}.

(** One turn of [for _, row in df_items.iterrows()] on a frame of [w]
    columns. *)
Definition step (w : nat) (st : state) (r : row) : state :=
  if (w <? 16)%nat then st
  else
    let desc := strip (str_of_cell (at_col r 1)) in
    if String.eqb desc "" || str_in "invoice value" (lower desc) then st
    else
      match safe_float (at_col r 7), safe_float (at_col r 15) with
      | Some net_val, Some total_val =>
          let tax_val := round2 (fsub total_val net_val) in
          {| items :=
               (items st
                ++ [ {| SlNo := sl st;
                        Description := VStr (replace_char "010" " " desc);
                        UnitPrice := VStr "";
                        Discount := VStr "";
                        Qty := value_of_float (safe_float (at_col r 2));
                        NetAmount := VFloat net_val;
                        TaxRate := VStr "";
                        TaxType := VStr "GST";
                        TaxAmount := VFloat tax_val;
                        TotalAmount := VFloat total_val |} ])%list;
             total_tax := fadd (total_tax st) tax_val;
             total_amount := fadd (total_amount st) total_val;
             sl := S (sl st) |}
      | _, _ => st
      end.

(** The loop over the tables of the first page: the first table with
    four rows and "description of goods" in its third row is read, and
    the loop ends there. *)
Fixpoint scan_tables (ts : list table) : state :=
  match ts with
  | [] => init
  | t :: rest =>
      let df := dropna_all (frame t) in
      if (length df <? 4)%nat then scan_tables rest
      else
        let header_text :=
          lower (join " " (List.map str_of_cell (nth 2 df []))) in
        if str_in "description of goods" header_text then
          fold_left (step (width t)) (skipn 3 df) init
        else scan_tables rest
  end.

(** [extract_items_and_totals(pdf_path)] *)
Definition extract_items_and_totals (pages : document)
    : result (list line_item * float * float) :=
  match pages with
  | [] => Raise IndexError
  | p :: _ =>
      let st := scan_tables (tables p) in
      Ok (items st, round2 (total_tax st), round2 (total_amount st))
  end.

(** The amounts of an item. *)
Definition float_of_value (v : value) : float :=
  match v with
  | VFloat x => x
  | _ => zero
  end.

Definition tax_of (it : line_item) : float := float_of_value (TaxAmount it).
Definition total_of (it : line_item) : float :=
  float_of_value (TotalAmount it).
Definition net_of (it : line_item) : float := float_of_value (NetAmount it).

(** [0.0 + x1 + x2 + ...], added from the left. *)
Definition running_sum (l : list float) : float := fold_left fadd l zero.

(** What the loop keeps true of its variables. *)
Definition consistent (st : state) : Prop :=
  total_tax st = running_sum (List.map tax_of (items st))
  /\ total_amount st = running_sum (List.map total_of (items st))
  /\ List.map SlNo (items st) = seq 1 (length (items st))
  /\ sl st = S (length (items st))
  /\ Forall (fun it => tax_of it = round2 (fsub (total_of it) (net_of it)))
            (items st).

(** A table of sixteen columns with two items, a row without amounts and
    the invoice value. *)
Definition goods_row (desc qty net total : string) : row :=
  [Some "1"; Some desc; Some qty; None; None; None; None; Some net; None;
   None; None; None; None; None; None; Some total].

Definition goods_table : table :=
  [ goods_row "Tax Invoice" "" "" "";
    goods_row "Seller" "" "" "";
    goods_row "Description of Goods" "Qty" "Taxable" "Total";
    goods_row "Milk 1L" "2" "100.00" "105.00";
    goods_row "Handling" "" "" "";
    goods_row "Curd" "1" "40.00" "42.00";
    goods_row "Invoice Value" "" "140.00" "147.00" ].

End Instamart.

(** ** The text clusterer of extractors_amazon.py and extractors_flipkart.py *)
Module Cluster.
Import PyStr PyFloat Py Pdf.

Definition float_of_nat (n : nat) : float :=
  binary_normalize prec emax (Z.of_nat n) 0 false.

Definition two : float := float_of_nat 2.
Definition three : float := float_of_nat 3.

(** [eps=0.1] and [eps=0.12] *)
Definition eps_amazon : float := float_of_decimal false 1 (-1).
Definition eps_flipkart : float := float_of_decimal false 12 (-2).

(** [a > b] on floats *)
Definition fgt (a b : float) : bool := SFltb b a.

(** The centre of a glyph, [[x, y]]. *)
Definition center (g : glyph) : float * float :=
  (fdiv (fadd (x0 g) (x1 g)) two, fdiv (fadd (top g) (bottom g)) two).

(** *** The array operations *)

(** The sum of a column, added from the first row on (the order in which
    the array library adds the rows of a short column). *)
Definition sum (l : list float) : float :=
  match l with
  | [] => zero
  | x :: r => fold_left fadd r x
  end.

(** [a.mean()] *)
Definition mean (l : list float) : float :=
  fdiv (sum l) (float_of_nat (length l)).

(** [a.std()]: the root of the mean of the squared deviations. *)
Definition std (l : list float) : float :=
  let m := mean l in
  fsqrt (mean (List.map (fun x => fmul (fsub x m) (fsub x m)) l)).

(** [(a - a.mean()) / a.std()]: a division by zero gives NaN or an
    infinity and a warning, never an exception. *)
Definition zscore (l : list float) : list float :=
  let m := mean l in
  let s := std l in
  List.map (fun x => fdiv (fsub x m) s) l.

Section Clustering.

(** The labels that [DBSCAN(eps, min_samples=1).fit_predict] gives to
    points that are all finite; the clustering library is not part of the
    sources. *)
Variable dbscan : float -> list (float * float) -> list Z.

(** [fit_predict] checks its input first and raises [ValueError] when a
    coordinate is NaN or infinite. *)
Definition fit_predict (eps : float) (pts : list (float * float))
    : result (list Z) :=
  if forallb (fun p => is_finite (fst p) && is_finite (snd p)) pts then
    Ok (dbscan eps pts)
  else Raise ValueError.

(** [clusters.setdefault(lbl, []).append(ch)]: the clusters stay in the
    order in which their labels first appear. *)
Fixpoint add_to (lbl : Z) (g : glyph) (cl : list (Z * list glyph))
    : list (Z * list glyph) :=
  match cl with
  | [] => [(lbl, [g])]
  | (l, gs) :: rest =>
      if (l =? lbl)%Z then (l, (gs ++ [g])%list) :: rest
      else (l, gs) :: add_to lbl g rest
  end.

Definition clusters_of (labels : list Z) (refs : list glyph)
    : list (Z * list glyph) :=
  fold_left
    (fun cl lg => if (fst lg =? -1)%Z then cl else add_to (fst lg) (snd lg) cl)
    (combine labels refs) [].

(** [(a.top, a.x0) < (b.top, b.x0)] *)
Definition key_lt (a b : glyph) : bool :=
  if SFeqb (top a) (top b) then SFltb (x0 a) (x0 b)
  else SFltb (top a) (top b).

(** [sorted(group, key=...)]: a stable sort. *)
Fixpoint insert_sorted (g : glyph) (l : list glyph) : list glyph :=
  match l with
  | [] => [g]
  | h :: r => if key_lt g h then g :: h :: r else h :: insert_sorted g r
  end.

Definition sorted (group : list glyph) : list glyph :=
  fold_left (fun acc g => insert_sorted g acc) group [].

(** The text of a cluster: a blank wherever the top moves by more than 3. *)
Fixpoint render (gs : list glyph) (prev_top : option float) (txt : string)
    : string :=
  match gs with
  | [] => txt
  | g :: r =>
      let txt :=
        match prev_top with
        | Some pt =>
            if fgt (SFabs (fsub (top g) pt)) three then txt +:+ " " else txt
        | None => txt
        end in
      render r (Some (top g)) (txt +:+ text g)
  end.

(** The blocks of the clusters of a page: those longer than 30 characters
    once stripped. *)
Definition blocks_of (cl : list (Z * list glyph)) : list string :=
  flat_map
    (fun c =>
       let t := strip (render (sorted (snd c)) None EmptyString) in
       if (30 <? String.length t)%nat then [t] else [])
    cl.

(** One page of [extract_cluster_text_amazon]. *)
Definition page_blocks_amazon (p : page) : result (list string) :=
  match chars p with
  | [] => Ok []
  | cs =>
      let points := List.map center cs in
      let points :=
        combine (zscore (List.map fst points)) (zscore (List.map snd points)) in
      let* labels := fit_predict eps_amazon points in
      Ok (blocks_of (clusters_of labels cs))
  end.

(** One page of the Flipkart [extract_cluster_text]. *)
Definition page_blocks_flipkart (p : page) : result (list string) :=
  match chars p with
  | [] => Ok []
  | cs =>
      let* n :=
        match tables p with
        | [] => Ok 0%nat
        | t0 :: ts => max_cols (max_by_len t0 ts)
        end in
      let points := List.map center cs in
      let* labels :=
        if (6 <=? n)%nat then
          fit_predict eps_amazon
            (combine (zscore (List.map fst points))
                     (zscore (List.map snd points)))
        else
          let x := zscore (List.map fst points) in
          let y := zscore (List.map snd points) in
          fit_predict eps_flipkart
            (combine (List.map (fun v => fmul v three) x) y) in
      Ok (blocks_of (clusters_of labels cs))
  end.

(** The loop over the pages, then [" | ".join(blocks)]. *)
Fixpoint all_blocks (page_blocks : page -> result (list string))
    (pages : document) (blocks : list string) : result (list string) :=
  match pages with
  | [] => Ok blocks
  | p :: rest =>
      let* bs := page_blocks p in
      all_blocks page_blocks rest (blocks ++ bs)%list
  end.

Definition extract_cluster_text_amazon (pages : document) : result string :=
  let* blocks := all_blocks page_blocks_amazon pages [] in
  Ok (join " | " blocks).

Definition extract_cluster_text (pages : document) : result string :=
  let* blocks := all_blocks page_blocks_flipkart pages [] in
  Ok (join " | " blocks).

End Clustering.

(** A page whose only glyph is a page number. *)
Definition page_number : glyph :=
  {| x0 := float_of_nat 290; x1 := float_of_nat 296;
     top := float_of_nat 800; bottom := float_of_nat 810; text := "2" |}.

Definition one_glyph_page : page := {| chars := [page_number]; tables := [] |}.

(** A clustering that labels nothing, to run the examples with. *)
Definition no_labels (eps : float) (pts : list (float * float)) : list Z := [].

(** The glyphs of cluster [lbl], in the order in which they were added. *)
Definition group_of (lbl : Z) (cl : list (Z * list glyph)) : list glyph :=
  match find (fun c => (fst c =? lbl)%Z) cl with
  | Some c => snd c
  | None => []
  end.

(** The glyphs that [labels] marks with [lbl], in the order of the page. *)
Definition labelled (lbl : Z) (labels : list Z) (refs : list glyph)
    : list glyph :=
  List.map snd
    (List.filter (fun lg => (fst lg =? lbl)%Z) (combine labels refs)).

(** A block as the clusterers keep it. *)
Definition is_block (b : string) : Prop :=
  (30 < String.length b)%nat /\ strip b = b.

(** A clustering that puts every point in cluster 0, and a page of two
    lines of sixteen glyphs. *)
Definition one_cluster (eps : float) (pts : list (float * float)) : list Z :=
  List.map (fun _ => 0%Z) pts.

Definition glyph_at (i : nat) (c : ascii) : glyph :=
  {| x0 := float_of_nat (10 * (i mod 16));
     x1 := float_of_nat (10 * (i mod 16) + 6);
     top := float_of_nat (100 + 12 * (i / 16));
     bottom := float_of_nat (110 + 12 * (i / 16));
     text := String c EmptyString |}.

Fixpoint glyphs_of (s : string) (i : nat) : list glyph :=
  match s with
  | EmptyString => []
  | String c r => glyph_at i c :: glyphs_of r (S i)
  end.

Definition two_line_page : page :=
  {| chars := glyphs_of "Sold By: Acme RetPrivate Limited" 0; tables := [] |}.

End Cluster.

(** ** base.py *)

Module Base.
Import PyStr PyFloat Py Pdf Validators.

(** [BaseExtractor.extract] on the outcomes of [extract_header] and
    [extract_line_items]: an exception in either gives the empty
    dictionary and the empty frame [empty]. *)
Definition extract {F : Type} (empty : F) (header : result InvoiceData)
    (items : result F) : gmap string value * F :=
  match header with
  | Ok h =>
      match items with
      | Ok i => (dict h, i)
      | Raise _ => (∅, empty)
      end
  | Raise _ => (∅, empty)
  end.

(** [data["total_tax"] = tax; data["total_amount"] = total] *)
Definition with_totals (data : gmap string value) (tax total : float)
    : gmap string value :=
  <[ "total_amount" := VFloat total ]> (<[ "total_tax" := VFloat tax ]> data).

Section Extractors.

(** The release of pydantic, the clustering library, [str.title], the text
    of a page, and the rules whose regular expressions are not modelled:
    the functions of this file are read for any of them. *)
Variable str_of_number : value -> option string.
Variable dbscan : float -> list (float * float) -> list Z.
Variable title : string -> string.
Variable extract_text : page -> string.
Variable extract_with_rules_amazon : string -> gmap string value.
Variable grab : string -> bool -> string -> string.
Variable extract_with_rules_zomato : string -> gmap string value.
Variable extract_header_blinkit : table -> result (gmap string value).

(** [AmazonExtractor] *)
Definition amazon_extract_header (pages : document) : result InvoiceData :=
  let* cluster_text := Cluster.extract_cluster_text_amazon dbscan pages in
  let data := extract_with_rules_amazon cluster_text in
  let* totals := Amazon.extract_totals_amazon pages in
  validate str_of_number (with_totals data (fst totals) (snd totals)).

Definition amazon_extract (pages : document)
    : gmap string value * Amazon.item_frame :=
  extract ([], []) (amazon_extract_header pages)
          (Amazon.extract_item_table_amazon title pages).

(** [FlipkartExtractor] *)
Definition flipkart_extract_header (pages : document) : result InvoiceData :=
  let* cluster_text := Cluster.extract_cluster_text dbscan pages in
  validate str_of_number (Flipkart.extract_fields grab cluster_text).

Definition flipkart_extract (pages : document)
    : gmap string value * list line_item :=
  extract [] (flipkart_extract_header pages)
          (Flipkart.extract_line_items pages).

(** [ZomatoExtractor] *)
Definition zomato_extract_header (pages : document) : result InvoiceData :=
  let full_text :=
    join (String "010" EmptyString) (List.map extract_text pages) in
  let data := extract_with_rules_zomato full_text in
  let* o := Zomato.extract_table_and_totals pages in
  validate str_of_number (with_totals data (snd (fst o)) (snd o)).

Definition zomato_extract_line_items (pages : document)
    : result (list line_item) :=
  let* o := Zomato.extract_table_and_totals pages in
  Ok (fst (fst (fst o))).

Definition zomato_extract (pages : document)
    : gmap string value * list line_item :=
  extract [] (zomato_extract_header pages) (zomato_extract_line_items pages).

(** [BlinkitExtractor]: [pdf.pages[0]] and [page.extract_tables()[0]]. *)
Definition first_table (pages : document) : result table :=
  match pages with
  | [] => Raise IndexError
  | p :: _ =>
      match tables p with
      | [] => Raise IndexError
      | t :: _ => Ok t
      end
  end.

Definition blinkit_extract_header (pages : document) : result InvoiceData :=
  let* t := first_table pages in
  let* data := extract_header_blinkit t in
  let* r := Blinkit.extract_items_and_totals t in
  validate str_of_number (with_totals data (snd (fst r)) (snd r)).

Definition blinkit_extract_line_items (pages : document)
    : result (list line_item) :=
  let* t := first_table pages in
  let* r := Blinkit.extract_items_and_totals t in
  Ok (fst (fst r)).

Definition blinkit_extract (pages : document)
    : gmap string value * list line_item :=
  extract [] (blinkit_extract_header pages) (blinkit_extract_line_items pages).

End Extractors.

(** Stand-ins to run the examples with: rules that find nothing. *)
Definition no_rules (text : string) : gmap string value := ∅.
Definition no_grab (pattern : string) (dotall : bool) (text : string)
    : string := EmptyString.
Definition no_text (p : page) : string := EmptyString.
Definition no_header (t : table) : result (gmap string value) := Ok ∅.

(** A page that only holds its page number, before the page of the
    items. *)
Definition numbered_then_items : document :=
  [ Cluster.one_glyph_page;
    {| chars := []; tables := [Amazon.item_table_example] |} ].

End Base.

(** ** main.py *)
Module Main.
Import PyStr.

(** [detect_brand(text_lower)]; [None] is Python's [None]. *)
Definition detect_brand (text_lower : string) : option string :=
  if str_in "blinkit" text_lower || str_in "zomato hyperpure" text_lower then
    Some "blinkit"
  else if str_in "flipkart" text_lower || str_in "shopler estore" text_lower then
    Some "flipkart"
  else if str_in "amazon" text_lower || str_in "amazon seller" text_lower then
    Some "amazon"
  else if str_in "instamart" text_lower || str_in "b2c" text_lower
          || (str_in "swiggy" text_lower && str_in "invoice" text_lower) then
    Some "instamart"
  else if (str_in "zomato" text_lower || str_in "ethernal" text_lower)
          && str_in "restaurant" text_lower then
    Some "zomato"
  else None.

(** The five vendor rules, in the order in which they are tried. *)
Definition rule_blinkit (t : string) : Prop :=
  contains "blinkit" t \/ contains "zomato hyperpure" t.
Definition rule_flipkart (t : string) : Prop :=
  contains "flipkart" t \/ contains "shopler estore" t.
Definition rule_amazon (t : string) : Prop :=
  contains "amazon" t.
Definition rule_instamart (t : string) : Prop :=
  contains "instamart" t \/ contains "b2c" t
  \/ (contains "swiggy" t /\ contains "invoice" t).
Definition rule_zomato (t : string) : Prop :=
  (contains "zomato" t \/ contains "ethernal" t) /\ contains "restaurant" t.

(** The extractor classes of base.py. *)
Inductive extractor_class : Set :=
| AmazonExtractor | FlipkartExtractor | ZomatoExtractor | BlinkitExtractor
| InstamartExtractor.

(** The dictionary [extractors] of [get_extractor]. *)
Definition extractors : gmap string extractor_class :=
  <[ "amazon" := AmazonExtractor ]>
    (<[ "flipkart" := FlipkartExtractor ]>
       (<[ "zomato" := ZomatoExtractor ]>
          (<[ "blinkit" := BlinkitExtractor ]>
             (<[ "instamart" := InstamartExtractor ]> ∅)))).

(** [get_extractor(pdf_path, brand)]: the instance is its class with the
    path it was built on. *)
Definition get_extractor (pdf_path brand : string)
    : option (extractor_class * string) :=
  match extractors !! brand with
  | Some c => Some (c, pdf_path)
  | None => None
  end.

(** The class that bears the name of a brand. *)
Definition class_of_brand (brand : string) : option extractor_class :=
  if String.eqb brand "amazon" then Some AmazonExtractor
  else if String.eqb brand "flipkart" then Some FlipkartExtractor
  else if String.eqb brand "zomato" then Some ZomatoExtractor
  else if String.eqb brand "blinkit" then Some BlinkitExtractor
  else if String.eqb brand "instamart" then Some InstamartExtractor
  else None.

End Main.

(** * Properties *)

(** ** Strings *)
Module PyStrFacts.
Import PyStr.

Lemma startswith_app (p r : string) : startswith p (p +:+ r) = true.
Proof.
  induction p as [|a p IH]; simpl; [reflexivity|].
  rewrite Ascii.eqb_refl. exact IH.
Qed.

Lemma startswith_inv (p s : string) :
  startswith p s = true -> exists r, s = p +:+ r.
Proof.
  revert s. induction p as [|a p IH]; intros s H.
  - exists s. reflexivity.
  - destruct s as [|b s]; simpl in H; [discriminate|].
    apply andb_true_iff in H as [Hab Hps].
    apply Ascii.eqb_eq in Hab. subst b.
    destruct (IH _ Hps) as [r ->]. exists r. reflexivity.
Qed.

Lemma startswith_str_in (p s : string) :
  startswith p s = true -> str_in p s = true.
Proof. intros H. destruct s; simpl in *; rewrite H; reflexivity. Qed.

Lemma str_in_contains (sub s : string) :
  str_in sub s = true <-> contains sub s.
Proof.
  split.
  - induction s as [|c s IH]; simpl; intros H.
    + rewrite orb_false_r in H. apply startswith_inv in H as [r Hr].
      exists "", r. exact Hr.
    + apply orb_true_iff in H as [H|H].
      * apply startswith_inv in H as [r Hr]. exists "", r. exact Hr.
      * destruct (IH H) as (a & b & ->). exists (String c a), b. reflexivity.
  - intros (a & b & ->). induction a as [|c a IH]; simpl.
    + change (str_in sub (sub +:+ b) = true).
      apply startswith_str_in, startswith_app.
    + change (startswith sub (String c (a +:+ sub +:+ b))
              || str_in sub (a +:+ sub +:+ b) = true).
      rewrite IH. apply orb_true_r.
Qed.

Lemma str_in_not_contains (sub s : string) :
  str_in sub s = false <-> ~ contains sub s.
Proof.
  rewrite <- str_in_contains. destruct (str_in sub s); split; intros H;
    try reflexivity; try discriminate; try (intros ?; discriminate).
  exfalso. apply H. reflexivity.
Qed.

Lemma lstrip_fixed (c : ascii) (s : string) :
  is_space c = false -> lstrip (String c s) = String c s.
Proof. intros H. simpl. rewrite H. reflexivity. Qed.

Lemma lstrip_head (s : string) :
  lstrip s = "" \/ exists c r, lstrip s = String c r /\ is_space c = false.
Proof.
  induction s as [|c s IH]; simpl; [left; reflexivity|].
  destruct (is_space c) eqn:E; [exact IH|]. right. eauto.
Qed.

Lemma rstrip_head (c : ascii) (s : string) :
  is_space c = false -> exists r, rstrip (String c s) = String c r.
Proof.
  intros H. simpl. destruct (rstrip s); [rewrite H|]; eauto.
Qed.

Lemma rstrip_idempotent (s : string) : rstrip (rstrip s) = rstrip s.
Proof.
  induction s as [|c s IH]; simpl; [reflexivity|].
  destruct (rstrip s) as [|a r] eqn:E.
  - destruct (is_space c) eqn:Ec; simpl; [reflexivity|].
    rewrite Ec. reflexivity.
  - change (rstrip (String c (String a r))) with
      (match rstrip (String a r) with
       | "" => if is_space c then "" else String c ""
       | String b r' => String c (String b r')
       end).
    rewrite IH. reflexivity.
Qed.

(** Stripping a stripped string changes nothing. *)
Lemma strip_idempotent (s : string) : strip (strip s) = strip s.
Proof.
  unfold strip. destruct (lstrip_head s) as [E|(c & r & E & Hc)]; rewrite E.
  - reflexivity.
  - destruct (rstrip_head c r Hc) as [r' E']. rewrite E'.
    rewrite (lstrip_fixed c r' Hc), <- E'. apply rstrip_idempotent.
Qed.

Lemma append_assoc (a b c : string) : (a +:+ b) +:+ c = a +:+ (b +:+ c).
Proof.
  induction a as [|x a IH]; [reflexivity|].
  change (String x ((a +:+ b) +:+ c) = String x (a +:+ b +:+ c)).
  f_equal. exact IH.
Qed.

Lemma append_empty_r (a : string) : a +:+ "" = a.
Proof.
  induction a as [|x a IH]; [reflexivity|].
  change (String x (a +:+ "") = String x a). f_equal. exact IH.
Qed.

Lemma is_space_lower_char (c : ascii) :
  is_space (lower_char c) = is_space c.
Proof.
  destruct c as [[] [] [] [] [] [] [] []]; reflexivity.
Qed.

Lemma lstrip_lower (s : string) : lstrip (lower s) = lower (lstrip s).
Proof.
  induction s as [|c s IH]; simpl; [reflexivity|].
  rewrite is_space_lower_char. destruct (is_space c); [exact IH | reflexivity].
Qed.

Lemma rstrip_lower (s : string) : rstrip (lower s) = lower (rstrip s).
Proof.
  induction s as [|c s IH]; simpl; [reflexivity|].
  rewrite IH, is_space_lower_char.
  destruct (rstrip s); simpl; [destruct (is_space c)|]; reflexivity.
Qed.

Lemma strip_lower (s : string) : strip (lower s) = lower (strip s).
Proof. unfold strip. rewrite lstrip_lower, rstrip_lower. reflexivity. Qed.

Lemma startswith_before_blank (p a b : string) :
  forall_chars (fun c => negb (Ascii.eqb c " ")) p = true ->
  startswith p (a +:+ String " " b) = true -> startswith p a = true.
Proof.
  revert a. induction p as [|x p IH]; intros a Hp H; [reflexivity|].
  simpl in Hp. apply andb_true_iff in Hp as [Hx Hp].
  destruct a as [|y a].
  - change (Ascii.eqb x " " && startswith p b = true) in H.
    apply negb_true_iff in Hx. rewrite Hx in H. discriminate H.
  - change (Ascii.eqb x y && startswith p (a +:+ String " " b) = true) in H.
    apply andb_true_iff in H as [Hxy H]. simpl. rewrite Hxy. exact (IH a Hp H).
Qed.

Lemma str_in_app_blank (p a b : string) :
  forall_chars (fun c => negb (Ascii.eqb c " ")) p = true ->
  str_in p (a +:+ String " " b) = true ->
  str_in p a = true \/ str_in p b = true.
Proof.
  intros Hp. induction a as [|y a IH]; intros H.
  - change (startswith p (String " " b) || str_in p b = true) in H.
    apply orb_true_iff in H as [H|H]; [left | right; exact H].
    apply startswith_str_in.
    exact (startswith_before_blank p "" b Hp H).
  - change (startswith p (String y a +:+ String " " b)
            || str_in p (a +:+ String " " b) = true) in H.
    apply orb_true_iff in H as [H|H].
    + left. apply startswith_str_in.
      exact (startswith_before_blank p _ b Hp H).
    + destruct (IH H) as [Ha|Hb]; [left | right; exact Hb].
      simpl. rewrite Ha. apply orb_true_r.
Qed.

Lemma str_in_join_blank (p : string) (l : list string) :
  forall_chars (fun c => negb (Ascii.eqb c " ")) p = true -> p <> "" ->
  str_in p (join " " l) = true -> exists h, In h l /\ str_in p h = true.
Proof.
  intros Hp Hne. induction l as [|s l IH]; intros H.
  - destruct p; [congruence | discriminate H].
  - destruct l as [|s' l].
    + exists s. split; [left; reflexivity | exact H].
    + change (str_in p (s +:+ String " " (join " " (s' :: l))) = true) in H.
      destruct (str_in_app_blank p _ _ Hp H) as [Hs|Hl].
      * exists s. split; [left; reflexivity | exact Hs].
      * destruct (IH Hl) as (h & Hin & Hh). exists h.
        split; [right; exact Hin | exact Hh].
Qed.

End PyStrFacts.

(** ** Floats: dividing by one and subtracting a number from itself *)
Module PyFloatFacts.
Import PyFloat.
Local Open Scope Z_scope.

Lemma bounded_cases (m : positive) (e : Z) :
  bounded prec emax m e = true ->
  e <= 971
  /\ ((Zpos (digits2_pos m) = 53 /\ -1074 <= e)
      \/ (e = -1074 /\ Zpos (digits2_pos m) <= 53)).
Proof.
  unfold bounded, canonical_mantissa, fexp, emin, prec, emax.
  intros H. apply andb_true_iff in H as [H1 H2].
  apply Z.eqb_eq in H1. apply Z.leb_le in H2. lia.
Qed.

Lemma div_eucl_mul (a b : Z) : 0 < b -> Z.div_eucl (a * b) b = (a, 0).
Proof.
  intros Hb. destruct (Z.div_eucl (a * b) b) as [q r] eqn:E.
  assert (Hq : q = a * b / b) by (unfold Z.div; rewrite E; reflexivity).
  assert (Hr : r = (a * b) mod b) by (unfold Z.modulo; rewrite E; reflexivity).
  rewrite Z.div_mul in Hq by lia. rewrite Z.mod_mul in Hr by lia.
  subst. reflexivity.
Qed.

(** The quotient of a number by 1.0, before rounding. *)
Lemma div_core_one (m : positive) (e : Z) :
  bounded prec emax m e = true ->
  SFdiv_core_binary prec emax (Zpos m) e 4503599627370496 (-52)
  = if e =? -1074 then (Zpos m, -1074, loc_Exact)
    else (Zpos m~0, e - 1, loc_Exact).
Proof.
  intros H. destruct (bounded_cases m e H) as [He Hc].
  unfold SFdiv_core_binary.
  change (Zdigits2 (Zpos m)) with (Zpos (digits2_pos m)).
  change (Zdigits2 4503599627370496) with 53.
  set (d := Zpos (digits2_pos m)) in *.
  destruct (e =? -1074) eqn:Ee.
  - apply Z.eqb_eq in Ee. subst e.
    assert (Hd : d <= 53) by lia.
    replace (Z.min (fexp prec emax (d + -1074 - (53 + -52))) (-1074 - -52))
      with (-1074) by (unfold fexp, emin, prec, emax; lia).
    change (-1074 - -52 - -1074) with 52.
    cbv beta iota zeta.
    rewrite Z.shiftl_mul_pow2 by lia.
    change (2 ^ 52) with 4503599627370496.
    rewrite div_eucl_mul by lia. reflexivity.
  - apply Z.eqb_neq in Ee.
    assert (Hd : d = 53) by lia.
    replace (Z.min (fexp prec emax (d + e - (53 + -52))) (e - -52))
      with (e - 1) by (unfold fexp, emin, prec, emax; lia).
    replace (e - -52 - (e - 1)) with 53 by lia.
    cbv beta iota zeta.
    rewrite Z.shiftl_mul_pow2 by lia.
    replace (Zpos m * 2 ^ 53) with (Zpos m~0 * 4503599627370496)
      by (change (2 ^ 53) with (2 * 4503599627370496); lia).
    rewrite div_eucl_mul by lia. reflexivity.
Qed.

Lemma round_aux_exact (s : bool) (m : positive) (e : Z) :
  fexp prec emax (Zpos (digits2_pos m) + e) = e -> e <= 971 ->
  binary_round_aux prec emax s (Zpos m) e loc_Exact = S754_finite s m e.
Proof.
  intros Hf He. unfold binary_round_aux, shr_fexp.
  change (Zdigits2 (Zpos m)) with (Zpos (digits2_pos m)).
  rewrite Hf, Z.sub_diag.
  cbn [shr shr_record_of_loc shr_m loc_of_shr_record round_nearest_even].
  change (Zdigits2 (Zpos m)) with (Zpos (digits2_pos m)).
  rewrite Hf, Z.sub_diag. cbn [shr shr_record_of_loc shr_m].
  replace (e <=? emax - prec) with true; [reflexivity|].
  symmetry. apply Z.leb_le. unfold emax, prec. lia.
Qed.

Lemma round_aux_double (s : bool) (m : positive) (e : Z) :
  Zpos (digits2_pos m) = 53 -> -1074 < e -> e <= 971 ->
  binary_round_aux prec emax s (Zpos m~0) (e - 1) loc_Exact
  = S754_finite s m e.
Proof.
  intros Hd Hl He. unfold binary_round_aux, shr_fexp.
  change (Zdigits2 (Zpos m~0)) with (Zpos (Pos.succ (digits2_pos m))).
  rewrite Pos2Z.inj_succ, Hd.
  replace (fexp prec emax (Z.succ 53 + (e - 1)) - (e - 1)) with 1
    by (unfold fexp, emin, prec, emax; lia).
  cbn [shr shr_record_of_loc SpecFloat.iter_pos shr_1 shr_m
       loc_of_shr_record round_nearest_even orb].
  change (Zdigits2 (Zpos m)) with (Zpos (digits2_pos m)). rewrite Hd.
  replace (fexp prec emax (53 + (e - 1 + 1)) - (e - 1 + 1)) with 0
    by (unfold fexp, emin, prec, emax; lia).
  cbn [shr shr_record_of_loc shr_m].
  replace (e - 1 + 1 <=? emax - prec) with true
    by (symmetry; apply Z.leb_le; unfold emax, prec; lia).
  f_equal. lia.
Qed.

(** [x / 1.0 = x] for a finite binary64 number. *)
Lemma fdiv_one (s : bool) (m : positive) (e : Z) :
  bounded prec emax m e = true ->
  fdiv (S754_finite s m e) (S754_finite false 4503599627370496 (-52))
  = S754_finite s m e.
Proof.
  intros H. destruct (bounded_cases m e H) as [He Hc].
  unfold fdiv. cbn [SFdiv]. rewrite div_core_one by exact H.
  rewrite xorb_false_r.
  destruct (e =? -1074) eqn:Ee.
  - apply Z.eqb_eq in Ee. subst e. apply round_aux_exact; [|lia].
    unfold fexp, emin, prec, emax. lia.
  - apply Z.eqb_neq in Ee. apply round_aux_double; lia.
Qed.

(** [x - x = 0.0] for a finite number. *)
Lemma fsub_self (s : bool) (m : positive) (e : Z) :
  fsub (S754_finite s m e) (S754_finite s m e) = S754_zero false.
Proof.
  unfold fsub. cbn [SFsub]. rewrite Z.min_id. unfold shl_align.
  replace (e - e) with 0 by lia. cbn [fst].
  replace (cond_Zopp s (Z.pos m) - cond_Zopp s (Z.pos m)) with 0 by lia.
  reflexivity.
Qed.

End PyFloatFacts.

(** ** Brand detection *)
Module MainFacts.
Import PyStr PyStrFacts Main.

(** C1. A lowercased text that contains both "zomato hyperpure" and
    "restaurant" is classified as blinkit and not as zomato, because the
    Blinkit rule is tried first; a text that matches none of the five vendor
    rules is classified as [None]. *)
Theorem detect_brand_priority :
  (forall t : string,
      contains "zomato hyperpure" t -> contains "restaurant" t ->
      detect_brand t = Some "blinkit" /\ detect_brand t <> Some "zomato")
  /\ (forall t : string,
      ~ rule_blinkit t -> ~ rule_flipkart t -> ~ rule_amazon t ->
      ~ rule_instamart t -> ~ rule_zomato t ->
      detect_brand t = None).
Proof.
  split.
  - intros t Hz _. apply str_in_contains in Hz.
    unfold detect_brand. rewrite Hz, orb_true_r.
    split; [reflexivity | discriminate].
  - intros t Hb Hf Ha Hi Hzo.
    assert (Has : ~ contains "amazon seller" t).
    { intros (a & b & ->). apply Ha. exists a, (" seller" +:+ b). reflexivity. }
    unfold rule_blinkit, rule_flipkart, rule_amazon, rule_instamart,
      rule_zomato in *.
    repeat match goal with
           | H : context [contains ?p t] |- _ =>
               rewrite <- (str_in_contains p t) in H
           end.
    assert (E : forall p, str_in p t <> true -> str_in p t = false)
      by (intros p; destruct (str_in p t); congruence).
    unfold detect_brand.
    rewrite (E "blinkit"), (E "zomato hyperpure"), (E "flipkart"),
      (E "shopler estore"), (E "amazon"), (E "amazon seller"),
      (E "instamart"), (E "b2c") by tauto.
    simpl.
    destruct (str_in "swiggy" t), (str_in "invoice" t); simpl;
      try (exfalso; tauto);
      destruct (str_in "zomato" t), (str_in "ethernal" t),
        (str_in "restaurant" t); simpl; try reflexivity; exfalso; tauto.
Qed.

Lemma detect_brand_priority_witness :
  detect_brand "zomato hyperpure private limited, restaurant supplies"
  = Some "blinkit"
  /\ detect_brand "acme stationery receipt" = None.
Proof.
  split.
  - apply (proj1 detect_brand_priority).
    + exists "", " private limited, restaurant supplies". reflexivity.
    + exists "zomato hyperpure private limited, ", " supplies". reflexivity.
  - apply (proj2 detect_brand_priority);
      unfold rule_blinkit, rule_flipkart, rule_amazon, rule_instamart,
        rule_zomato;
      rewrite <- !str_in_contains; vm_compute; intuition discriminate.
Defined.

Lemma amazon_seller_amazon (t : string) :
  str_in "amazon seller" t = true -> str_in "amazon" t = true.
Proof.
  rewrite !str_in_contains. intros (a & b & ->).
  exists a, (" seller" +:+ b). reflexivity.
Qed.

(** X1.  The brand detected is the one of the first rule that matches, in the
    order blinkit, flipkart, amazon, instamart, zomato, and [None] exactly
    when no rule matches. *)
Theorem detect_brand_first_match (t : string) :
  (detect_brand t = Some "blinkit" <-> rule_blinkit t)
  /\ (detect_brand t = Some "flipkart"
      <-> ~ rule_blinkit t /\ rule_flipkart t)
  /\ (detect_brand t = Some "amazon"
      <-> ~ rule_blinkit t /\ ~ rule_flipkart t /\ rule_amazon t)
  /\ (detect_brand t = Some "instamart"
      <-> ~ rule_blinkit t /\ ~ rule_flipkart t /\ ~ rule_amazon t
          /\ rule_instamart t)
  /\ (detect_brand t = Some "zomato"
      <-> ~ rule_blinkit t /\ ~ rule_flipkart t /\ ~ rule_amazon t
          /\ ~ rule_instamart t /\ rule_zomato t)
  /\ (detect_brand t = None
      <-> ~ rule_blinkit t /\ ~ rule_flipkart t /\ ~ rule_amazon t
          /\ ~ rule_instamart t /\ ~ rule_zomato t).
Proof.
  pose proof (amazon_seller_amazon t) as Has.
  unfold rule_blinkit, rule_flipkart, rule_amazon, rule_instamart,
    rule_zomato, detect_brand.
  repeat match goal with
         | |- context [contains ?p t] => rewrite <- (str_in_contains p t)
         end.
  destruct (str_in "blinkit" t), (str_in "zomato hyperpure" t); simpl;
    try solve [intuition congruence].
  destruct (str_in "flipkart" t), (str_in "shopler estore" t); simpl;
    try solve [intuition congruence].
  destruct (str_in "amazon" t), (str_in "amazon seller" t); simpl;
    try (specialize (Has eq_refl); discriminate Has);
    try solve [intuition congruence].
  clear Has.
  destruct (str_in "instamart" t), (str_in "b2c" t); simpl;
    try solve [intuition congruence].
  destruct (str_in "swiggy" t), (str_in "invoice" t); simpl;
    try solve [intuition congruence];
    destruct (str_in "zomato" t), (str_in "ethernal" t),
      (str_in "restaurant" t); simpl; solve [intuition congruence].
Qed.

Lemma get_extractor_class (pdf_path brand : string) :
  get_extractor pdf_path brand
  = option_map (fun c => (c, pdf_path)) (class_of_brand brand).
Proof.
  unfold get_extractor, class_of_brand, extractors.
  destruct (String.eqb_spec brand "amazon") as [->|?];
    [vm_compute; reflexivity|].
  destruct (String.eqb_spec brand "flipkart") as [->|?];
    [vm_compute; reflexivity|].
  destruct (String.eqb_spec brand "zomato") as [->|?];
    [vm_compute; reflexivity|].
  destruct (String.eqb_spec brand "blinkit") as [->|?];
    [vm_compute; reflexivity|].
  destruct (String.eqb_spec brand "instamart") as [->|?];
    [vm_compute; reflexivity|].
  do 5 (rewrite lookup_insert_ne by (apply not_eq_sym; assumption)).
  rewrite lookup_empty. reflexivity.
Qed.

(** X2.  Every brand that [detect_brand] returns has an extractor, the one that
    bears its name, so dispatch after detection never comes back empty;
    [get_extractor] returns [None] exactly for a name that is none of the
    five. *)
Theorem get_extractor_after_detect (pdf_path : string) :
  (forall t brand,
      detect_brand t = Some brand ->
      exists c, class_of_brand brand = Some c
        /\ get_extractor pdf_path brand = Some (c, pdf_path))
  /\ (forall brand,
        get_extractor pdf_path brand = None
        <-> brand <> "amazon" /\ brand <> "flipkart" /\ brand <> "zomato"
            /\ brand <> "blinkit" /\ brand <> "instamart").
Proof.
  split.
  - intros t brand H. rewrite get_extractor_class.
    unfold detect_brand in H.
    repeat match type of H with
           | (if ?c then _ else _) = _ => destruct c
           end;
      try discriminate; injection H as <-; eexists; split; reflexivity.
  - intros brand. rewrite get_extractor_class. unfold class_of_brand.
    destruct (String.eqb_spec brand "amazon");
      [simpl; split; [discriminate | intuition congruence]|].
    destruct (String.eqb_spec brand "flipkart");
      [simpl; split; [discriminate | intuition congruence]|].
    destruct (String.eqb_spec brand "zomato");
      [simpl; split; [discriminate | intuition congruence]|].
    destruct (String.eqb_spec brand "blinkit");
      [simpl; split; [discriminate | intuition congruence]|].
    destruct (String.eqb_spec brand "instamart");
      [simpl; split; [discriminate | intuition congruence]|].
    simpl. intuition congruence.
Qed.

End MainFacts.

(** ** Schema validation *)
Module ValidatorsFacts.
Import PyStr PyFloat Py Validators.

Lemma convert_to_float_total (v : value) :
  exists x, convert_to_float v = Ok (VFloat x).
Proof.
  unfold convert_to_float.
  destruct (if truthy v then float_of v else Ok zero); eauto.
Qed.

Lemma bind_Ok {A B : Type} (e : result A) (k : A -> result B) (b : B) :
  bind e k = Ok b -> exists a, e = Ok a /\ k a = Ok b.
Proof. destruct e as [a|]; [eauto | discriminate]. Qed.

Lemma bind_step {A B : Type} (e : result A) (k : A -> result B) (a : A) :
  e = Ok a -> bind e k = k a.
Proof. intros ->. reflexivity. Qed.

Lemma lookup_dict (r : InvoiceData) (f : field) :
  dict r !! name f = Some (get r f).
Proof. destruct f; vm_compute; reflexivity. Qed.

Section Schema.
Variable str_of_number : value -> option string.

Lemma validate_field_float (fm : gmap string value) (f : field) :
  kind_of f = KFloat ->
  validate_field str_of_number fm f
  = match fm !! name f with
    | Some v => convert_to_float v
    | None => Ok (VFloat zero)
    end.
Proof.
  intros Hk. unfold Validators.validate_field. rewrite Hk.
  destruct (fm !! name f) as [v|].
  - destruct (convert_to_float_total v) as [x ->]. reflexivity.
  - destruct f; try discriminate; reflexivity.
Qed.

Lemma validate_field_str (fm : gmap string value) (f : field) (v : value) :
  kind_of f = KStr -> validate_field str_of_number fm f = Ok v -> is_str v.
Proof.
  intros Hk. unfold Validators.validate_field. rewrite Hk.
  destruct (fm !! name f) as [w|].
  - unfold str_validator.
    destruct w; try discriminate;
      try (destruct (str_of_number _); [|discriminate]);
      intros [= <-]; eexists; reflexivity.
  - intros [= <-]. destruct f; try discriminate; eexists; reflexivity.
Qed.

Lemma validate_field_optstr (fm : gmap string value) (f : field) (v : value) :
  kind_of f = KOptStr -> validate_field str_of_number fm f = Ok v ->
  is_str v \/ v = VNone.
Proof.
  intros Hk. unfold Validators.validate_field. rewrite Hk.
  destruct (fm !! name f) as [w|].
  - unfold str_validator.
    destruct w; try discriminate;
      try (destruct (str_of_number _); [|discriminate]);
      intros [= <-]; (right; reflexivity) || (left; eexists; reflexivity).
  - intros [= <-]. destruct f; try discriminate; left; eexists; reflexivity.
Qed.

Lemma construct_Ok (vf : field -> result value) (r : InvoiceData) :
  construct vf = Ok r <-> forall f, vf f = Ok (get r f).
Proof.
  unfold construct. split.
  - intros H f.
    repeat (apply bind_Ok in H as (? & ? & H)).
    injection H as <-. destruct f; assumption.
  - intros H.
    repeat (etransitivity; [apply (bind_step _ _ _ (H _))|cbv beta]).
    destruct r; reflexivity.
Qed.

(** A record is produced exactly when every field validates, and it holds
    the validated values. *)
Lemma validate_Ok (fm : gmap string value) (r : InvoiceData) :
  validate str_of_number fm = Ok r
  <-> forall f, validate_field str_of_number fm f = Ok (get r f).
Proof. apply construct_Ok. Qed.

Lemma validate_field_float_Ok (fm : gmap string value) (f : field) :
  kind_of f = KFloat ->
  exists x, validate_field str_of_number fm f = Ok (VFloat x).
Proof.
  intros Hk. rewrite validate_field_float by assumption.
  destruct (fm !! name f) as [v|]; [apply convert_to_float_total | eauto].
Qed.

(** Validating the attributes of a record whose fields have their declared
    types gives the record back, up to the sign of a zero total. *)
Lemma validate_field_dict (r : InvoiceData) (f : field) :
  match kind_of f with
  | KStr => is_str (get r f)
  | KOptStr => is_str (get r f) \/ get r f = VNone
  | KFloat => is_float (get r f)
  end ->
  validate_field str_of_number (dict r) f = Ok (get (unsigned_zeros r) f).
Proof.
  unfold Validators.validate_field. rewrite lookup_dict.
  destruct f; simpl; intros H;
    repeat match goal with
           | H : _ \/ _ |- _ => destruct H as [H|H]
           | H : is_str _ |- _ => destruct H as [? H]
           | H : is_float _ |- _ => destruct H as [[] H]
           end;
    rewrite H; reflexivity.
Qed.

Lemma validate_typed (fm : gmap string value) (r : InvoiceData) (f : field) :
  validate str_of_number fm = Ok r ->
  match kind_of f with
  | KStr => is_str (get r f)
  | KOptStr => is_str (get r f) \/ get r f = VNone
  | KFloat => is_float (get r f)
  end.
Proof.
  intros H. apply validate_Ok with (f := f) in H.
  destruct (kind_of f) eqn:Hk.
  - eapply validate_field_str; eassumption.
  - eapply validate_field_optstr; eassumption.
  - destruct (validate_field_float_Ok fm f Hk) as [x Hx].
    rewrite Hx in H. injection H as <-. exists x. reflexivity.
Qed.

(** C2. For every field map, the two numeric fields are coerced without
    ever raising: [convert_to_float] always returns a float; a falsy value
    and a value that [float] rejects become 0.0, and a truthy value that
    [float] accepts becomes that float.  In particular [None], the empty
    string and "abc" become 0.0 and "12.5" becomes 12.5, and the record built
    from a field map holds the coerced value (0.0 when the key is absent). *)
Theorem convert_to_float_coerces :
  (forall v : value,
      exists x, convert_to_float v = Ok (VFloat x)
        /\ (truthy v = false -> x = zero)
        /\ (forall e, float_of v = Raise e -> x = zero)
        /\ (forall y, truthy v = true -> float_of v = Ok y -> x = y))
  /\ convert_to_float VNone = Ok (VFloat zero)
  /\ convert_to_float (VStr "") = Ok (VFloat zero)
  /\ convert_to_float (VStr "abc") = Ok (VFloat zero)
  /\ convert_to_float (VStr "12.5") = Ok (VFloat twelve_and_a_half)
  /\ (forall (fm : gmap string value) (f : field),
        kind_of f = KFloat ->
        exists x, validate_field str_of_number fm f = Ok (VFloat x))
  /\ (forall (fm : gmap string value) (r : InvoiceData),
        validate str_of_number fm = Ok r ->
        forall f, kind_of f = KFloat ->
          Ok (get r f) = match fm !! name f with
                         | Some v => convert_to_float v
                         | None => Ok (VFloat zero)
                         end).
Proof.
  split; [|do 4 (split; [vm_compute; reflexivity|]); split].
  - intros v. unfold convert_to_float.
    destruct (truthy v).
    + destruct (float_of v) as [x|e].
      * exists x. repeat split; try discriminate. intros y _ [= ->]. reflexivity.
      * exists zero. repeat split; discriminate.
    + exists zero. repeat split; discriminate.
  - apply validate_field_float_Ok.
  - intros fm r H f Hk. apply validate_Ok with (f := f) in H.
    rewrite <- H. apply validate_field_float, Hk.
Qed.

(** C3, as amended.  Every record the validator produces has floats in
    [total_tax] and [total_amount], a string in every field declared [str],
    and in [order_date], which is declared [Optional[str]], a string or
    [None]: [None] exactly when the field map gives [None] for it.  A field
    that the field map leaves out holds its default. *)
Theorem validate_invariant (fm : gmap string value) (r : InvoiceData) :
  validate str_of_number fm = Ok r ->
  is_float (total_tax r) /\ is_float (total_amount r)
  /\ (forall f, kind_of f = KStr -> is_str (get r f))
  /\ (is_str (order_date r) \/ order_date r = VNone)
  /\ (order_date r = VNone <-> fm !! "order_date" = Some VNone)
  /\ (forall f, fm !! name f = None -> get r f = default f).
Proof.
  intros H. repeat split.
  - apply (validate_typed fm r f_total_tax H).
  - apply (validate_typed fm r f_total_amount H).
  - intros f Hk. pose proof (validate_typed fm r f H) as Ht.
    rewrite Hk in Ht. exact Ht.
  - apply (validate_typed fm r f_order_date H).
  - apply validate_Ok with (f := f_order_date) in H.
    unfold Validators.validate_field in H. simpl in H.
    destruct (fm !! "order_date") as [v|]; [|intros E; rewrite E in H; discriminate].
    destruct v; simpl in H; try discriminate;
      try (destruct (str_of_number _); [|discriminate]);
      injection H as <-; intros E; try discriminate E; reflexivity.
  - apply validate_Ok with (f := f_order_date) in H.
    unfold Validators.validate_field in H. simpl in H.
    intros E. rewrite E in H. injection H as <-. reflexivity.
  - intros f E. apply validate_Ok with (f := f) in H.
    unfold Validators.validate_field in H. rewrite E in H.
    injection H as <-. reflexivity.
Qed.

(** C9, as amended.  Validation is a function of the field map, and
    validating the attributes of the record it produced gives the same
    record except that a total of negative zero has become 0.0: the record
    is identical when neither total is a zero with a sign, and from the
    second run on nothing changes any more. *)
Theorem validate_idempotent (fm : gmap string value) (r : InvoiceData) :
  validate str_of_number fm = Ok r ->
  (forall r', validate str_of_number fm = Ok r' -> r' = r)
  /\ validate str_of_number (dict r) = Ok (unsigned_zeros r)
  /\ (total_tax r <> VFloat (S754_zero true) ->
      total_amount r <> VFloat (S754_zero true) ->
      validate str_of_number (dict r) = Ok r)
  /\ validate str_of_number (dict (unsigned_zeros r)) = Ok (unsigned_zeros r).
Proof.
  intros H.
  assert (Hre : validate str_of_number (dict r) = Ok (unsigned_zeros r)).
  { apply validate_Ok. intros f. apply validate_field_dict.
    apply (validate_typed fm r f H). }
  repeat split.
  - intros r' H'. rewrite H in H'. injection H' as ->. reflexivity.
  - exact Hre.
  - intros Ht Ha. rewrite Hre. f_equal.
    destruct (validate_typed fm r f_total_tax H) as [x Hx].
    destruct (validate_typed fm r f_total_amount H) as [y Hy].
    simpl in Hx, Hy. destruct r; simpl in *. subst.
    unfold unsigned_zeros; simpl.
    destruct x as [[]| | |], y as [[]| | |]; try reflexivity; congruence.
  - pose proof (validate_typed (dict r) _ f_total_tax Hre) as [x Hx].
    pose proof (validate_typed (dict r) _ f_total_amount Hre) as [y Hy].
    apply validate_Ok. intros f.
    rewrite validate_field_dict by apply (validate_typed (dict r) _ f Hre).
    f_equal. simpl in Hx, Hy.
    destruct f; try reflexivity; simpl.
    + destruct (total_tax r) as [| | |[]| |]; reflexivity.
    + destruct (total_amount r) as [| | |[]| |]; reflexivity.
Qed.

Lemma bind_ext {A B : Type} (e e' : result A) (k k' : A -> result B) :
  e = e' -> (forall a, k a = k' a) -> bind e k = bind e' k'.
Proof. intros <- H. destruct e; simpl; auto. Qed.

Lemma bind_Raise {A B : Type} (e : result A) (k : A -> result B) (x : exn) :
  bind e k = Raise x -> e = Raise x \/ exists a, e = Ok a /\ k a = Raise x.
Proof. destruct e as [a|y]; simpl; [eauto | intros [= <-]; auto]. Qed.

Lemma construct_ext (vf vf' : field -> result value) :
  (forall f, vf f = vf' f) -> construct vf = construct vf'.
Proof.
  intros H. unfold construct.
  repeat (apply bind_ext; [apply H | intros ?]).
  reflexivity.
Qed.

(** X3.  A key that names no field is ignored: the result is the same with or
    without it, record or error. *)
Theorem validate_ignores_extra_key (fm : gmap string value) (k : string)
    (v : value) :
  (forall f, name f <> k) ->
  validate str_of_number (<[ k := v ]> fm) = validate str_of_number fm.
Proof.
  intros Hk. unfold Validators.validate. apply construct_ext. intros f.
  unfold Validators.validate_field.
  rewrite lookup_insert_ne by (intros E; apply (Hk f); congruence).
  reflexivity.
Qed.

Lemma construct_Raise (vf : field -> result value) (e : exn) :
  construct vf = Raise e -> exists f, vf f = Raise e.
Proof.
  unfold construct. intros H.
  repeat (apply bind_Raise in H as [H|(? & _ & H)]; [eauto|]).
  discriminate H.
Qed.

Lemma validate_field_Raise (fm : gmap string value) (f : field) (e : exn) :
  validate_field str_of_number fm f = Raise e ->
  e = ValidationError
  /\ kind_of f <> KFloat
  /\ exists v, fm !! name f = Some v
       /\ ((v = VNone /\ kind_of f = KStr)
           \/ (exists l, v = VList l)
           \/ (str_of_number v = None
               /\ ((exists n, v = VInt n) \/ (exists b, v = VBool b)
                   \/ (exists x, v = VFloat x)))).
Proof.
  unfold Validators.validate_field.
  destruct (fm !! name f) as [v|]; [|discriminate].
  destruct (kind_of f) eqn:Hk.
  - unfold str_validator.
    destruct v; try discriminate;
      try (destruct (str_of_number _) eqn:Es; [discriminate|]);
      intros [= <-];
      (split; [reflexivity | split; [discriminate|]]);
      (eexists; split; [reflexivity | eauto 8]).
  - unfold str_validator.
    destruct v; try discriminate;
      try (destruct (str_of_number _) eqn:Es; [discriminate|]);
      intros [= <-];
      (split; [reflexivity | split; [discriminate|]]);
      (eexists; split; [reflexivity | eauto 8]).
  - destruct (convert_to_float_total v) as [x ->]. discriminate.
Qed.

Lemma validate_Raise (fm : gmap string value) (e : exn) :
  validate str_of_number fm = Raise e ->
  e = ValidationError
  /\ exists f v,
       kind_of f <> KFloat /\ fm !! name f = Some v
       /\ ((v = VNone /\ kind_of f = KStr)
           \/ (exists l, v = VList l)
           \/ (str_of_number v = None
               /\ ((exists n, v = VInt n) \/ (exists b, v = VBool b)
                   \/ (exists x, v = VFloat x)))).
Proof.
  intros E. apply construct_Raise in E as [f Hf].
  apply validate_field_Raise in Hf as (-> & Hk & v & Hv & Hc).
  split; [reflexivity|]. exists f, v. auto.
Qed.

(** X4.  Validation either produces a record or raises [ValidationError], never
    another exception; and it raises only when the field map gives a text
    field a value that is not text: [None] under a field declared [str], a
    list, or a number that this release of the library does not print. *)
Theorem validate_failure (fm : gmap string value) :
  (exists r, validate str_of_number fm = Ok r)
  \/ (validate str_of_number fm = Raise ValidationError
      /\ exists f v,
           kind_of f <> KFloat /\ fm !! name f = Some v
           /\ ((v = VNone /\ kind_of f = KStr)
               \/ (exists l, v = VList l)
               \/ (str_of_number v = None
                   /\ ((exists n, v = VInt n) \/ (exists b, v = VBool b)
                       \/ (exists x, v = VFloat x))))).
Proof.
  destruct (validate str_of_number fm) as [r|e] eqn:E; [left; eauto|].
  right. apply validate_Raise in E as [-> H]. split; [reflexivity | exact H].
Qed.

End Schema.

(** The two examples of numeric coercion. *)
Example validate_abc_none :
  exists r, validate refuse_numbers fm_abc_none = Ok r
    /\ total_tax r = VFloat zero /\ total_amount r = VFloat zero.
Proof. eexists. split; [vm_compute; reflexivity|]. split; reflexivity. Qed.

Example validate_12_5 :
  exists r, validate refuse_numbers fm_12_5 = Ok r
    /\ total_tax r = VFloat twelve_and_a_half.
Proof. eexists. split; [vm_compute; reflexivity|]. reflexivity. Qed.

(** A number under a [str] field: printed by release 1, refused by
    release 2. *)
Example validate_number_as_text :
  (exists r, validate print_integers fm_number_as_text = Ok r
     /\ order_number r = VStr "4051")
  /\ validate refuse_numbers fm_number_as_text = Raise ValidationError.
Proof.
  split; [eexists; split; [vm_compute; reflexivity | reflexivity]|].
  vm_compute. reflexivity.
Qed.

(** The field map that gives [None] for [order_date] is accepted, and the
    record holds [None] there, not a string. *)
Lemma order_date_none_is_kept :
  exists r, validate refuse_numbers fm_order_date_none = Ok r
    /\ order_date r = VNone /\ ~ is_str (order_date r).
Proof.
  eexists. split; [vm_compute; reflexivity|].
  split; [reflexivity|]. intros [s Hs]. discriminate Hs.
Qed.

Lemma validate_invariant_witness :
  exists r, validate refuse_numbers fm_order_date_none = Ok r
    /\ is_float (total_tax r) /\ is_float (total_amount r)
    /\ (forall f, kind_of f = KStr -> is_str (get r f))
    /\ (is_str (order_date r) \/ order_date r = VNone)
    /\ (order_date r = VNone <-> fm_order_date_none !! "order_date" = Some VNone)
    /\ (forall f, fm_order_date_none !! name f = None -> get r f = default f).
Proof.
  eexists. split; [vm_compute; reflexivity|].
  apply (validate_invariant refuse_numbers fm_order_date_none).
  vm_compute. reflexivity.
Defined.

(** The total "-0.0" is read as negative zero; validating the attributes of
    the record again turns it into 0.0, so the second record differs. *)
Lemma revalidate_negative_zero :
  exists r, validate refuse_numbers fm_negative_zero = Ok r
    /\ total_tax r = VFloat (S754_zero true)
    /\ validate refuse_numbers (dict r) <> Ok r.
Proof.
  eexists. split; [vm_compute; reflexivity|].
  split; [reflexivity|]. vm_compute. intros H. discriminate H.
Qed.

Lemma validate_idempotent_witness :
  exists r, validate refuse_numbers fm_abc_none = Ok r
    /\ (forall r', validate refuse_numbers fm_abc_none = Ok r' -> r' = r)
    /\ validate refuse_numbers (dict r) = Ok (unsigned_zeros r)
    /\ (total_tax r <> VFloat (S754_zero true) ->
        total_amount r <> VFloat (S754_zero true) ->
        validate refuse_numbers (dict r) = Ok r)
    /\ validate refuse_numbers (dict (unsigned_zeros r))
       = Ok (unsigned_zeros r).
Proof.
  eexists. split; [vm_compute; reflexivity|].
  apply (validate_idempotent refuse_numbers fm_abc_none).
  vm_compute. reflexivity.
Defined.

Lemma validate_ignores_extra_key_witness :
  validate refuse_numbers (<[ "currency" := VStr "INR" ]> fm_12_5)
  = validate refuse_numbers fm_12_5.
Proof.
  apply (validate_ignores_extra_key refuse_numbers fm_12_5 "currency").
  intros f. destruct f; discriminate.
Defined.

End ValidatorsFacts.

(** ** Amazon totals *)
Module AmazonFacts.
Import PyStr PyFloat Py Pdf Amazon PyStrFacts.

Lemma max_by_len_In (best : table) (ts : list table) :
  In (max_by_len best ts) (best :: ts).
Proof.
  revert best. induction ts as [|t ts IH]; intros best; simpl.
  - left. reflexivity.
  - destruct (length best <? length t)%nat.
    + right. apply IH.
    + destruct (IH best) as [H|H]; [left; exact H | right; right; exact H].
Qed.

Lemma fold_max_attained (rs : list row) (m0 : nat) :
  fold_left (fun m r' => Nat.max m (filled r')) rs m0 = m0
  \/ exists r, In r rs
       /\ filled r = fold_left (fun m r' => Nat.max m (filled r')) rs m0.
Proof.
  revert m0. induction rs as [|r rs IH]; intros m0; simpl.
  - left. reflexivity.
  - destruct (IH (Nat.max m0 (filled r))) as [H|(r' & Hin & H)].
    + rewrite H. destruct (Nat.max_spec m0 (filled r)) as [[_ E]|[_ E]];
        rewrite E; [right; exists r | left]; auto.
    + right. exists r'. auto.
Qed.

Lemma max_cols_attained (t : table) (n : nat) :
  max_cols t = Ok n -> exists r, In r t /\ filled r = n.
Proof.
  destruct t as [|r rs]; simpl; [discriminate|]. intros [= <-].
  destruct (fold_max_attained rs (filled r)) as [H|(r' & Hin & H)].
  - exists r. rewrite H. auto.
  - exists r'. auto.
Qed.

Lemma filled_not_blank (r : row) : (0 < filled r)%nat -> is_blank r = false.
Proof.
  unfold filled. induction r as [|c r IH]; simpl; [lia|].
  destruct c as [s|]; simpl; [reflexivity|]. exact IH.
Qed.

Lemma is_blank_pad (n : nat) (r : row) :
  is_blank r = false -> is_blank (pad n r) = false.
Proof.
  unfold pad. generalize (repeat (@None string) (n - length r)).
  induction r as [|c r IH]; simpl; intros l H; [discriminate|].
  destruct c; simpl in *; [reflexivity|]. apply IH, H.
Qed.

(** A table with a row of six non-empty cells keeps a row after
    [dropna]. *)
Lemma dropna_nonempty (t : table) (n : nat) :
  max_cols t = Ok n -> (0 < n)%nat -> dropna_all (frame t) <> [].
Proof.
  intros Hm Hn. destruct (max_cols_attained t n Hm) as (r & Hin & Hr).
  assert (Hp : In (pad (width t) r) (dropna_all (frame t))).
  { unfold dropna_all, frame. apply filter_In. split.
    - apply in_map, Hin.
    - rewrite is_blank_pad; [reflexivity|]. apply filled_not_blank. lia. }
  intros E. rewrite E in Hp. exact Hp.
Qed.

Lemma scan_header_fst (h : list string) (idx : nat) (tc ac : option nat) :
  fst (scan_header h idx tc ac) = None
  <-> tc = None /\ existsb is_tax_amount h = false.
Proof.
  revert idx tc ac. induction h as [|col h IH]; intros idx tc ac; simpl.
  - tauto.
  - rewrite IH. unfold is_tax_amount at 2.
    destruct (str_in "tax" (lower col) && str_in "amount" (lower col));
      simpl; intuition discriminate.
Qed.

Lemma scan_header_snd (h : list string) (idx : nat) (tc ac : option nat) :
  snd (scan_header h idx tc ac) = None
  <-> ac = None /\ existsb is_total_amount h = false.
Proof.
  revert idx tc ac. induction h as [|col h IH]; intros idx tc ac; simpl.
  - tauto.
  - rewrite IH. unfold is_total_amount at 2.
    destruct (str_in "total" (lower col) && str_in "amount" (lower col));
      simpl; intuition discriminate.
Qed.

(** C6. When no table of any page has a header row with both a tax-amount
    and a total-amount column, [extract_totals_amazon] returns (0.0, 0.0)
    and raises nothing; tables are those of the decoder, which have at least
    one row. *)
Theorem extract_totals_amazon_missing (pages : document) :
  well_formed pages ->
  (forall p t, In p pages -> In t (tables p) -> has_both_columns t = false) ->
  extract_totals_amazon pages = Ok (zero, zero).
Proof.
  induction pages as [|p pages IH]; intros Hwf Hno; [reflexivity|].
  assert (IH' : extract_totals_amazon pages = Ok (zero, zero)).
  { apply IH.
    - intros q t Hq Ht. apply (Hwf q t); [right|]; assumption.
    - intros q t Hq Ht. apply (Hno q t); [right|]; assumption. }
  simpl. destruct (tables p) as [|t0 ts] eqn:Et; [exact IH'|].
  pose proof (max_by_len_In t0 ts) as Hin. rewrite <- Et in Hin.
  set (tbl := max_by_len t0 ts) in *.
  assert (Hne : tbl <> []) by (apply (Hwf p); [left; reflexivity | exact Hin]).
  assert (Hb : has_both_columns tbl = false)
    by (apply (Hno p); [left; reflexivity | exact Hin]).
  destruct (max_cols tbl) as [n|e] eqn:Em;
    [|destruct tbl; [congruence | discriminate]].
  simpl. destruct (n <? 6)%nat eqn:En; [exact IH'|].
  apply Nat.ltb_ge in En.
  pose proof (dropna_nonempty tbl n Em ltac:(lia)) as Hd.
  unfold has_both_columns, header_row in Hb.
  destruct (dropna_all (frame tbl)) as [|header data]; [congruence|].
  apply andb_false_iff in Hb.
  destruct (scan_header (List.map str_of_cell header) 0 None None)
    as [tc ac] eqn:Es.
  destruct Hb as [Hb|Hb].
  - assert (tc = None) as ->.
    { change tc with (fst (tc, ac)). rewrite <- Es.
      apply scan_header_fst. auto. }
    reflexivity.
  - assert (ac = None) as ->.
    { change ac with (snd (tc, ac)). rewrite <- Es.
      apply scan_header_snd. auto. }
    destruct tc; reflexivity.
Qed.

Lemma extract_totals_amazon_missing_witness :
  extract_totals_amazon (one_table plain_table) = Ok (zero, zero).
Proof.
  apply extract_totals_amazon_missing.
  - intros p t [<-|[]] [<-|[]]. discriminate.
  - intros p t [<-|[]] [<-|[]]. vm_compute. reflexivity.
Defined.

(** The scenario as the specification words it: the table has four
    columns, fewer than the six the function asks for, and the result is
    (0.0, 0.0). *)
Lemma scenario_yields_zero :
  extract_totals_amazon (one_table scenario_table) = Ok (zero, zero)
  /\ extract_totals_amazon (one_table scenario_table)
     <> Ok (twelve_and_a_half, hundred_twelve_and_a_half).
Proof. split; [vm_compute; reflexivity | vm_compute; discriminate]. Qed.

Lemma wide_max_cols (a b : string) (c d : cell) :
  a <> "" -> b <> "" ->
  exists n, max_cols (wide_table a b c d) = Ok n /\ (n <? 6)%nat = false.
Proof.
  intros Ha Hb. apply String.eqb_neq in Ha, Hb.
  eexists. split; [reflexivity|]. apply Nat.ltb_ge.
  cbn [fold_left]. etransitivity; [|apply Nat.le_max_l].
  unfold filled. cbn [List.filter cell_truthy]. rewrite Ha, Hb. simpl. lia.
Qed.

Lemma wide_dropna (a b : string) (c d : cell) :
  dropna_all (frame (wide_table a b c d)) = wide_table a b c d.
Proof. destruct c, d; reflexivity. Qed.

Lemma wide_mentions_total (c d : cell) :
  mentions_total
    [c; d; Some "Total"; Some "5"; Some "12.5"; Some "112.5"] = true.
Proof.
  unfold mentions_total. cbn [existsb].
  apply orb_true_iff. right. apply orb_true_iff. right.
  vm_compute. reflexivity.
Qed.

(** C5, as amended.  For the four-column table of the scenario the function
    returns (0.0, 0.0); once the same header and row stand behind two more
    non-empty header cells, so that a row has six non-empty cells, it
    returns (12.5, 112.5). *)
Theorem extract_totals_amazon_scenario (a b : string) (c d : cell) :
  a <> "" -> b <> "" ->
  extract_totals_amazon (one_table scenario_table) = Ok (zero, zero)
  /\ extract_totals_amazon (one_table (wide_table a b c d))
     = Ok (twelve_and_a_half, hundred_twelve_and_a_half).
Proof.
  intros Ha Hb. split; [vm_compute; reflexivity|].
  destruct (wide_max_cols a b c d Ha Hb) as (n & Hn & Hlt).
  unfold one_table.
  cbn -[max_cols dropna_all frame scan_header scan_rows wide_table Nat.ltb].
  rewrite Hn. cbn [bind]. rewrite Hlt, wide_dropna.
  unfold wide_table at 1.
  replace (scan_header _ 0 None None) with (Some 4%nat, Some 5%nat)
    by (vm_compute; reflexivity).
  cbn [scan_rows]. rewrite wide_mentions_total.
  vm_compute. reflexivity.
Qed.

Lemma extract_totals_amazon_scenario_witness :
  extract_totals_amazon (one_table scenario_table) = Ok (zero, zero)
  /\ extract_totals_amazon (one_table (wide_table "Sl" "HSN" (Some "1") None))
     = Ok (twelve_and_a_half, hundred_twelve_and_a_half).
Proof.
  apply (extract_totals_amazon_scenario "Sl" "HSN" (Some "1") None);
    discriminate.
Defined.

Lemma scan_header_last_index (h : list string) (idx : nat)
    (tc ac : option nat) :
  scan_header h idx tc ac
  = (last_index is_tax_amount h idx tc, last_index is_total_amount h idx ac).
Proof.
  revert idx tc ac. induction h as [|col h IH]; intros idx tc ac; simpl;
    [reflexivity|].
  rewrite IH. reflexivity.
Qed.

Lemma last_index_spec (f : string -> bool) (h : list string) (idx : nat)
    (acc : option nat) (i : nat) :
  last_index f h idx acc = Some i
  <-> (exists k col, i = (idx + k)%nat /\ h !! k = Some col /\ f col = true
         /\ forall j col', (k < j)%nat -> h !! j = Some col' -> f col' = false)
      \/ (acc = Some i /\ forall j col', h !! j = Some col' -> f col' = false).
Proof.
  revert idx acc. induction h as [|c h IH]; intros idx acc; simpl.
  - split.
    + intros ->. right. split; [reflexivity|]. intros j col' H. discriminate H.
    + intros [(k & col & _ & H & _)|[H _]]; [discriminate H | exact H].
  - rewrite IH. split.
    + intros [(k & col & -> & Hk & Hf & Hl)|[Ha Hl]].
      * left. exists (S k), col. repeat split; [lia | exact Hk | exact Hf |].
        intros [|j] col' Hj Hc; [lia|]. apply (Hl j); [lia | exact Hc].
      * destruct (f c) eqn:Ec.
        -- injection Ha as <-. left. exists 0%nat, c.
           repeat split; [lia | exact Ec |].
           intros [|j] col' Hj Hc; [lia|]. apply (Hl j), Hc.
        -- right. split; [exact Ha|]. intros [|j] col' Hc.
           ++ injection Hc as <-. exact Ec.
           ++ apply (Hl j), Hc.
    + intros [(k & col & -> & Hk & Hf & Hl)|[Ha Hl]].
      * destruct k as [|k].
        -- injection Hk as <-. rewrite Hf. right.
           split; [f_equal; lia|]. intros j col' Hc.
           apply (Hl (S j)); [lia | exact Hc].
        -- left. exists k, col. repeat split; [lia | exact Hk | exact Hf |].
           intros j col' Hj Hc. apply (Hl (S j)); [lia | exact Hc].
      * right. rewrite (Hl 0%nat c eq_refl). split; [exact Ha|].
        intros j col' Hc. apply (Hl (S j)), Hc.
Qed.

(** X5.  The column found by the header scan is the last one that qualifies:
    the tax column is position [i] exactly when column [i] names both tax
    and amount and no later column does, and likewise for the total column;
    without such a column the scan leaves [None]. *)
Theorem scan_header_last_match (h : list string) :
  (forall i, fst (scan_header h 0 None None) = Some i
             <-> last_with is_tax_amount h i)
  /\ (forall i, snd (scan_header h 0 None None) = Some i
                <-> last_with is_total_amount h i).
Proof.
  rewrite scan_header_last_index. unfold last_with.
  split; intros i; simpl; rewrite last_index_spec; split.
  1,3: intros [(k & col & -> & H)|[H _]]; [exists col; exact H | discriminate H].
  1,2: intros (col & H); left; exists i, col; split; [reflexivity | exact H].
Qed.

Lemma findall_num_dot_skip (p s : string) :
  forall_chars (fun c => negb (is_num_dot c)) p = true ->
  findall_num_dot (p +:+ s) "" = findall_num_dot s "".
Proof.
  induction p as [|c p IH]; simpl; intros H; [reflexivity|].
  apply andb_true_iff in H as [Hc Hp]. apply negb_true_iff in Hc.
  change (String c p +:+ s) with (String c (p +:+ s)). simpl.
  rewrite Hc. apply IH, Hp.
Qed.

Lemma findall_num_dot_run (d rest run : string) :
  forall_chars is_num_dot d = true -> starts_num_dot rest = false ->
  run +:+ d <> "" ->
  exists l, findall_num_dot (d +:+ rest) run = (run +:+ d) :: l.
Proof.
  revert run. induction d as [|c d IH]; intros run Hd Hr Hne.
  - rewrite append_empty_r in *. change ("" +:+ rest) with rest.
    destruct rest as [|c r]; simpl.
    + destruct run; [congruence | eauto].
    + simpl in Hr. rewrite Hr. destruct run; [congruence | eauto].
  - simpl in Hd. apply andb_true_iff in Hd as [Hc Hd].
    change (String c d +:+ rest) with (String c (d +:+ rest)). simpl.
    rewrite Hc.
    replace (run +:+ String c d) with ((run +:+ String c "") +:+ d)
      by (rewrite append_assoc; reflexivity).
    apply IH; [exact Hd | exact Hr |].
    destruct run; simpl; discriminate.
Qed.

(** X6.  Only the first run of digits and dots of a cell is read: whatever
    precedes it (a sign, a currency symbol) and whatever follows it (a
    thousands separator and the rest of the amount) is ignored, and a run
    that [float] rejects raises [ValueError]. *)
Theorem first_number_first_run (p d rest : string) :
  forall_chars (fun c => negb (is_num_dot c)) p = true ->
  forall_chars is_num_dot d = true -> d <> "" ->
  starts_num_dot rest = false ->
  first_number (Some (p +:+ d +:+ rest))
  = match float_of_str d with
    | Some x => Ok x
    | None => Raise ValueError
    end.
Proof.
  intros Hp Hd Hne Hr. unfold first_number. simpl str_of_cell.
  rewrite (findall_num_dot_skip p _ Hp).
  destruct (findall_num_dot_run d rest "" Hd Hr) as [l ->]; [exact Hne|].
  reflexivity.
Qed.

(** "-1,234.50" is read as 1.0. *)
Lemma first_number_first_run_witness :
  first_number (Some "-1,234.50") = first_number (Some "1").
Proof.
  exact (first_number_first_run "-" "1" ",234.50" eq_refl eq_refl
           ltac:(discriminate) eq_refl).
Defined.

(** X7.  The first page whose largest table has six filled columns decides when
    its header lacks an amount column: the result is (0.0, 0.0) whatever
    the later pages hold. *)
Theorem extract_totals_amazon_stops_at_first_table (p : page)
    (rest : document) (t0 : table) (ts : list table) (n : nat) :
  tables p = t0 :: ts ->
  max_cols (max_by_len t0 ts) = Ok n -> (6 <= n)%nat ->
  has_both_columns (max_by_len t0 ts) = false ->
  extract_totals_amazon (p :: rest) = Ok (zero, zero).
Proof.
  intros Et Em Hn Hb. simpl. rewrite Et, Em. simpl.
  destruct (n <? 6)%nat eqn:En; [apply Nat.ltb_lt in En; lia|].
  pose proof (dropna_nonempty _ n Em ltac:(lia)) as Hd.
  unfold has_both_columns, header_row in Hb.
  destruct (dropna_all (frame (max_by_len t0 ts))) as [|header data];
    [congruence|].
  apply andb_false_iff in Hb.
  destruct (scan_header (List.map str_of_cell header) 0 None None)
    as [tc ac] eqn:Es.
  destruct Hb as [Hb|Hb].
  - assert (tc = None) as ->.
    { change tc with (fst (tc, ac)). rewrite <- Es.
      apply scan_header_fst. auto. }
    reflexivity.
  - assert (ac = None) as ->.
    { change ac with (snd (tc, ac)). rewrite <- Es.
      apply scan_header_snd. auto. }
    destruct tc; reflexivity.
Qed.

Lemma extract_totals_amazon_stops_at_first_table_witness :
  extract_totals_amazon plain_then_totals = Ok (zero, zero).
Proof.
  apply (extract_totals_amazon_stops_at_first_table _ _ plain_table [] 6);
    [reflexivity | reflexivity | lia | reflexivity].
Defined.

Lemma scan_rows_first (pre post : list row) (r : row) (tc ac : nat) :
  forallb (fun r' => negb (mentions_total r')) pre = true ->
  mentions_total r = true ->
  scan_rows (pre ++ r :: post) tc ac
  = Some (let* tax := first_number (at_col r tc) in
          let* amt := first_number (at_col r ac) in
          Ok (tax, amt)).
Proof.
  intros Hpre Hr. induction pre as [|q pre IH]; simpl.
  - rewrite Hr. reflexivity.
  - simpl in Hpre. apply andb_true_iff in Hpre as [Hq Hpre].
    apply negb_true_iff in Hq. rewrite Hq. apply IH, Hpre.
Qed.

(** X8.  With both amount columns in the header, the first data row that
    mentions a total gives the result: its two cells are read, a cell
    that [float] rejects raises, and neither the rows below nor the later
    pages are looked at. *)
Theorem extract_totals_amazon_first_total_row (p : page) (rest : document)
    (t0 : table) (ts : list table) (n tc ac : nat) (header r : row)
    (pre post : list row) :
  tables p = t0 :: ts ->
  max_cols (max_by_len t0 ts) = Ok n -> (6 <= n)%nat ->
  dropna_all (frame (max_by_len t0 ts)) = header :: pre ++ r :: post ->
  scan_header (List.map str_of_cell header) 0 None None = (Some tc, Some ac) ->
  forallb (fun r' => negb (mentions_total r')) pre = true ->
  mentions_total r = true ->
  extract_totals_amazon (p :: rest)
  = let* tax := first_number (at_col r tc) in
    let* amt := first_number (at_col r ac) in
    Ok (tax, amt).
Proof.
  intros Et Em Hn Ed Es Hpre Hr. simpl. rewrite Et, Em. simpl.
  destruct (n <? 6)%nat eqn:En; [apply Nat.ltb_lt in En; lia|].
  rewrite Ed, Es, (scan_rows_first pre post r tc ac Hpre Hr). reflexivity.
Qed.

Lemma extract_totals_amazon_first_total_row_witness :
  extract_totals_amazon (one_table two_totals_table)
  = Ok (twelve_and_a_half, hundred_twelve_and_a_half).
Proof.
  exact (extract_totals_amazon_first_total_row
           {| chars := []; tables := [two_totals_table] |} []
           two_totals_table [] 6 4 5
           [Some "Sl"; Some "HSN"; Some "Description"; Some "Qty";
            Some "Tax Amount"; Some "Total Amount"]
           [None; None; Some "Sub Total"; Some "5"; Some "12.5";
            Some "112.5"]
           [[Some "1"; Some "8544"; Some "Cable"; Some "5"; Some "2.5";
             Some "52.5"]]
           [[None; None; Some "Grand Total"; None; Some "15.0";
             Some "150.0"]]
           eq_refl eq_refl ltac:(lia) eq_refl eq_refl eq_refl eq_refl).
Defined.

Lemma width_ge (t : table) (r : row) : In r t -> (length r <= width t)%nat.
Proof.
  unfold width. induction t as [|q t IH]; simpl; [tauto|].
  intros [->|H]; [lia|]. specialize (IH H). lia.
Qed.

Lemma width_const (t : table) (n : nat) :
  t <> [] -> (forall r, In r t -> length r = n) -> width t = n.
Proof.
  unfold width. induction t as [|q t IH]; intros Hne H; [congruence|].
  simpl. rewrite (H q (or_introl eq_refl)).
  destruct t as [|q' t]; [simpl; lia|].
  rewrite IH; [lia | discriminate |].
  intros r Hr. apply H. right. exact Hr.
Qed.

Lemma length_pad (n : nat) (r : row) :
  (length r <= n)%nat -> length (pad n r) = n.
Proof.
  intros H. unfold pad. rewrite length_app, repeat_length. lia.
Qed.

Lemma strip_row_stripped (r : row) :
  forallb stripped_cell (List.map (@Some string) (strip_row r)) = true.
Proof.
  induction r as [|c r IH]; simpl; [reflexivity|]. rewrite IH, andb_true_r.
  destruct (cell_truthy c); [|reflexivity].
  rewrite strip_idempotent. apply String.eqb_refl.
Qed.

Lemma strip_row_nonempty (r : row) :
  existsb has_text r = true ->
  existsb nonempty_cell (List.map (@Some string) (strip_row r)) = true.
Proof.
  induction r as [|c r IH]; simpl; [discriminate|]. intros H.
  apply orb_true_iff in H as [H|H]; [|rewrite (IH H); apply orb_true_r].
  destruct c as [s|]; [|discriminate]. simpl in *.
  apply andb_true_iff in H as [H1 H2]. rewrite H1, H2. reflexivity.
Qed.

Lemma forallb_pad (n : nat) (r : row) :
  forallb stripped_cell r = true -> forallb stripped_cell (pad n r) = true.
Proof.
  intros H. unfold pad. rewrite forallb_app, H. simpl.
  induction (n - length r)%nat; simpl; auto.
Qed.

Lemma existsb_pad (n : nat) (r : row) :
  existsb nonempty_cell r = true -> existsb nonempty_cell (pad n r) = true.
Proof. intros H. unfold pad. rewrite existsb_app, H. reflexivity. Qed.

Lemma make_frame_rows (others : list row) (cols0 cols : list string)
    (rows : list row) :
  (forall r, In r others -> existsb has_text r = true) ->
  make_frame (List.map strip_row others) cols0 = Ok (cols, rows) ->
  forall r, In r rows -> item_row_ok cols r.
Proof.
  intros Ho. unfold make_frame.
  destruct (List.map strip_row others) as [|x xs] eqn:E.
  - intros [= <- <-] r [].
  - rewrite <- E. clear x xs E.
    set (data := List.map (List.map (@Some string))
                   (List.map strip_row others)).
    destruct (width data =? length cols0)%nat eqn:Ew; [|discriminate].
    apply Nat.eqb_eq in Ew. intros [= <- <-] r Hr.
    unfold frame in Hr. apply in_map_iff in Hr as (q & <- & Hq).
    pose proof (width_ge _ _ Hq) as Hlen.
    unfold data in Hq. apply in_map_iff in Hq as (q' & <- & Hq').
    apply in_map_iff in Hq' as (q0 & <- & Hq0).
    split; [|split].
    + rewrite <- Ew. apply length_pad, Hlen.
    + apply forallb_pad, strip_row_stripped.
    + apply existsb_pad, strip_row_nonempty, Ho, Hq0.
Qed.

Lemma make_frame_rectangular (others : list row) (cols : list string) :
  (forall r, In r others -> length r = length cols) ->
  exists fr, make_frame (List.map strip_row others) cols = Ok fr.
Proof.
  intros H. unfold make_frame.
  destruct (List.map strip_row others) as [|x xs] eqn:E; [eauto|].
  rewrite <- E.
  rewrite (width_const _ (length cols)), Nat.eqb_refl; [eauto | |].
  - rewrite E. discriminate.
  - intros r Hr. apply in_map_iff in Hr as (q & <- & Hq).
    apply in_map_iff in Hq as (q0 & <- & Hq0).
    unfold strip_row. rewrite !length_map. apply H, Hq0.
Qed.

Section ItemTable.

Variable title : string -> string.

Lemma item_table_of_rows (ts : list table) (cols : list string)
    (rows : list row) :
  item_table_of title ts = Some (Ok (cols, rows)) ->
  forall r, In r rows -> item_row_ok cols r.
Proof.
  induction ts as [|t ts IH]; simpl; [discriminate|].
  destruct (rows_with_text t) as [|first others] eqn:E; [exact IH|].
  destruct (is_item_header (item_header first)); [|exact IH].
  intros [= H].
  assert (Ho : forall r, In r others -> existsb has_text r = true).
  { intros r Hr.
    assert (Hin : In r (rows_with_text t)) by (rewrite E; right; exact Hr).
    apply filter_In in Hin. apply Hin. }
  exact (make_frame_rows others _ _ _ Ho H).
Qed.

(** X9.  Every row of the frame [extract_item_table_amazon] returns is as wide
    as the header, holds only stripped text (and the [None] that fills a
    short row), and has at least one cell that is not empty. *)
Theorem extract_item_table_amazon_rows (pages : document)
    (cols : list string) (rows : list row) :
  extract_item_table_amazon title pages = Ok (cols, rows) ->
  forall r, In r rows ->
    length r = length cols
    /\ forallb stripped_cell r = true
    /\ existsb nonempty_cell r = true.
Proof.
  induction pages as [|p pages IH]; simpl.
  - intros [= <- <-] r [].
  - destruct (item_table_of title (tables p)) as [res|] eqn:E; [|exact IH].
    intros ->. exact (item_table_of_rows _ _ _ E).
Qed.

Lemma length_clean_header (h : list string) (i : nat) :
  length (clean_header title h i) = length h.
Proof.
  revert i. induction h as [|x h IH]; intros i; simpl; [reflexivity|].
  rewrite IH. reflexivity.
Qed.

Lemma item_table_of_rectangular (ts : list table) :
  (forall t, In t ts -> rectangular t) ->
  item_table_of title ts = None
  \/ exists fr, item_table_of title ts = Some (Ok fr).
Proof.
  induction ts as [|t ts IH]; intros H; simpl; [left; reflexivity|].
  assert (IH' := IH (fun t' Ht' => H t' (or_intror Ht'))).
  destruct (rows_with_text t) as [|first others] eqn:E; [exact IH'|].
  destruct (is_item_header (item_header first)); [|exact IH'].
  right. destruct (H t (or_introl eq_refl)) as [n Hn].
  assert (Hsub : forall r, In r (first :: others) -> length r = n).
  { intros r Hr. rewrite <- E in Hr. apply filter_In in Hr. apply Hn, Hr. }
  destruct (make_frame_rectangular others
              (clean_header title (item_header first) 0)) as [fr ->];
    [|eauto].
  intros r Hr. rewrite length_clean_header. unfold item_header.
  rewrite length_map, (Hsub first (or_introl eq_refl)).
  apply Hsub. right. exact Hr.
Qed.

(** X10.  On tables whose rows all have the same number of cells, as the decoder
    produces them, [extract_item_table_amazon] raises nothing. *)
Theorem extract_item_table_amazon_rectangular (pages : document) :
  (forall p t, In p pages -> In t (tables p) ->
     exists n, forall r, In r t -> length r = n) ->
  exists fr, extract_item_table_amazon title pages = Ok fr.
Proof.
  induction pages as [|p pages IH]; intros H; simpl; [eauto|].
  destruct (item_table_of_rectangular (tables p)) as [->|[fr ->]].
  - intros t Ht. apply (H p t (or_introl eq_refl) Ht).
  - apply IH. intros q t Hq Ht. apply (H q t (or_intror Hq) Ht).
  - eauto.
Qed.

End ItemTable.

Lemma extract_item_table_amazon_rows_witness :
  length [Some "1"; Some "USB cable"; Some "2"; Some "398.00"] = 4%nat
  /\ forallb stripped_cell
       [Some "1"; Some "USB cable"; Some "2"; Some "398.00"] = true
  /\ existsb nonempty_cell
       [Some "1"; Some "USB cable"; Some "2"; Some "398.00"] = true.
Proof.
  exact (extract_item_table_amazon_rows plain_title
           (one_table item_table_example)
           ["sl_no"; "description"; "qty"; "total_amount"]
           [[Some "1"; Some "USB cable"; Some "2"; Some "398.00"]]
           eq_refl _ (or_introl eq_refl)).
Defined.

Lemma extract_item_table_amazon_rectangular_witness :
  exists fr,
    extract_item_table_amazon plain_title (one_table item_table_example)
    = Ok fr.
Proof.
  apply (extract_item_table_amazon_rectangular plain_title).
  intros p t [<-|[]] [<-|[]]. exists 4%nat.
  intros r [<-|[<-|[<-|[<-|[]]]]]; reflexivity.
Defined.

Lemma first_number_Raise (c : cell) (e : exn) :
  first_number c = Raise e -> e = ValueError.
Proof.
  unfold first_number. destruct (findall_num_dot _ _) as [|v l];
    [discriminate|].
  destruct (float_of_str v); [discriminate|]. congruence.
Qed.

Lemma scan_rows_Raise (data : list row) (tc ac : nat) (e : exn) :
  scan_rows data tc ac = Some (Raise e) -> e = ValueError.
Proof.
  induction data as [|r data IH]; simpl; [discriminate|].
  destruct (mentions_total r); [|exact IH]. intros [= H].
  destruct (first_number (at_col r tc)) as [tax|e1] eqn:E1.
  - destruct (first_number (at_col r ac)) as [amt|e2] eqn:E2;
      [discriminate|].
    simpl in H. injection H as <-. exact (first_number_Raise _ _ E2).
  - simpl in H. injection H as <-. exact (first_number_Raise _ _ E1).
Qed.

(** X11.  [extract_totals_amazon] raises nothing but [ValueError]: from a cell
    of the totals row whose first run of digits and dots is no number, or
    from a table without rows.  The header row is always there when it is
    read, so [IndexError] never comes. *)
Theorem extract_totals_amazon_raises (pages : document) (e : exn) :
  extract_totals_amazon pages = Raise e -> e = ValueError.
Proof.
  induction pages as [|p pages IH]; simpl; [discriminate|].
  destruct (tables p) as [|t0 ts]; [exact IH|].
  destruct (max_cols (max_by_len t0 ts)) as [n|e'] eqn:Em.
  - simpl. destruct (n <? 6)%nat eqn:En; [exact IH|].
    apply Nat.ltb_ge in En.
    pose proof (dropna_nonempty _ n Em ltac:(lia)) as Hd.
    destruct (dropna_all (frame (max_by_len t0 ts))) as [|header data];
      [congruence|].
    destruct (scan_header _ 0 None None) as [[tc|] [ac|]]; try discriminate.
    destruct (scan_rows data tc ac) as [r|] eqn:Es; [|exact IH].
    intros ->. exact (scan_rows_Raise _ _ _ _ Es).
  - simpl. intros [= <-]. unfold max_cols in Em.
    destruct (max_by_len t0 ts); [congruence | discriminate].
Qed.

Lemma extract_totals_amazon_raises_witness :
  exists e,
    extract_totals_amazon (one_table rupees_table) = Raise e
    /\ e = ValueError.
Proof.
  exists ValueError. split; [reflexivity|].
  exact (extract_totals_amazon_raises (one_table rupees_table) ValueError
           eq_refl).
Defined.

End AmazonFacts.

(** ** Flipkart line items and the total-price rule *)
Module FlipkartFacts.
Import PyStr PyFloat Py Pdf Flipkart PyStrFacts.

Lemma group_rows_app (pre post : list string) (line : string)
    (desc : list string) :
  (6 <=? length (findall_numbers line Idle))%nat = true ->
  group_rows (pre ++ line :: post) desc
  = (group_rows pre desc
     ++ (pending pre desc, last_six (findall_numbers line Idle))
        :: group_rows post [])%list.
Proof.
  intros H. revert desc.
  induction pre as [|l pre IH]; intros desc; cbn [group_rows pending app].
  - rewrite H. reflexivity.
  - destruct (6 <=? length (findall_numbers l Idle))%nat;
      cbn [app]; rewrite IH; reflexivity.
Qed.

Lemma build_items_app (l1 l2 : list (list string * list string)) (i : nat) :
  build_items (l1 ++ l2) i
  = (build_items l1 i ++ build_items l2 (length l1 + i))%list.
Proof.
  revert i. induction l1 as [|[d n] l1 IH]; intros i; simpl; [reflexivity|].
  rewrite IH, Nat.add_succ_r.
  destruct (is_charge (join " " d)); reflexivity.
Qed.

Lemma build_items_SlNo (l : list (list string * list string)) (i : nat)
    (it : line_item) :
  In it (build_items l i) -> (i <= SlNo it < i + length l)%nat.
Proof.
  revert i. induction l as [|[d n] l IH]; intros i; simpl; [tauto|].
  intros H.
  assert (In it (build_items l (S i)) -> (i <= SlNo it < i + S (length l))%nat)
    by (intros H'; apply IH in H'; lia).
  destruct (is_charge (join " " d)); [auto|].
  destruct H as [<-|H']; [simpl; lia | auto].
Qed.

Lemma find_absent {A : Type} (f : A -> bool) (l : list A) :
  (forall x, In x l -> f x = false) -> find f l = None.
Proof.
  induction l as [|x l IH]; simpl; intros H; [reflexivity|].
  rewrite (H x) by (left; reflexivity). apply IH. intros y Hy. apply H. auto.
Qed.

Lemma find_skip {A : Type} (f : A -> bool) (l1 l2 : list A) :
  (forall x, In x l1 -> f x = false) -> find f (l1 ++ l2) = find f l2.
Proof.
  induction l1 as [|x l1 IH]; simpl; intros H; [reflexivity|].
  rewrite (H x) by (left; reflexivity). apply IH. intros y Hy. apply H. auto.
Qed.

Lemma last_six_app (before : list string) :
  last_six (before ++ six_numbers) = six_numbers.
Proof.
  unfold last_six. rewrite length_app. simpl length.
  replace (length before + 6 - 6)%nat with (length before + 0)%nat by lia.
  rewrite skipn_app, Nat.add_0_r, skipn_all.
  replace (length before - length before)%nat with 0%nat by lia.
  reflexivity.
Qed.

(** C8. A line whose numbers end with 2, 100.0, 10.0, 180.0, 18.0, 198.0
    closes a row that holds exactly these six, whatever precedes them on the
    line and whatever lines precede it; the item of that row, which carries
    the row's rank as "Sl.No", has Qty 2, UnitPrice 100.0, Discount 10.0,
    NetAmount 180.0, TaxAmount 18.0 and TotalAmount 198.0.  The item is in
    the table unless its description names a shipping or handling charge,
    the rows the parser leaves out. *)
Theorem flipkart_last_six_numbers (pg : page) (others : document)
    (tbl : table) (ts : list table) (pre post : list string)
    (line : string) (before : list string) :
  tables pg = tbl :: ts ->
  table_lines tbl = (pre ++ line :: post)%list ->
  findall_numbers line Idle = (before ++ six_numbers)%list ->
  group_rows (table_lines tbl) [] !! length (group_rows pre [])
  = Some (pending pre [], six_numbers)
  /\ exists items,
    extract_line_items (pg :: others) = Ok items
    /\ find (fun it => SlNo it =? S (length (group_rows pre [])))%nat items
       = if is_charge (join " " (pending pre [])) then None
         else Some (expected_item (S (length (group_rows pre [])))
                                  (join " " (pending pre []))).
Proof.
  intros Ht Hl Hn. unfold extract_line_items. rewrite Ht, Hl.
  assert (H6 : (6 <=? length (findall_numbers line Idle))%nat = true).
  { rewrite Hn, length_app. apply Nat.leb_le. simpl. lia. }
  rewrite group_rows_app by exact H6.
  rewrite Hn, last_six_app.
  split; [apply list_lookup_middle; reflexivity|].
  eexists. split; [reflexivity|].
  rewrite build_items_app.
  set (k := length (group_rows pre [])).
  rewrite find_skip.
  2:{ intros it Hit. apply build_items_SlNo in Hit.
      apply Nat.eqb_neq. fold k in Hit. lia. }
  cbn [build_items]. rewrite Nat.add_1_r.
  destruct (is_charge (join " " (pending pre []))).
  - apply find_absent. intros it Hit. apply build_items_SlNo in Hit.
    apply Nat.eqb_neq. lia.
  - cbn [find item_of SlNo]. rewrite Nat.eqb_refl. reflexivity.
Qed.

Lemma flipkart_last_six_numbers_witness :
  group_rows (table_lines widget_table) [] !! 0%nat
  = Some (["Sl"; "Item"; "1"; "Widget blue, model 7"], six_numbers)
  /\ exists items,
    extract_line_items [widget_page] = Ok items
    /\ find (fun it => SlNo it =? 1)%nat items
       = Some (expected_item 1 "Sl Item 1 Widget blue, model 7").
Proof.
  apply (flipkart_last_six_numbers widget_page [] widget_table []
           ["Sl"; "Item"; "1"; "Widget blue, model 7"] []
           "HSN 8471 2 100.0 10.0 180.0 18.0 198.0" ["8471"]);
    vm_compute; reflexivity.
Defined.

(** *** The total-price rule *)

Lemma in_price_class_iff (c : ascii) :
  in_price_class c = true
  <-> c = "\"%char \/ c = "d"%char \/ c = "D"%char \/ c = "."%char.
Proof.
  unfold in_price_class. rewrite !orb_true_iff, !Ascii.eqb_eq. tauto.
Qed.

Lemma digit_not_in_price_class (c : ascii) :
  is_digit c = true -> in_price_class c = false.
Proof.
  intros Hd. destruct (in_price_class c) eqn:E; [|reflexivity].
  apply in_price_class_iff in E.
  destruct E as [-> | [-> | [-> | ->]]]; vm_compute in Hd; discriminate Hd.
Qed.

Lemma take_while_all (f : ascii -> bool) (s : string) :
  all_chars f (take_while f s) = true.
Proof.
  induction s as [|c s IH]; simpl; [reflexivity|].
  destruct (f c) eqn:E; simpl; [rewrite E, IH|]; reflexivity.
Qed.

Lemma all_chars_lstrip (f : ascii -> bool) (s : string) :
  all_chars f s = true -> all_chars f (lstrip s) = true.
Proof.
  induction s as [|c s IH]; simpl; [reflexivity|].
  intros H. apply andb_true_iff in H as [Hc Hs].
  destruct (is_space c); [auto|]. simpl. rewrite Hc, Hs. reflexivity.
Qed.

Lemma all_chars_rstrip (f : ascii -> bool) (s : string) :
  all_chars f s = true -> all_chars f (rstrip s) = true.
Proof.
  induction s as [|c s IH]; simpl; [reflexivity|].
  intros H. apply andb_true_iff in H as [Hc Hs]. specialize (IH Hs).
  destruct (rstrip s).
  - destruct (is_space c); simpl; [|rewrite Hc]; reflexivity.
  - change (f c && all_chars f (String a s0) = true). rewrite Hc. exact IH.
Qed.

Lemma match_total_price_at_class (s g : string) :
  match_total_price_at s = Some g -> all_chars in_price_class g = true.
Proof.
  unfold match_total_price_at.
  destruct (match_label s) as [r|]; [|discriminate].
  pose proof (take_while_all in_price_class
                (skip_while is_colon_or_space r)) as H.
  destruct (take_while _ _); [discriminate|]. intros [= <-]. exact H.
Qed.

Lemma search_total_price_class (s g : string) :
  search_total_price s = Some g -> all_chars in_price_class g = true.
Proof.
  induction s as [|c s IH]; cbn [search_total_price];
    destruct (match_total_price_at _) eqn:E; try discriminate; auto;
    intros [= <-]; exact (match_total_price_at_class _ _ E).
Qed.

Lemma skip_while_app (f : ascii -> bool) (sep rest : string) :
  all_chars f sep = true -> skip_while f (sep +:+ rest) = skip_while f rest.
Proof.
  induction sep as [|c sep IH]; simpl; [reflexivity|].
  intros H. apply andb_true_iff in H as [Hc Hs].
  change (skip_while f (String c (sep +:+ rest)) = skip_while f rest).
  simpl. rewrite Hc. auto.
Qed.

Lemma take_while_digit (s : string) :
  starts_with_digit s = true -> take_while in_price_class s = "".
Proof.
  destruct s as [|c s]; simpl; [reflexivity|]. intros H.
  rewrite (digit_not_in_price_class c H). reflexivity.
Qed.

Lemma match_none_when_digit (s : string) :
  match match_label s with
  | Some r => starts_with_digit (skip_while is_colon_or_space r)
  | None => true
  end = true ->
  match_total_price_at s = None.
Proof.
  unfold match_total_price_at. destruct (match_label s) as [r|]; [|reflexivity].
  intros H. rewrite (take_while_digit _ H). reflexivity.
Qed.

Lemma search_none_when_digits (s : string) :
  every_label_before_digit s = true -> search_total_price s = None.
Proof.
  induction s as [|c s IH];
    cbn [every_label_before_digit search_total_price]; intros H;
    apply andb_true_iff in H as [Hh Ht].
  - rewrite (match_none_when_digit "" Hh). reflexivity.
  - rewrite (match_none_when_digit (String c s) Hh). auto.
Qed.

(** With the amount ".5" the group matches the dot. *)
Lemma total_price_leading_dot :
  all_chars (fun c => is_digit c || Ascii.eqb c ".") ".5" = true
  /\ total_amount_field cluster_dot_5 = "."
  /\ total_amount_field cluster_dot_5 <> "".
Proof. repeat split; vm_compute; discriminate. Qed.

(** C10, as amended.  The class of the total-price rule matches a
    backslash, the letter d (of either case: the rule is case-insensitive)
    and the dot, and never a digit.  So [total_amount] never holds a digit:
    it is made of these characters only; at a label "TOTAL PRICE" followed
    by colons or blanks and an amount that begins with a digit the rule
    does not match, and [total_amount] is the empty string whenever every
    occurrence of the label is followed by such an amount. *)
Theorem total_price_rule_gap :
  (forall c, in_price_class c = true
             <-> c = "\"%char \/ c = "d"%char \/ c = "D"%char \/ c = "."%char)
  /\ (forall c, is_digit c = true -> in_price_class c = false)
  /\ (forall cluster,
        all_chars in_price_class (total_amount_field cluster) = true)
  /\ (forall sep amt,
        all_chars is_colon_or_space sep = true ->
        starts_with_digit amt = true ->
        match_total_price_at ("TOTAL PRICE" +:+ sep +:+ amt) = None)
  /\ (forall cluster,
        every_label_before_digit cluster = true ->
        total_amount_field cluster = "").
Proof.
  split; [exact in_price_class_iff|].
  split; [exact digit_not_in_price_class|].
  split; [|split].
  - intros cluster. unfold total_amount_field.
    destruct (search_total_price cluster) as [g|] eqn:E; [|reflexivity].
    apply all_chars_rstrip, all_chars_lstrip.
    exact (search_total_price_class _ _ E).
  - intros sep amt Hsep Hamt. unfold match_total_price_at.
    change (match_label ("TOTAL PRICE" +:+ sep +:+ amt))
      with (Some (sep +:+ amt)).
    cbv beta iota. rewrite skip_while_app by exact Hsep.
    replace (skip_while is_colon_or_space amt) with amt.
    + rewrite take_while_digit by exact Hamt. reflexivity.
    + destruct amt as [|c amt]; [reflexivity|]. simpl in *.
      replace (is_colon_or_space c) with false; [reflexivity|].
      symmetry. unfold is_colon_or_space.
      destruct c as [[] [] [] [] [] [] [] []]; vm_compute in Hamt;
        try discriminate Hamt; vm_compute; reflexivity.
  - intros cluster H. unfold total_amount_field.
    rewrite (search_none_when_digits _ H). reflexivity.
Qed.

Lemma total_price_rule_gap_witness :
  total_amount_field cluster_198 = ""
  /\ match_total_price_at ("TOTAL PRICE" +:+ ": " +:+ "198.0") = None.
Proof.
  destruct total_price_rule_gap as (_ & _ & _ & Hat & Hgap).
  split.
  - apply Hgap. vm_compute. reflexivity.
  - apply Hat; vm_compute; reflexivity.
Defined.

Lemma all_chars_snoc (f : ascii -> bool) (s : string) (c : ascii) :
  all_chars f s = true -> f c = true -> all_chars f (snoc s c) = true.
Proof.
  intros Hs Hc. unfold snoc. induction s as [|a s IH].
  - simpl. rewrite Hc. reflexivity.
  - simpl in Hs. apply andb_true_iff in Hs as [Ha Hs].
    change (f a && all_chars f (s +:+ String c "") = true).
    rewrite Ha. exact (IH Hs).
Qed.

Lemma snoc_nonempty (s : string) (c : ascii) : snoc s c <> "".
Proof. destruct s; discriminate. Qed.

Lemma skip_while_all (f : ascii -> bool) (s : string) :
  all_chars f s = true -> skip_while f s = "".
Proof.
  induction s as [|c s IH]; simpl; [reflexivity|]. intros H.
  apply andb_true_iff in H as [Hc Hs]. rewrite Hc. exact (IH Hs).
Qed.

Lemma starts_with_digit_app (i r : string) :
  i <> "" -> all_chars is_digit i = true -> starts_with_digit (i +:+ r) = true.
Proof.
  destruct i as [|c i]; [congruence|]. intros _ H. simpl in H.
  apply andb_true_iff in H as [Hc _]. exact Hc.
Qed.

Lemma is_number_text_int (tok : string) :
  tok <> "" -> all_chars is_digit tok = true -> is_number_text tok = true.
Proof.
  intros Hne Hd. unfold is_number_text. rewrite (skip_while_all _ _ Hd).
  rewrite <- (append_empty_r tok), (starts_with_digit_app tok "" Hne Hd).
  reflexivity.
Qed.

Lemma is_number_text_frac (i f : string) :
  i <> "" -> all_chars is_digit i = true ->
  f <> "" -> all_chars is_digit f = true ->
  is_number_text (i +:+ String "." f) = true.
Proof.
  intros Hi Hdi Hf Hdf. unfold is_number_text.
  rewrite (starts_with_digit_app i _ Hi Hdi), (skip_while_app _ _ _ Hdi).
  simpl. rewrite Hdf, andb_true_r.
  rewrite <- (append_empty_r f). apply starts_with_digit_app; assumption.
Qed.

Lemma scan_ok_tokens (s : string) (st : scan_state) :
  scan_ok st s -> forallb is_number_text (findall_numbers s st) = true.
Proof.
  revert st. induction s as [|c r IH]; intros st Hst.
  - destruct st as [|tok|tok]; simpl; [reflexivity| |].
    + destruct Hst as [Hne Hd]. rewrite (is_number_text_int tok Hne Hd).
      reflexivity.
    + destruct Hst as (i & f & -> & Hi & Hdi & Hdf & Hf).
      rewrite is_number_text_frac; [reflexivity | assumption.. | | assumption].
      intros E. specialize (Hf E). discriminate Hf.
  - destruct st as [|tok|tok]; cbn [findall_numbers].
    + destruct (is_digit c) eqn:Ec; apply IH; simpl; [|exact I].
      split; [discriminate|]. rewrite Ec. reflexivity.
    + destruct Hst as [Hne Hd]. destruct (is_digit c) eqn:Ec.
      * apply IH. split; [apply snoc_nonempty|].
        apply all_chars_snoc; assumption.
      * destruct (Ascii.eqb c "." && starts_with_digit r) eqn:Edot.
        -- apply andb_true_iff in Edot as [Edot Hr].
           apply Ascii.eqb_eq in Edot. subst c. apply IH.
           exists tok, "". repeat split; auto.
        -- cbn [forallb]. rewrite (is_number_text_int tok Hne Hd).
           apply IH. exact I.
    + destruct Hst as (i & f & -> & Hi & Hdi & Hdf & Hf).
      destruct (is_digit c) eqn:Ec.
      * apply IH. exists i, (snoc f c). repeat split; auto.
        -- unfold snoc. rewrite append_assoc. reflexivity.
        -- apply all_chars_snoc; assumption.
        -- intros E. destruct (snoc_nonempty _ _ E).
      * cbn [forallb]. rewrite is_number_text_frac;
          [apply IH; exact I | assumption.. | | assumption].
        intros E. specialize (Hf E). simpl in Hf. congruence.
Qed.

(** X12.  Every token of the number scan is well formed: it begins with a
    digit, and after its digits comes nothing, or one dot and at least one
    digit; so a sign, a trailing dot and a second dot are never part of a
    token. *)
Theorem findall_numbers_shape (s : string) :
  forallb is_number_text (findall_numbers s Idle) = true.
Proof. apply scan_ok_tokens. exact I. Qed.

Lemma forallb_skipn {A : Type} (f : A -> bool) (n : nat) (l : list A) :
  forallb f l = true -> forallb f (skipn n l) = true.
Proof.
  revert n. induction l as [|x l IH]; intros [|n] H; simpl in *; auto.
  apply andb_true_iff in H as [_ H]. auto.
Qed.

Lemma group_rows_nums (lines desc : list string) :
  Forall (fun dn => length (snd dn) = 6%nat
                    /\ forallb is_number_text (snd dn) = true)
         (group_rows lines desc).
Proof.
  revert desc. induction lines as [|line rest IH]; intros desc;
    cbn [group_rows]; [constructor|].
  destruct (6 <=? length (findall_numbers line Idle))%nat eqn:E; [|apply IH].
  apply Nat.leb_le in E. constructor; [|apply IH]. simpl. split.
  - unfold last_six. rewrite length_skipn. lia.
  - apply forallb_skipn, scan_ok_tokens. exact I.
Qed.

Lemma nth_number_text (n : list string) (k : nat) :
  forallb is_number_text n = true -> (k < length n)%nat ->
  is_number_text (nth k n "") = true.
Proof.
  intros H Hk. rewrite forallb_forall in H. apply H, nth_In, Hk.
Qed.

Lemma build_items_props (rows : list (list string * list string)) (i : nat) :
  Forall (fun dn => length (snd dn) = 6%nat
                    /\ forallb is_number_text (snd dn) = true) rows ->
  StronglySorted lt (List.map SlNo (build_items rows i))
  /\ Forall (fun it =>
               (i <= SlNo it)%nat
               /\ (exists d, Description it = VStr d /\ is_charge d = false)
               /\ forallb is_number_value (amounts it) = true)
            (build_items rows i).
Proof.
  revert i. induction rows as [|[d n] rows IH]; intros i H; simpl.
  - split; constructor.
  - inversion H as [|x l [Hlen Hn] Hrest]; subst.
    destruct (IH (S i) Hrest) as [Hs Hf].
    assert (Hf' : Forall (fun it =>
               (i <= SlNo it)%nat
               /\ (exists d, Description it = VStr d /\ is_charge d = false)
               /\ forallb is_number_value (amounts it) = true)
            (build_items rows (S i))).
    { eapply List.Forall_impl; [|exact Hf]. simpl. intros it (H1 & H2 & H3).
      repeat split; auto; lia. }
    destruct (is_charge (join " " d)) eqn:Ec; [split; assumption|].
    simpl in Hlen, Hn. split.
    + simpl. constructor; [exact Hs|].
      apply List.Forall_map. eapply List.Forall_impl; [|exact Hf]. simpl.
      intros it (H1 & _). lia.
    + constructor; [|exact Hf']. simpl. split; [lia|]. split; [eauto|].
      rewrite !nth_number_text by (assumption || lia). reflexivity.
Qed.

(** X13.  The items [extract_line_items] returns are numbered in strictly
    increasing order from 1 at least, none of them is a shipping or
    handling charge, and each of their six amounts is a well-formed number
    text. *)
Theorem extract_line_items_items (pages : document) (items : list line_item) :
  extract_line_items pages = Ok items ->
  StronglySorted lt (List.map SlNo items)
  /\ Forall (fun it =>
               (1 <= SlNo it)%nat
               /\ (exists d, Description it = VStr d /\ is_charge d = false)
               /\ forallb is_number_value (amounts it) = true)
            items.
Proof.
  unfold extract_line_items. destruct pages as [|pg _]; [discriminate|].
  destruct (tables pg) as [|tbl _].
  - intros [= <-]. split; constructor.
  - intros [= <-]. apply build_items_props, group_rows_nums.
Qed.

Lemma extract_line_items_items_witness :
  StronglySorted lt
    (List.map SlNo [expected_item 1 "Widget blue"])
  /\ Forall (fun it =>
               (1 <= SlNo it)%nat
               /\ (exists d, Description it = VStr d /\ is_charge d = false)
               /\ forallb is_number_value (amounts it) = true)
            [expected_item 1 "Widget blue"].
Proof.
  exact (extract_line_items_items [widget_shipping_page]
           [expected_item 1 "Widget blue"] eq_refl).
Defined.

Lemma group_rows_tail (lines tail desc : list string) :
  (forall l, In l tail -> (length (findall_numbers l Idle) < 6)%nat) ->
  group_rows (lines ++ tail) desc = group_rows lines desc.
Proof.
  intros Ht. revert desc. induction lines as [|line rest IH]; intros desc.
  - cbn [app]. revert desc. induction tail as [|l tail IHt]; intros desc;
      [reflexivity|]. cbn [group_rows].
    destruct (6 <=? length (findall_numbers l Idle))%nat eqn:E.
    + apply Nat.leb_le in E. specialize (Ht l (or_introl eq_refl)). lia.
    + apply IHt. intros l' Hl'. apply Ht. right. exact Hl'.
  - cbn [app group_rows].
    destruct (6 <=? length (findall_numbers line Idle))%nat;
      rewrite IH; reflexivity.
Qed.

(** X14.  Lines after the last line with six numbers never reach the items: the
    result is the same as if the table ended at that line. *)
Theorem extract_line_items_drops_tail (pg : page) (others : document)
    (tbl : table) (ts : list table) (lines tail : list string) :
  tables pg = tbl :: ts ->
  table_lines tbl = (lines ++ tail)%list ->
  (forall l, In l tail -> (length (findall_numbers l Idle) < 6)%nat) ->
  extract_line_items (pg :: others)
  = Ok (build_items (group_rows lines []) 1).
Proof.
  intros Et El Ht. unfold extract_line_items. rewrite Et, El.
  rewrite (group_rows_tail _ _ _ Ht). reflexivity.
Qed.

Lemma extract_line_items_drops_tail_witness :
  extract_line_items [widget_shipping_page]
  = Ok (build_items
          (group_rows
             ["Widget blue"; "HSN 8471 2 100.0 10.0 180.0 18.0 198.0";
              "Shipping and Handling Charges"; "1 40.0 0.0 40.0 0.0 40.0"]
             []) 1).
Proof.
  apply (extract_line_items_drops_tail widget_shipping_page []
           widget_shipping_table [] _ ["Thank you"; "Order 7"]);
    [reflexivity | reflexivity |].
  intros l [<-|[<-|[]]]; vm_compute; lia.
Defined.

Lemma drop_underscores_price (s : string) (prev : option ascii) :
  all_chars in_price_class s = true ->
  match prev with
  | Some c => in_price_class c = true
  | None => True
  end ->
  drop_underscores prev s = Some s.
Proof.
  revert prev. induction s as [|c s IH]; intros prev Hs Hp.
  - destruct prev as [c|]; [|reflexivity].
    apply in_price_class_iff in Hp as [-> | [-> | [-> | ->]]]; reflexivity.
  - simpl in Hs. apply andb_true_iff in Hs as [Hc Hs].
    assert (E : drop_underscores (Some c) s = Some s) by (apply IH; assumption).
    apply in_price_class_iff in Hc as [-> | [-> | [-> | ->]]];
      (destruct prev as [p|];
       [apply in_price_class_iff in Hp as [-> | [-> | [-> | ->]]]|]);
      cbn -[drop_underscores]; cbn [drop_underscores Ascii.eqb Bool.eqb];
      try (simpl; rewrite E; reflexivity).
Qed.

Lemma lskip_price (s : string) :
  all_chars in_price_class s = true -> lskip s = s.
Proof.
  destruct s as [|c s]; [reflexivity|]. simpl. intros H.
  apply andb_true_iff in H as [Hc _].
  apply in_price_class_iff in Hc as [-> | [-> | [-> | ->]]]; reflexivity.
Qed.

Lemma rskip_price (s : string) :
  all_chars in_price_class s = true -> rskip s = s.
Proof.
  induction s as [|c s IH]; [reflexivity|]. simpl. intros H.
  apply andb_true_iff in H as [Hc Hs]. rewrite (IH Hs).
  destruct s; [|reflexivity].
  apply in_price_class_iff in Hc as [-> | [-> | [-> | ->]]]; reflexivity.
Qed.

Lemma parse_decimal_price (s : string) :
  all_chars in_price_class s = true -> parse_decimal s = None.
Proof.
  destruct s as [|c s]; [reflexivity|]. simpl. intros H.
  apply andb_true_iff in H as [Hc Hs].
  apply in_price_class_iff in Hc as [-> | [-> | [-> | ->]]];
    try reflexivity.
  destruct s as [|c s]; [reflexivity|]. simpl in Hs.
  apply andb_true_iff in Hs as [Hc _].
  apply in_price_class_iff in Hc as [-> | [-> | [-> | ->]]]; reflexivity.
Qed.

Lemma parse_inf_nan_price (s : string) :
  all_chars in_price_class s = true -> parse_inf_nan s = None.
Proof.
  destruct s as [|c s]; [reflexivity|]. simpl. intros H.
  apply andb_true_iff in H as [Hc _].
  apply in_price_class_iff in Hc as [-> | [-> | [-> | ->]]]; reflexivity.
Qed.

(** [float] rejects every text made of backslashes, the letter d and
    dots. *)
Lemma float_of_str_price (s : string) :
  all_chars in_price_class s = true -> float_of_str s = None.
Proof.
  intros H. unfold float_of_str.
  rewrite (drop_underscores_price s None H I).
  rewrite (lskip_price s H), (rskip_price s H).
  rewrite (parse_decimal_price s H). apply parse_inf_nan_price, H.
Qed.

Lemma total_amount_field_class (cluster : string) :
  all_chars in_price_class (total_amount_field cluster) = true.
Proof.
  unfold total_amount_field.
  destruct (search_total_price cluster) as [g|] eqn:E; [|reflexivity].
  unfold strip. apply all_chars_rstrip, all_chars_lstrip.
  exact (search_total_price_class _ _ E).
Qed.

End FlipkartFacts.

(** ** Zomato table and totals *)
Module ZomatoFacts.
Import PyStr PyFloat Py Pdf Zomato PyStrFacts.

Lemma find_col_lt (header keys : list string) (idx i : nat) :
  find_col header keys idx = Some i -> (idx <= i < idx + length header)%nat.
Proof.
  revert idx. induction header as [|c header IH]; intros idx; simpl;
    [discriminate|].
  destruct (forallb _ keys).
  - intros [= <-]. lia.
  - intros H. apply IH in H. lia.
Qed.

Lemma same_label_self (header : list string) (i : nat) :
  (i < length header)%nat -> In i (same_label header i).
Proof.
  intros H. unfold same_label. apply filter_In. split.
  - apply in_seq. lia.
  - apply String.eqb_refl.
Qed.

(** Where the label of a column is not repeated, reading the row by label
    gives the cell that [get] gives. *)
Lemma by_label_get (cs : cols) (r : row) (col : option nat) :
  label_once cs col = true ->
  (forall i, col = Some i -> (i < length (labels cs))%nat) ->
  by_label cs r col
  = match get r col with
    | Ok c => Ok (Scalar c)
    | Raise e => Raise e
    end.
Proof.
  destruct col as [i|]; [|reflexivity]. intros Ho Hi. simpl in *.
  pose proof (same_label_self _ i (Hi i eq_refl)) as Hin.
  destruct (same_label (labels cs) i) as [|j [|k js]];
    [destruct Hin | | discriminate Ho].
  destruct Hin as [->|[]]. reflexivity.
Qed.

(** The columns that [find_cols] found are columns of the header. *)
Lemma find_cols_lt (header : list string) (i : nat) :
  In (Some i)
     [part_col (find_cols header); gross_col (find_cols header);
      disc_col (find_cols header); net_col (find_cols header);
      cgst_rate_col (find_cols header); cgst_amt_col (find_cols header);
      sgst_rate_col (find_cols header); sgst_amt_col (find_cols header);
      total_col (find_cols header)] ->
  (i < length (labels (find_cols header)))%nat.
Proof.
  cbn [find_cols labels part_col gross_col disc_col net_col cgst_rate_col
       cgst_amt_col sgst_rate_col sgst_amt_col total_col In].
  intros H.
  repeat (destruct H as [H|H];
          [apply find_col_lt in H; lia|]).
  destruct H.
Qed.

Lemma step_complete (cs : cols) (st : state) (r : row) :
  complete cs = true -> step cs st r = Ok (step_found cs st r).
Proof.
  destruct cs as [l p g d n cr ca sr sa t]. unfold complete. simpl.
  destruct p; [|discriminate]. destruct g; [|discriminate].
  destruct d; [|discriminate]. destruct n; [|discriminate].
  destruct cr; [|discriminate]. destruct ca; [|discriminate].
  destruct sr; [|discriminate]. destruct sa; [|discriminate].
  destruct t; [|discriminate]. intros _.
  unfold step, step_found, is_item, part_text, item_of. simpl.
  destruct (is_total_value _); [reflexivity|].
  destruct (is_subtotal _); [reflexivity|].
  destruct (is_filled _); reflexivity.
Qed.

Lemma run_rows_complete (cs : cols) (rows : list row) (st : state) :
  complete cs = true ->
  run_rows cs rows st = Ok (fold_left (step_found cs) rows st).
Proof.
  intros Hc. revert st. induction rows as [|r rows IH]; intros st; simpl.
  - reflexivity.
  - rewrite step_complete by exact Hc. simpl. apply IH.
Qed.

(** The items and the rank do not depend on the totals read so far. *)
Lemma fold_items_sl (cs : cols) (rows : list row) (st st' : state) :
  line_items st = line_items st' -> sl st = sl st' ->
  line_items (fold_left (step_found cs) rows st)
  = line_items (fold_left (step_found cs) rows st')
  /\ sl (fold_left (step_found cs) rows st)
     = sl (fold_left (step_found cs) rows st').
Proof.
  revert st st'. induction rows as [|r rows IH]; intros st st' Hi Hs; simpl.
  - auto.
  - apply IH; unfold step_found;
      destruct (is_total_value _); simpl; auto;
      destruct (is_item cs r); simpl; congruence.
Qed.

Lemma fold_totals (cs : cols) (rows : list row) (st : state) :
  (forall r, In r rows -> is_total_value (part_text cs r) = false) ->
  net_value (fold_left (step_found cs) rows st) = net_value st
  /\ total_value (fold_left (step_found cs) rows st) = total_value st
  /\ tax_value (fold_left (step_found cs) rows st) = tax_value st.
Proof.
  revert st. induction rows as [|r rows IH]; intros st H; simpl.
  - auto.
  - destruct (IH (step_found cs st r)) as (Hn & Ht & Hx).
    { intros r' Hr'. apply H. right. exact Hr'. }
    rewrite Hn, Ht, Hx. unfold step_found.
    rewrite (H r) by (left; reflexivity).
    destruct (is_item cs r); auto.
Qed.

Lemma fold_keeps_items (cs : cols) (rows : list row) (st : state)
    (it : line_item) :
  In it (line_items st) ->
  In it (line_items (fold_left (step_found cs) rows st)).
Proof.
  revert st. induction rows as [|r rows IH]; intros st H; simpl.
  - exact H.
  - apply IH. unfold step_found.
    destruct (is_total_value _); [exact H|].
    destruct (is_item cs r); [|exact H].
    simpl. apply in_or_app. left. exact H.
Qed.

Lemma fold_adds_item (cs : cols) (rows : list row) (st : state) (r : row) :
  In r rows -> is_item cs r = true ->
  exists it, In it (line_items (fold_left (step_found cs) rows st))
    /\ Description it = value_of_cell (cell_at r (part_col cs)).
Proof.
  revert st. induction rows as [|r' rows IH]; intros st Hin Hitem; simpl.
  - destruct Hin.
  - destruct Hin as [->|Hin]; [|apply IH; assumption].
    exists (item_of cs (sl st) r). split; [|reflexivity].
    apply fold_keeps_items. unfold step_found.
    pose proof Hitem as Hi. unfold is_item in Hi.
    apply andb_true_iff in Hi as [Hi _].
    apply andb_true_iff in Hi as [Hi _].
    apply negb_true_iff in Hi. rewrite Hi, Hitem. simpl.
    apply in_or_app. right. left. reflexivity.
Qed.

(** A header that bears "Total" twice is outside [unique_labels]: read by
    label, the total of a row is then the series of its two cells. *)
Example total_twice_is_series :
  unique_labels
    (find_cols (List.map (fun c => lower (str_of_cell c)) twice_total_header))
  = false
  /\ by_label
       (find_cols (List.map (fun c => lower (str_of_cell c))
                            twice_total_header))
       (total_row ++ [Some "210"])%list
       (total_col
          (find_cols (List.map (fun c => lower (str_of_cell c))
                               twice_total_header)))
     = Ok (Series [Some "210"; Some "210"]).
Proof. split; vm_compute; reflexivity. Qed.

(** In [zomato_table] the row "Packing charge" stands below the totals row
    and is in the table of items. *)
Lemma row_below_totals_is_extracted :
  zomato_table = [zomato_header; paneer_row; total_row; packing_row]
  /\ is_total_value (lower (str_of_cell (at_col total_row 0))) = true
  /\ exists items net tax total,
       extract_table_and_totals (one_table zomato_table)
       = Ok (items, net, tax, total)
       /\ exists it, In it items /\ Description it = VStr "Packing charge".
Proof.
  split; [reflexivity|]. split; [vm_compute; reflexivity|].
  do 4 eexists. split; [vm_compute; reflexivity|].
  eexists. split; [right; left; reflexivity | reflexivity].
Qed.

(** C4, as amended.  On a table whose nine columns are all found, under
    labels that the header does not repeat: when a row of the table holds
    "total value" in its particulars cell, the net and total values are
    read from the last such row and the tax is their difference rounded to
    two decimals.  That row is passed over and the extraction goes on: the
    table of items is the one the same rows give without the totals row,
    and every row below it that is neither blank, nor a subtotal, nor a
    totals row is among the items. *)
Theorem zomato_total_value_row (t : table) (cs : cols)
    (pre post : list row) (tr : row) :
  open_table t = Some (Ok (cs, (pre ++ tr :: post)%list)) ->
  complete cs = true ->
  unique_labels cs = true ->
  is_total_value (part_text cs tr) = true ->
  (forall r, In r post -> is_total_value (part_text cs r) = false) ->
  exists items,
    extract_table_and_totals (one_table t)
    = Ok (items,
          safe_float (cell_at tr (net_col cs)),
          round2 (fsub (safe_float (cell_at tr (total_col cs)))
                       (safe_float (cell_at tr (net_col cs)))),
          safe_float (cell_at tr (total_col cs)))
    /\ items_of cs (pre ++ post) = Ok items
    /\ (forall r, In r post -> is_item cs r = true ->
        exists it, In it items
          /\ Description it = value_of_cell (cell_at r (part_col cs))).
Proof.
  intros Ho Hc _ Htr Hpost.
  unfold one_table, items_of. cbn [extract_table_and_totals tables scan_tables].
  rewrite Ho. cbn [bind fst snd].
  rewrite !run_rows_complete by exact Hc. cbn [bind].
  rewrite !fold_left_app. cbn [fold_left].
  set (st1 := fold_left (step_found cs) pre init).
  set (st2 := step_found cs st1 tr).
  assert (H2 : line_items st2 = line_items st1 /\ sl st2 = sl st1
               /\ net_value st2 = safe_float (cell_at tr (net_col cs))
               /\ total_value st2 = safe_float (cell_at tr (total_col cs))
               /\ tax_value st2
                  = round2 (fsub (safe_float (cell_at tr (total_col cs)))
                                 (safe_float (cell_at tr (net_col cs))))).
  { unfold st2, step_found. rewrite Htr. simpl. auto. }
  destruct H2 as (Hi & Hs & Hn & Ht & Hx).
  destruct (fold_totals cs post st2 Hpost) as (Hn' & Ht' & Hx').
  destruct (fold_items_sl cs post st2 st1 Hi Hs) as [Hitems _].
  exists (line_items (fold_left (step_found cs) post st2)).
  split; [|split].
  - unfold finish. rewrite Hn', Ht', Hx', Hn, Ht, Hx. reflexivity.
  - rewrite Hitems. reflexivity.
  - intros r Hr Hitem. apply fold_adds_item; assumption.
Qed.

Lemma zomato_total_value_row_witness :
  exists items,
    extract_table_and_totals (one_table zomato_table)
    = Ok (items,
          safe_float (Some "200"),
          round2 (fsub (safe_float (Some "210")) (safe_float (Some "200"))),
          safe_float (Some "210"))
    /\ items_of (find_cols (List.map (fun c => lower (str_of_cell c))
                                     zomato_header))
                [paneer_row; packing_row] = Ok items
    /\ (forall r, In r [packing_row] ->
        is_item (find_cols (List.map (fun c => lower (str_of_cell c))
                                     zomato_header)) r = true ->
        exists it, In it items
          /\ Description it = value_of_cell (at_col r 0)).
Proof.
  apply (zomato_total_value_row zomato_table
           (find_cols (List.map (fun c => lower (str_of_cell c)) zomato_header))
           [paneer_row] [packing_row] total_row).
  - vm_compute. reflexivity.
  - vm_compute. reflexivity.
  - vm_compute. reflexivity.
  - vm_compute. reflexivity.
  - intros r [<-|[]]. vm_compute. reflexivity.
Defined.

Lemma scan_tables_first_open (ts : list table) :
  scan_tables ts
  = match first_open ts with
    | Some r =>
        Some (let* cr := r in
              let* st := run_rows (fst cr) (snd cr) init in
              Ok (finish st))
    | None => None
    end.
Proof.
  induction ts as [|t ts IH]; simpl; [reflexivity|].
  destruct (open_table t); [reflexivity | exact IH].
Qed.

Lemma extract_first_table (pages : document) :
  extract_table_and_totals pages
  = match first_table pages with
    | Some r =>
        let* cr := r in
        let* st := run_rows (fst cr) (snd cr) init in
        Ok (finish st)
    | None => Ok ([], zero, zero, zero)
    end.
Proof.
  induction pages as [|p pages IH]; simpl; [reflexivity|].
  rewrite scan_tables_first_open.
  destruct (first_open (tables p)); [reflexivity | exact IH].
Qed.

Lemma fold_number_items (cs : cols) (rows : list row) (st : state) :
  line_items (fold_left (step_found cs) rows st)
  = (line_items st ++ number_items cs rows (sl st))%list.
Proof.
  revert st. induction rows as [|r rows IH]; intros st; simpl.
  - rewrite app_nil_r. reflexivity.
  - rewrite IH. unfold step_found, is_item.
    destruct (is_total_value (part_text cs r)); simpl; [reflexivity|].
    destruct (negb (is_subtotal (part_text cs r))
              && is_filled (part_text cs r)); simpl; [|reflexivity].
    rewrite <- app_assoc. reflexivity.
Qed.

(** X15.  With all nine columns found, under labels that the header does
    not repeat, the items are the rows of the first table with particulars
    whose particulars cell has text and names neither the total value nor
    the items total, in the order of the table and numbered 1, 2, 3, ...
    without a gap. *)
Theorem zomato_items_numbered (pages : document) (cs : cols)
    (rows : list row) :
  first_table pages = Some (Ok (cs, rows)) ->
  complete cs = true ->
  unique_labels cs = true ->
  exists net tax total,
    extract_table_and_totals pages
    = Ok (number_items cs rows 1, net, tax, total).
Proof.
  intros Hf Hc _. rewrite extract_first_table, Hf. cbn [bind fst snd].
  rewrite run_rows_complete by exact Hc. cbn [bind]. unfold finish.
  rewrite fold_number_items. simpl. eauto.
Qed.

Lemma zomato_items_numbered_witness :
  exists net tax total,
    extract_table_and_totals (one_table zomato_table)
    = Ok (number_items
            (find_cols (List.map (fun c => lower (str_of_cell c))
                                 zomato_header))
            [paneer_row; total_row; packing_row] 1, net, tax, total).
Proof.
  apply (zomato_items_numbered (one_table zomato_table));
    vm_compute; reflexivity.
Defined.

(** X16.  Without a table with particulars the result is no item and three
    totals of 0.0.  With such a table, whose nine columns are all found
    under labels that the header does not repeat, but without a row that
    names the total value, the three totals are 0.0 beside the items.
    Nothing is raised in either case. *)
Theorem zomato_totals_default (pages : document) :
  (first_table pages = None ->
   extract_table_and_totals pages = Ok ([], zero, zero, zero))
  /\ (forall cs rows,
        first_table pages = Some (Ok (cs, rows)) ->
        complete cs = true ->
        unique_labels cs = true ->
        (forall r, In r rows -> is_total_value (part_text cs r) = false) ->
        extract_table_and_totals pages
        = Ok (number_items cs rows 1, zero, zero, zero)).
Proof.
  split.
  - intros Hf. rewrite extract_first_table, Hf. reflexivity.
  - intros cs rows Hf Hc _ Hno. rewrite extract_first_table, Hf.
    cbn [bind fst snd]. rewrite run_rows_complete by exact Hc. cbn [bind].
    unfold finish. rewrite fold_number_items.
    destruct (fold_totals cs rows init Hno) as (-> & -> & ->). reflexivity.
Qed.

Lemma zomato_totals_default_witness :
  extract_table_and_totals (one_table [[Some "Particulars"; Some "Total"]])
  = Ok ([], zero, zero, zero)
  /\ extract_table_and_totals (one_table unnamed_table)
     = Ok (number_items
             (find_cols (List.map (fun c => lower (str_of_cell c))
                                  zomato_header))
             [paneer_row; unnamed_row] 1, zero, zero, zero).
Proof.
  split.
  - apply (proj1 (zomato_totals_default _)). reflexivity.
  - apply (proj2 (zomato_totals_default (one_table unnamed_table)));
      [reflexivity | reflexivity | reflexivity |].
    intros r [<-|[<-|[]]]; reflexivity.
Defined.

Lemma step_skip (cs : cols) (st : state) (r : row) :
  found (part_col cs) = true ->
  is_item cs r = false -> is_total_value (part_text cs r) = false ->
  step cs st r = Ok st.
Proof.
  unfold is_item, part_text, step. destruct (part_col cs) as [i|];
    [|discriminate]. intros _ Hi Ht. cbn [get bind]. rewrite Ht in *.
  simpl in Hi. destruct (is_subtotal _); [reflexivity|].
  simpl in Hi. rewrite Hi. reflexivity.
Qed.

Lemma step_item_raises (cs : cols) (st : state) (r : row) :
  is_item cs r = true -> complete cs = false -> step cs st r = Raise KeyError.
Proof.
  destruct cs as [l p g d n cr ca sr sa t].
  unfold is_item, part_text, complete.
  cbn [part_col gross_col disc_col net_col cgst_rate_col cgst_amt_col
       sgst_rate_col sgst_amt_col total_col].
  destruct p as [i|]; [|discriminate]. intros Hi Hc.
  apply andb_true_iff in Hi as [Hi Hf].
  apply andb_true_iff in Hi as [Ht Hs].
  apply negb_true_iff in Ht. apply negb_true_iff in Hs.
  unfold step.
  cbn [part_col gross_col disc_col net_col cgst_rate_col cgst_amt_col
       sgst_rate_col sgst_amt_col total_col get bind].
  rewrite Ht, Hs, Hf.
  destruct g; [|reflexivity]. destruct d; [|reflexivity].
  destruct n; [|reflexivity]. destruct cr; [|reflexivity].
  destruct sr; [|reflexivity]. destruct ca; [|reflexivity].
  destruct sa; [|reflexivity]. destruct t; [|reflexivity].
  discriminate Hc.
Qed.

Lemma run_rows_item_raises (cs : cols) (pre post : list row) (r : row)
    (st : state) :
  complete cs = false ->
  (forall q, In q pre ->
     is_item cs q = false /\ is_total_value (part_text cs q) = false) ->
  is_item cs r = true ->
  run_rows cs (pre ++ r :: post) st = Raise KeyError.
Proof.
  intros Hc Hpre Hr.
  assert (Hp : found (part_col cs) = true).
  { unfold is_item, part_text in Hr. destruct (part_col cs); [reflexivity|].
    discriminate Hr. }
  revert st. induction pre as [|q pre IH]; intros st; cbn [app run_rows].
  - rewrite (step_item_raises cs st r Hr Hc). reflexivity.
  - destruct (Hpre q (or_introl eq_refl)) as [Hq1 Hq2].
    rewrite (step_skip cs st q Hp Hq1 Hq2). cbn [bind].
    apply IH. intros q' Hq'. apply Hpre. right. exact Hq'.
Qed.

(** X17.  When one of the nine columns is not found in the header, whose
    labels that were found are not repeated, the first row that would
    become an item raises [KeyError]; the rows before it that are blank or
    a subtotal do not. *)
Theorem zomato_missing_column (pages : document) (cs : cols)
    (pre post : list row) (r : row) :
  first_table pages = Some (Ok (cs, (pre ++ r :: post)%list)) ->
  complete cs = false ->
  unique_labels cs = true ->
  (forall q, In q pre ->
     is_item cs q = false /\ is_total_value (part_text cs q) = false) ->
  is_item cs r = true ->
  extract_table_and_totals pages = Raise KeyError.
Proof.
  intros Hf Hc _ Hpre Hr. rewrite extract_first_table, Hf. cbn [bind fst snd].
  rewrite (run_rows_item_raises cs pre post r init Hc Hpre Hr). reflexivity.
Qed.

Lemma zomato_missing_column_witness :
  extract_table_and_totals (one_table no_discount_table) = Raise KeyError.
Proof.
  apply (zomato_missing_column (one_table no_discount_table)
           (find_cols
              ["particulars"; "gross value"; "net value"; "cgst rate";
               "cgst (inr)"; "sgst rate"; "sgst (inr)"; "total"])
           [[Some "Item(s) total"; Some "200"; Some "200"; None; Some "5";
             None; Some "5"; Some "210"]]
           []
           [Some "Paneer Tikka"; Some "200"; Some "200"; Some "2.5%";
            Some "5"; Some "2.5%"; Some "5"; Some "210"]).
  - reflexivity.
  - reflexivity.
  - reflexivity.
  - intros q [<-|[]]. split; reflexivity.
  - reflexivity.
Defined.

Lemma number_items_app (cs : cols) (a b : list row) (n : nat) :
  number_items cs (a ++ b) n
  = (number_items cs a n
     ++ number_items cs b (n + length (number_items cs a n)))%list.
Proof.
  revert n. induction a as [|r a IH]; intros n; simpl.
  - rewrite Nat.add_0_r. reflexivity.
  - destruct (is_item cs r); rewrite IH; simpl; [|reflexivity].
    rewrite Nat.add_succ_r. reflexivity.
Qed.

Lemma number_items_skip (cs : cols) (pre post : list row) (r : row)
    (n : nat) :
  is_item cs r = false ->
  number_items cs (pre ++ r :: post) n = number_items cs (pre ++ post) n.
Proof.
  intros H. rewrite !number_items_app. simpl. rewrite H. reflexivity.
Qed.

(** X18.  On a table whose nine columns are all found, under labels that
    the header does not repeat: a row whose particulars cell is [None] is
    not passed over, its text is "None" and it becomes an item whose
    description is [None]; a row whose particulars cell holds the empty
    text, or blanks only, is passed over, the items being those of the
    table without this row. *)
Theorem zomato_unnamed_row (pages : document) (cs : cols)
    (pre post : list row) (r : row) :
  first_table pages = Some (Ok (cs, (pre ++ r :: post)%list)) ->
  complete cs = true ->
  unique_labels cs = true ->
  (cell_at r (part_col cs) = None ->
   exists items net tax total,
     extract_table_and_totals pages = Ok (items, net, tax, total)
     /\ exists it, In it items /\ Description it = VNone)
  /\ (forall s, cell_at r (part_col cs) = Some s -> strip s = "" ->
      exists net tax total,
        extract_table_and_totals pages
        = Ok (number_items cs (pre ++ post) 1, net, tax, total)).
Proof.
  intros Hf Hc _.
  assert (Hp : exists i, part_col cs = Some i).
  { unfold complete in Hc. destruct (part_col cs); [eauto | discriminate]. }
  destruct Hp as [i Hp]. unfold cell_at. rewrite Hp.
  rewrite extract_first_table, Hf. cbn [bind fst snd].
  rewrite run_rows_complete by exact Hc. cbn [bind]. unfold finish. split.
  - intros Hn.
    assert (Hitem : is_item cs r = true).
    { unfold is_item, part_text. rewrite Hp, Hn. reflexivity. }
    do 4 eexists. split; [reflexivity|].
    destruct (fold_adds_item cs (pre ++ r :: post) init r) as (it & Hit & Hd);
      [apply in_elt | exact Hitem |].
    exists it. split; [exact Hit|]. rewrite Hd. unfold cell_at.
    rewrite Hp, Hn. reflexivity.
  - intros s Hs Hblank.
    assert (Hitem : is_item cs r = false).
    { unfold is_item, part_text, is_filled.
      rewrite Hp, Hs. cbn [str_of_cell]. rewrite strip_lower, Hblank.
      rewrite !andb_false_r. reflexivity. }
    rewrite fold_number_items. cbn [line_items init sl app].
    rewrite (number_items_skip cs pre post r 1 Hitem). eauto.
Qed.

Lemma zomato_unnamed_row_witness :
  exists items net tax total,
    extract_table_and_totals (one_table unnamed_table)
    = Ok (items, net, tax, total)
    /\ exists it, In it items /\ Description it = VNone.
Proof.
  apply (proj1 (zomato_unnamed_row (one_table unnamed_table)
                  (find_cols (List.map (fun c => lower (str_of_cell c))
                                       zomato_header))
                  [paneer_row] [] unnamed_row
                  eq_refl eq_refl eq_refl)).
  reflexivity.
Defined.

Lemma find_col_found (header : list string) (keys : list string) (idx : nat) :
  (exists h, In h header /\ forallb (fun k => str_in k h) keys = true) ->
  found (find_col header keys idx) = true.
Proof.
  revert idx. induction header as [|c header IH]; intros idx (h & Hin & Hh).
  - destruct Hin.
  - simpl. destruct (forallb (fun k => str_in k c) keys) eqn:E;
      [reflexivity|].
    apply IH. destruct Hin as [->|Hin]; [congruence | eauto].
Qed.

(** X19.  A table that is taken always has its particulars column: the header
    that holds "particulars" has a label that holds "particular", so the
    particulars cell of a row is read without [KeyError]. *)
Theorem open_table_particulars (t : table) (cs : cols) (rows : list row) :
  open_table t = Some (Ok (cs, rows)) ->
  exists i, part_col cs = Some i
    /\ forall r, get r (part_col cs) = Ok (at_col r i).
Proof.
  unfold open_table. destruct (width t <? 6)%nat; [discriminate|].
  destruct (dropna_all (frame t)) as [|h rs]; [discriminate|].
  destruct (str_in "particulars" (join " " _)) eqn:E; [|discriminate].
  intros [= <- _].
  apply str_in_join_blank in E as (l & Hin & Hl);
    [|reflexivity | discriminate].
  assert (Hf : found (find_col (List.map (fun c => lower (str_of_cell c)) h)
                        ["particular"] 0) = true).
  { apply find_col_found. exists l. split; [exact Hin|]. simpl.
    rewrite andb_true_r. apply str_in_contains.
    apply str_in_contains in Hl as (a & b & ->).
    exists a, ("s" +:+ b). reflexivity. }
  cbn [part_col find_cols].
  destruct (find_col _ ["particular"] 0) as [i|]; [|discriminate Hf].
  exists i. split; reflexivity.
Qed.

Lemma open_table_particulars_witness :
  exists i,
    part_col (find_cols (List.map (fun c => lower (str_of_cell c))
                                  zomato_header)) = Some i
    /\ forall r,
         get r (part_col (find_cols (List.map (fun c => lower (str_of_cell c))
                                              zomato_header)))
         = Ok (at_col r i).
Proof.
  exact (open_table_particulars zomato_table _
           [paneer_row; total_row; packing_row] eq_refl).
Defined.

End ZomatoFacts.

(** ** Blinkit items and totals *)

Module BlinkitFacts.
Import PyStr PyFloat Py Pdf Blinkit PyStrFacts.
Local Open Scope list_scope.

Lemma col_Ok (w : nat) (r : row) (i : nat) :
  (i < w)%nat -> col w r i = Ok (at_col r i).
Proof. intros H. unfold col. apply Nat.ltb_lt in H. rewrite H. reflexivity. Qed.

Lemma col_Raise (w : nat) (r : row) (i : nat) :
  (w <= i)%nat -> col w r i = Raise KeyError.
Proof. intros H. unfold col. apply Nat.ltb_ge in H. rewrite H. reflexivity. Qed.

(** On a frame of fourteen columns or more the loop raises nothing. *)
Lemma loop_wide (w : nat) (rows : list row) (items : list line_item)
    (sl : nat) :
  (14 <= w)%nat ->
  loop w rows items sl
  = match rows with
    | [] => Ok (items, zero, zero)
    | r :: rest =>
        if is_total (at_col r 0) then
          Ok (items, fadd (safe_float (at_col r 8)) (safe_float (at_col r 10)),
              safe_float (at_col r 13))
        else if is_item r then
          loop w rest
            (items ++ [item_of sl (clean (at_col r 2)) (at_col r 3)
                         (at_col r 4) (at_col r 5) (at_col r 6)
                         (at_col r 13)])%list (S sl)
        else loop w rest items sl
    end.
Proof.
  intros Hw. destruct rows as [|r rest]; [reflexivity|].
  cbn [loop]. rewrite !col_Ok by lia. cbn [bind]. unfold is_item.
  destruct (is_total (at_col r 0)); [reflexivity|]. cbn [negb andb].
  destruct (String.eqb (clean (at_col r 2)) ""); reflexivity.
Qed.

Lemma loop_items (w : nat) (pre : list row) (items : list line_item)
    (sl : nat) :
  (14 <= w)%nat ->
  (forall q, In q pre -> is_total (at_col q 0) = false) ->
  forall rest,
    loop w (pre ++ rest) items sl
    = loop w rest (items ++ number_items pre sl)%list
        (sl + length (number_items pre sl)).
Proof.
  intros Hw. revert items sl. induction pre as [|q pre IH];
    intros items sl Hpre rest.
  - cbn [app number_items length]. rewrite app_nil_r, Nat.add_0_r.
    reflexivity.
  - cbn [app]. rewrite (loop_wide w (q :: pre ++ rest)) by exact Hw.
    rewrite (Hpre q (or_introl eq_refl)). cbn [number_items].
    assert (Hpre' : forall q', In q' pre -> is_total (at_col q' 0) = false)
      by (intros q' Hq'; apply Hpre; right; exact Hq').
    destruct (is_item q).
    + rewrite IH by exact Hpre'. cbn [length].
      rewrite <- app_assoc, Nat.add_succ_r. reflexivity.
    + apply IH, Hpre'.
Qed.

(** X20.  On a table of fourteen columns or more nothing is raised.  The loop
    starts at the seventh row and ends at the first row whose first cell
    reads "total": the two totals are read from this row (0.0 when there is
    none), and the items are the rows before it that have a description,
    numbered 1, 2, 3, ... *)
Theorem blinkit_items_and_totals (t : table) (pre : list row) :
  (14 <= width t)%nat ->
  (forall q, In q pre -> is_total (at_col q 0) = false) ->
  (skipn 6 (frame t) = pre ->
   extract_items_and_totals t = Ok (number_items pre 1, zero, zero))
  /\ (forall tr post,
        skipn 6 (frame t) = (pre ++ tr :: post)%list ->
        is_total (at_col tr 0) = true ->
        extract_items_and_totals t
        = Ok (number_items pre 1,
              round2 (fadd (safe_float (at_col tr 8))
                           (safe_float (at_col tr 10))),
              round2 (safe_float (at_col tr 13)))).
Proof.
  intros Hw Hpre. unfold extract_items_and_totals. split.
  - intros E. rewrite E.
    pose proof (loop_items _ pre [] 1 Hw Hpre []) as L.
    rewrite app_nil_r in L. rewrite L. reflexivity.
  - intros tr post E Htr. rewrite E, (loop_items _ pre [] 1 Hw Hpre).
    rewrite loop_wide by exact Hw. rewrite Htr. reflexivity.
Qed.

Lemma blinkit_items_and_totals_witness :
  extract_items_and_totals (blinkit_table ++ [note_row])%list
  = Ok (number_items
          [item_row "Amul  Butter" "100" "105"; item_row "  " "0" "0";
           item_row "Bread" "200" "210"] 1,
        round2 (fadd (safe_float (Some "7.5")) (safe_float (Some "7.5"))),
        round2 (safe_float (Some "315"))).
Proof.
  apply (proj2 (blinkit_items_and_totals (blinkit_table ++ [note_row])%list
                  [item_row "Amul  Butter" "100" "105"; item_row "  " "0" "0";
                   item_row "Bread" "200" "210"]
                  ltac:(vm_compute; lia)
                  ltac:(intros q [<-|[<-|[<-|[]]]]; reflexivity))
           totals_row [pad 14 note_row]);
    reflexivity.
Defined.

Lemma loop_narrow (w : nat) (pre post : list row) (r : row)
    (items : list line_item) (sl : nat) :
  (w < 14)%nat ->
  (forall q, In q pre -> is_item q = false /\ is_total (at_col q 0) = false) ->
  is_total (at_col r 0) = true \/ is_item r = true ->
  loop w (pre ++ r :: post) items sl = Raise KeyError.
Proof.
  intros Hw Hpre Hr.
  assert (H0 : forall q, (w = 0)%nat -> col w q 0 = Raise KeyError)
    by (intros q ->; reflexivity).
  revert items sl. induction pre as [|q pre IH]; intros items sl;
    cbn [app loop].
  - destruct w as [|w]; [reflexivity|]. rewrite (col_Ok _ r 0) by lia.
    cbn [bind]. destruct (is_total (at_col r 0)) eqn:Et.
    + destruct (Nat.ltb_spec 8 (S w)); [|rewrite (col_Raise _ r 8) by lia;
                                            reflexivity].
      rewrite (col_Ok _ r 8) by lia. cbn [bind].
      destruct (Nat.ltb_spec 10 (S w));
        [|rewrite (col_Raise _ r 10) by lia; reflexivity].
      rewrite (col_Ok _ r 10) by lia. cbn [bind].
      rewrite (col_Raise _ r 13) by lia. reflexivity.
    + destruct Hr as [Hr|Hr]; [discriminate Hr|].
      unfold is_item in Hr. rewrite Et in Hr. cbn [negb andb] in Hr.
      destruct (Nat.ltb_spec 2 (S w));
        [|rewrite (col_Raise _ r 2) by lia; reflexivity].
      rewrite (col_Ok _ r 2) by lia. cbn [bind].
      apply negb_true_iff in Hr. rewrite Hr.
      destruct (Nat.ltb_spec 6 (S w));
        [|rewrite (col_Raise _ r 6) by lia; reflexivity].
      rewrite (col_Ok _ r 6) by lia. cbn [bind].
      rewrite (col_Raise _ r 13) by lia. reflexivity.
  - destruct (Hpre q (or_introl eq_refl)) as [Hq1 Hq2].
    assert (IH' := IH (fun q' Hq' => Hpre q' (or_intror Hq'))).
    destruct w as [|w]; [reflexivity|]. rewrite (col_Ok _ q 0) by lia.
    cbn [bind]. rewrite Hq2.
    destruct (Nat.ltb_spec 2 (S w));
      [|rewrite (col_Raise _ q 2) by lia; reflexivity].
    rewrite (col_Ok _ q 2) by lia. cbn [bind].
    unfold is_item in Hq1. rewrite Hq2 in Hq1. cbn [negb andb] in Hq1.
    apply negb_false_iff in Hq1. rewrite Hq1. apply IH'.
Qed.

(** X21.  On a table of fewer than fourteen columns, the first row from the
    seventh on that holds the totals or a description raises [KeyError]:
    a column it reads is not there. *)
Theorem blinkit_narrow_table (t : table) (pre post : list row) (r : row) :
  (width t < 14)%nat ->
  skipn 6 (frame t) = (pre ++ r :: post)%list ->
  (forall q, In q pre -> is_item q = false /\ is_total (at_col q 0) = false) ->
  is_total (at_col r 0) = true \/ is_item r = true ->
  extract_items_and_totals t = Raise KeyError.
Proof.
  intros Hw E Hpre Hr. unfold extract_items_and_totals.
  rewrite E, (loop_narrow _ pre post r [] 1 Hw Hpre Hr). reflexivity.
Qed.

Lemma blinkit_narrow_table_witness :
  extract_items_and_totals narrow_table = Raise KeyError.
Proof.
  apply (blinkit_narrow_table narrow_table []
           (List.map (firstn 7)
              [item_row "  " "0" "0"; item_row "Bread" "200" "210";
               totals_row])
           (firstn 7 (item_row "Amul  Butter" "100" "105")));
    [vm_compute; lia | reflexivity | intros q [] | right; reflexivity].
Defined.

Lemma loop_stops (w : nat) (pre post extra : list row) (tr : row)
    (items : list line_item) (sl : nat) :
  is_total (at_col tr 0) = true ->
  loop w ((pre ++ tr :: post) ++ extra) items sl
  = loop w (pre ++ tr :: post) items sl.
Proof.
  intros Htr. revert items sl. induction pre as [|q pre IH]; intros items sl;
    cbn [app loop].
  - destruct (col w tr 0) as [c0|e] eqn:E; [|reflexivity]. cbn [bind].
    unfold col in E. destruct (0 <? w)%nat; [|discriminate E].
    injection E as <-. rewrite Htr. reflexivity.
  - destruct (col w q 0) as [c0|e]; [|reflexivity]. cbn [bind].
    destruct (is_total c0); [reflexivity|].
    destruct (col w q 2) as [c2|e]; [|reflexivity]. cbn [bind].
    destruct (String.eqb (clean c2) ""); [apply IH|].
    destruct (col w q 6) as [c6|e]; [|reflexivity]. cbn [bind].
    destruct (col w q 13) as [c13|e]; [|reflexivity]. cbn [bind].
    destruct (col w q 3) as [c3|e]; [|reflexivity]. cbn [bind].
    destruct (col w q 4) as [c4|e]; [|reflexivity]. cbn [bind].
    destruct (col w q 5) as [c5|e]; [|reflexivity]. cbn [bind].
    apply IH.
Qed.

Lemma width_app (t u : table) : width (t ++ u) = Nat.max (width t) (width u).
Proof.
  unfold width. induction t as [|r t IH]; simpl; [reflexivity|].
  rewrite IH. lia.
Qed.

Lemma width_le (u : table) (n : nat) :
  (forall r, In r u -> (length r <= n)%nat) -> (width u <= n)%nat.
Proof.
  unfold width. induction u as [|r u IH]; simpl; intros H; [lia|].
  assert (length r <= n)%nat by (apply H; left; reflexivity).
  assert (fold_right (fun r m => Nat.max (length r) m) 0%nat u <= n)%nat
    by (apply IH; intros q Hq; apply H; right; exact Hq).
  lia.
Qed.

Lemma at_col_pad (n : nat) (r : row) (i : nat) :
  at_col (pad n r) i = at_col r i.
Proof.
  unfold at_col, pad. destruct (Nat.lt_ge_cases i (length r)).
  - apply app_nth1. assumption.
  - rewrite app_nth2 by assumption. rewrite (nth_overflow r) by assumption.
    destruct (Nat.lt_ge_cases (i - length r) (n - length r)).
    + apply nth_repeat_lt. assumption.
    + apply nth_overflow. rewrite repeat_length. assumption.
Qed.

(** X22.  The loop ends at the totals row: rows added to the table below a
    totals row (and no wider than the table) change nothing in the
    result, record or error. *)
Theorem blinkit_stops_at_total (t extra : table) (k : nat) (tr : row) :
  (6 <= k)%nat -> t !! k = Some tr ->
  is_total (at_col tr 0) = true ->
  (forall r, In r extra -> (length r <= width t)%nat) ->
  extract_items_and_totals (t ++ extra) = extract_items_and_totals t.
Proof.
  intros Hk Ht Htr Hex. unfold extract_items_and_totals.
  assert (Hw : width (t ++ extra) = width t).
  { rewrite width_app. pose proof (width_le extra _ Hex). lia. }
  rewrite Hw. unfold frame. rewrite Hw. generalize (width t) as W. intros W.
  pose proof (lookup_lt_Some _ _ _ Ht) as Hlen.
  pose proof (take_drop_middle _ _ _ Ht) as Hsplit.
  assert (Hl1 : length (take k t) = k) by (rewrite length_take; lia).
  revert Hl1. generalize (take k t) (drop (S k) t) Hsplit.
  intros l1 l2 <- Hl1. clear Ht Hlen.
  rewrite !map_app. cbn [List.map]. rewrite !skipn_app, !length_map.
  replace (6 - length l1)%nat with 0%nat by lia.
  replace (6 - length (List.map (pad W) l1
                       ++ pad W tr :: List.map (pad W) l2))%nat
    with 0%nat by (rewrite length_app, length_map; lia).
  cbn [skipn]. rewrite loop_stops; [reflexivity|].
  rewrite at_col_pad. exact Htr.
Qed.

Lemma blinkit_stops_at_total_witness :
  extract_items_and_totals (blinkit_table ++ [note_row])%list
  = extract_items_and_totals blinkit_table.
Proof.
  apply (blinkit_stops_at_total blinkit_table [note_row] 9 totals_row);
    [lia | reflexivity | reflexivity |].
  intros r [<-|[]]. vm_compute. lia.
Defined.

Lemma collapse_single_spaced (s : string) :
  single_spaced (collapse s true) true = true
  /\ single_spaced (collapse s false) false = true.
Proof.
  induction s as [|c s [IH1 IH2]]; [split; reflexivity|]. simpl.
  destruct (is_space c) eqn:E; simpl.
  - rewrite IH1. split; reflexivity.
  - rewrite E, IH2. split; reflexivity.
Qed.

Lemma single_spaced_weaken (s : string) :
  single_spaced s true = true -> single_spaced s false = true.
Proof.
  destruct s as [|c s]; [reflexivity|]. simpl.
  destruct (is_space c); [|trivial].
  rewrite andb_false_r. discriminate.
Qed.

Lemma lstrip_single_spaced (s : string) (b : bool) :
  single_spaced s b = true -> single_spaced (lstrip s) false = true.
Proof.
  revert b. induction s as [|c s IH]; intros b H; [reflexivity|].
  simpl in *. destruct (is_space c) eqn:E.
  - apply andb_true_iff in H as [_ H]. exact (IH true H).
  - simpl. rewrite E. exact H.
Qed.

Lemma rstrip_single_spaced (s : string) (b : bool) :
  single_spaced s b = true -> single_spaced (rstrip s) b = true.
Proof.
  revert b. induction s as [|c s IH]; intros b H; [reflexivity|].
  simpl in *. destruct (is_space c) eqn:E.
  - apply andb_true_iff in H as [H1 H2]. specialize (IH true H2).
    destruct (rstrip s) as [|a r]; [reflexivity|].
    cbn [single_spaced]. rewrite E, H1. exact IH.
  - specialize (IH false H). destruct (rstrip s) as [|a r].
    + simpl. rewrite E. reflexivity.
    + cbn [single_spaced]. rewrite E. exact IH.
Qed.

Lemma collapse_fixed (s : string) (b : bool) :
  single_spaced s b = true -> collapse s b = s.
Proof.
  revert b. induction s as [|c s IH]; intros b H; [reflexivity|].
  simpl in *. destruct (is_space c).
  - apply andb_true_iff in H as [H1 H2].
    apply andb_true_iff in H1 as [Hc Hb].
    apply Ascii.eqb_eq in Hc. apply negb_true_iff in Hb. subst c b.
    rewrite (IH true H2). reflexivity.
  - rewrite (IH false H). reflexivity.
Qed.

(** X23.  [clean] brings a text to a normal form: blanks are plain spaces, never
    two in a row and none at either end; cleaning a cleaned text changes
    nothing. *)
Theorem clean_idempotent (c : cell) :
  single_spaced (clean c) false = true
  /\ strip (clean c) = clean c
  /\ clean (Some (clean c)) = clean c.
Proof.
  assert (H : single_spaced (clean c) false = true).
  { unfold clean, strip. apply rstrip_single_spaced.
    apply (lstrip_single_spaced _ false), collapse_single_spaced. }
  split; [exact H|]. split.
  - unfold clean. apply strip_idempotent.
  - unfold clean at 1. cbn [str_of_cell]. rewrite (collapse_fixed _ _ H).
    unfold clean. apply strip_idempotent.
Qed.

End BlinkitFacts.

(** ** Instamart items and totals *)

Module InstamartFacts.
Import PyStr PyFloat Py Pdf Instamart.

Lemma consistent_init : consistent init.
Proof. repeat split. constructor. Qed.

Lemma consistent_step (w : nat) (st : state) (r : row) :
  consistent st -> consistent (step w st r).
Proof.
  intros H. unfold step. destruct (w <? 16)%nat; [exact H|].
  destruct (String.eqb _ "" || str_in "invoice value" _); [exact H|].
  destruct (safe_float (at_col r 7)) as [net_val|]; [|exact H].
  destruct (safe_float (at_col r 15)) as [total_val|]; [|exact H].
  destruct H as (Ht & Ha & Hn & Hs & Hf). unfold consistent, running_sum.
  cbn [items total_tax total_amount sl].
  do 3 rewrite map_app.
  rewrite (fold_left_app fadd (List.map tax_of (items st))).
  rewrite (fold_left_app fadd (List.map total_of (items st))).
  rewrite length_app, seq_app. cbn [List.map length].
  repeat split.
  - rewrite Ht. reflexivity.
  - rewrite Ha. reflexivity.
  - rewrite Hn, Hs. reflexivity.
  - lia.
  - apply Forall_app. split; [exact Hf|]. constructor; [reflexivity|].
    constructor.
Qed.

Lemma consistent_fold (w : nat) (rows : list row) (st : state) :
  consistent st -> consistent (fold_left (step w) rows st).
Proof.
  revert st. induction rows as [|r rows IH]; intros st H; simpl; [exact H|].
  apply IH, consistent_step, H.
Qed.

Lemma consistent_scan (ts : list table) : consistent (scan_tables ts).
Proof.
  induction ts as [|t ts IH]; simpl; [apply consistent_init|].
  destruct (length _ <? 4)%nat; [exact IH|].
  destruct (str_in _ _); [|exact IH].
  apply consistent_fold, consistent_init.
Qed.

(** X24.  The totals of an Instamart invoice always agree with its items: they
    are the sums of the item taxes and of the item totals, added in the
    order of the rows from 0.0 and rounded to two decimals.  The items are
    numbered 1, 2, 3, ..., and the tax of each is its total less its net
    amount, rounded. *)
Theorem instamart_totals_are_sums (pages : document)
    (its : list line_item) (tax total : float) :
  extract_items_and_totals pages = Ok (its, tax, total) ->
  tax = round2 (running_sum (List.map tax_of its))
  /\ total = round2 (running_sum (List.map total_of its))
  /\ List.map SlNo its = seq 1 (length its)
  /\ Forall (fun it => tax_of it = round2 (fsub (total_of it) (net_of it)))
            its.
Proof.
  unfold extract_items_and_totals. destruct pages as [|p _]; [discriminate|].
  intros [= <- <- <-].
  destruct (consistent_scan (tables p)) as (Ht & Ha & Hn & _ & Hf).
  rewrite Ht at 1. rewrite Ha at 1. auto.
Qed.

Lemma instamart_totals_are_sums_witness :
  exists its tax total,
    extract_items_and_totals [ {| chars := []; tables := [goods_table] |} ]
    = Ok (its, tax, total)
    /\ length its = 2%nat
    /\ tax = round2 (running_sum (List.map tax_of its))
    /\ total = round2 (running_sum (List.map total_of its)).
Proof.
  assert (E : exists its tax total,
             extract_items_and_totals
               [ {| chars := []; tables := [goods_table] |} ]
             = Ok (its, tax, total) /\ length its = 2%nat)
    by (vm_compute; eauto 6).
  destruct E as (its & tax & total & E & Hlen). exists its, tax, total.
  destruct (instamart_totals_are_sums _ its tax total E) as (Ht & Ha & _).
  auto.
Defined.

End InstamartFacts.

(** ** The clusterer on pages with fewer than two glyphs *)
Module ClusterFacts.
Import PyStr PyFloat Py Pdf Cluster PyFloatFacts PyStrFacts.

(** The normalised coordinate of a single point is 0/0. *)
Lemma zscore_single (c : float) :
  valid_binary prec emax c = true -> zscore [c] = [S754_nan].
Proof.
  intros Hv. unfold zscore, std, mean, sum.
  cbn [List.map length fold_left].
  change (float_of_nat 1) with (S754_finite false 4503599627370496 (-52)).
  destruct c as [[]|[]| |s m e]; try reflexivity.
  rewrite (fdiv_one s m e Hv), fsub_self. reflexivity.
Qed.

Section Clustering.
Variable dbscan : float -> list (float * float) -> list Z.

Lemma all_blocks_no_glyph (page_blocks : page -> result (list string))
    (pages : document) (blocks : list string) :
  (forall p, In p pages -> page_blocks p = Ok []) ->
  all_blocks page_blocks pages blocks = Ok blocks.
Proof.
  revert blocks. induction pages as [|p pages IH]; intros blocks H; simpl.
  - reflexivity.
  - rewrite (H p) by (left; reflexivity). simpl. rewrite app_nil_r.
    apply IH. intros q Hq. apply H. right. exact Hq.
Qed.

Lemma all_blocks_raise (page_blocks : page -> result (list string))
    (pre post : document) (p : page) (e : exn) (blocks : list string) :
  (forall q, In q pre -> page_blocks q = Ok []) ->
  page_blocks p = Raise e ->
  all_blocks page_blocks (pre ++ p :: post)%list blocks = Raise e.
Proof.
  intros Hpre Hp. revert blocks.
  induction pre as [|q pre IH]; intros blocks; simpl.
  - rewrite Hp. reflexivity.
  - rewrite (Hpre q) by (left; reflexivity). simpl.
    apply IH. intros q' Hq'. apply Hpre. right. exact Hq'.
Qed.

Lemma page_blocks_amazon_single (p : page) (g : glyph) :
  chars p = [g] ->
  valid_binary prec emax (fst (center g)) = true ->
  valid_binary prec emax (snd (center g)) = true ->
  page_blocks_amazon dbscan p = Raise ValueError.
Proof.
  intros Hc Hx Hy. unfold page_blocks_amazon. rewrite Hc.
  cbn [List.map]. rewrite (zscore_single _ Hx), (zscore_single _ Hy).
  reflexivity.
Qed.

Lemma page_blocks_flipkart_single (p : page) (g : glyph) :
  chars p = [g] ->
  valid_binary prec emax (fst (center g)) = true ->
  valid_binary prec emax (snd (center g)) = true ->
  page_blocks_flipkart dbscan p = Raise ValueError.
Proof.
  intros Hc Hx Hy. unfold page_blocks_flipkart. rewrite Hc.
  cbn [List.map]. rewrite (zscore_single _ Hx), (zscore_single _ Hy).
  destruct (tables p) as [|t0 ts]; [reflexivity|].
  destruct (max_by_len t0 ts) as [|r rs]; [reflexivity|].
  cbn [max_cols bind]. destruct (6 <=? _)%nat; reflexivity.
Qed.

(** C7.  A page without glyphs contributes no block and nothing is raised.
    On a page with a single glyph the deviation and the standard deviation
    are both zero, the normalised centre is 0/0 = NaN, and the clustering
    step refuses it: both clusterers raise [ValueError], whatever the glyph
    (its centre being a binary64 value) and whatever the pages after it. *)
Theorem single_glyph_page_raises :
  (forall pages : document,
      (forall p, In p pages -> chars p = []) ->
      extract_cluster_text_amazon dbscan pages = Ok ""
      /\ extract_cluster_text dbscan pages = Ok "")
  /\ (forall (pre post : document) (p : page) (g : glyph),
        (forall q, In q pre -> chars q = []) ->
        chars p = [g] ->
        valid_binary prec emax (fst (center g)) = true ->
        valid_binary prec emax (snd (center g)) = true ->
        extract_cluster_text_amazon dbscan (pre ++ p :: post)%list
        = Raise ValueError
        /\ extract_cluster_text dbscan (pre ++ p :: post)%list
           = Raise ValueError).
Proof.
  split.
  - intros pages H.
    unfold extract_cluster_text_amazon, extract_cluster_text.
    rewrite !all_blocks_no_glyph; [split; reflexivity| |].
    + intros p Hp. unfold page_blocks_flipkart. rewrite (H p Hp). reflexivity.
    + intros p Hp. unfold page_blocks_amazon. rewrite (H p Hp). reflexivity.
  - intros pre post p g Hpre Hc Hx Hy.
    unfold extract_cluster_text_amazon, extract_cluster_text.
    rewrite (all_blocks_raise (page_blocks_amazon dbscan) pre post p ValueError).
    + rewrite (all_blocks_raise (page_blocks_flipkart dbscan) pre post p
                 ValueError); [split; reflexivity| |].
      * intros q Hq. unfold page_blocks_flipkart. rewrite (Hpre q Hq).
        reflexivity.
      * apply (page_blocks_flipkart_single p g); assumption.
    + intros q Hq. unfold page_blocks_amazon. rewrite (Hpre q Hq).
      reflexivity.
    + apply (page_blocks_amazon_single p g); assumption.
Qed.

End Clustering.

(** The page that only holds its page number. *)
Lemma single_glyph_page_raises_witness :
  zscore [fst (center page_number)] = [S754_nan]
  /\ extract_cluster_text_amazon no_labels [one_glyph_page] = Raise ValueError
  /\ extract_cluster_text no_labels [one_glyph_page] = Raise ValueError.
Proof.
  split; [vm_compute; reflexivity|].
  apply (proj2 (single_glyph_page_raises no_labels) [] [] one_glyph_page
           page_number);
    try reflexivity. intros q [].
Defined.

Lemma blocks_of_blocks (cl : list (Z * list glyph)) :
  Forall is_block (blocks_of cl).
Proof.
  unfold blocks_of. induction cl as [|c cl IH]; simpl; [constructor|].
  destruct (30 <? String.length _)%nat eqn:E; [|exact IH].
  constructor; [|exact IH]. split.
  - apply Nat.ltb_lt, E.
  - apply strip_idempotent.
Qed.

Lemma all_blocks_Forall (P : string -> Prop)
    (page_blocks : page -> result (list string)) (pages : document)
    (blocks bs : list string) :
  (forall p l, page_blocks p = Ok l -> Forall P l) ->
  Forall P blocks ->
  all_blocks page_blocks pages blocks = Ok bs -> Forall P bs.
Proof.
  intros Hp. revert blocks. induction pages as [|p pages IH];
    intros blocks Hb; simpl.
  - intros [= <-]. exact Hb.
  - destruct (page_blocks p) as [l|e] eqn:E; [|discriminate]. simpl.
    apply IH. apply Forall_app. split; [exact Hb | exact (Hp p l E)].
Qed.

Section Blocks.
Variable dbscan : float -> list (float * float) -> list Z.

Lemma page_blocks_amazon_blocks (p : page) (l : list string) :
  page_blocks_amazon dbscan p = Ok l -> Forall is_block l.
Proof.
  unfold page_blocks_amazon. destruct (chars p) as [|g gs].
  - intros [= <-]. constructor.
  - destruct (fit_predict _ _ _) as [labels|e]; [|discriminate].
    intros [= <-]. apply blocks_of_blocks.
Qed.

Lemma page_blocks_flipkart_blocks (p : page) (l : list string) :
  page_blocks_flipkart dbscan p = Ok l -> Forall is_block l.
Proof.
  unfold page_blocks_flipkart. destruct (chars p) as [|g gs].
  - intros [= <-]. constructor.
  - destruct (match tables p with [] => _ | _ => _ end) as [n|e];
      [|discriminate]. cbn [bind].
    destruct (if (6 <=? n)%nat then _ else _) as [labels|e]; [|discriminate].
    intros [= <-]. apply blocks_of_blocks.
Qed.

(** X25.  Both clusterers keep a cluster only when its stripped text is longer
    than 30 characters: every block they collect is such a text, so a
    shorter cluster never reaches the rules. *)
Theorem cluster_blocks_long (pages : document) (bs : list string) :
  all_blocks (page_blocks_amazon dbscan) pages [] = Ok bs
  \/ all_blocks (page_blocks_flipkart dbscan) pages [] = Ok bs ->
  Forall (fun b => (30 < String.length b)%nat /\ strip b = b) bs.
Proof.
  intros [H|H];
    (eapply all_blocks_Forall; [| constructor | exact H]).
  - apply page_blocks_amazon_blocks.
  - apply page_blocks_flipkart_blocks.
Qed.

End Blocks.

Lemma cluster_blocks_long_witness :
  Forall (fun b => (30 < String.length b)%nat /\ strip b = b)
         ["Sold By: Acme Re tPrivate Limited"].
Proof.
  apply (cluster_blocks_long one_cluster [two_line_page]).
  left. vm_compute. reflexivity.
Defined.

Lemma group_of_add_to (lbl l : Z) (g : glyph) (cl : list (Z * list glyph)) :
  group_of lbl (add_to l g cl)
  = if (l =? lbl)%Z then (group_of lbl cl ++ [g])%list else group_of lbl cl.
Proof.
  unfold group_of. induction cl as [|[k gs] cl IH]; simpl.
  - destruct (l =? lbl)%Z; reflexivity.
  - destruct (k =? l)%Z eqn:Ekl; simpl.
    + apply Z.eqb_eq in Ekl. subst k.
      destruct (l =? lbl)%Z; reflexivity.
    + destruct (k =? lbl)%Z eqn:Ek; [|exact IH].
      destruct (l =? lbl)%Z eqn:El; [|reflexivity].
      apply Z.eqb_eq in Ek, El. apply Z.eqb_neq in Ekl. congruence.
Qed.

Lemma group_of_fold (lbl : Z) (lgs : list (Z * glyph))
    (cl : list (Z * list glyph)) :
  lbl <> (-1)%Z ->
  group_of lbl
    (fold_left
       (fun cl lg =>
          if (fst lg =? -1)%Z then cl else add_to (fst lg) (snd lg) cl)
       lgs cl)
  = (group_of lbl cl
     ++ List.map snd (List.filter (fun lg => (fst lg =? lbl)%Z) lgs))%list.
Proof.
  intros Hl. revert cl. induction lgs as [|[l g] lgs IH]; intros cl; simpl.
  - rewrite app_nil_r. reflexivity.
  - rewrite IH. destruct (l =? -1)%Z eqn:E1.
    + apply Z.eqb_eq in E1. subst l.
      destruct (-1 =? lbl)%Z eqn:E2; [|reflexivity].
      apply Z.eqb_eq in E2. congruence.
    + rewrite group_of_add_to. destruct (l =? lbl)%Z; simpl;
        [rewrite <- app_assoc|]; reflexivity.
Qed.

Lemma add_to_keys_iff (l : Z) (g : glyph) (cl : list (Z * list glyph))
    (k : Z) :
  In k (List.map fst (add_to l g cl)) <-> k = l \/ In k (List.map fst cl).
Proof.
  induction cl as [|[k' gs] cl IH]; simpl.
  - intuition congruence.
  - destruct (k' =? l)%Z eqn:E; simpl.
    + apply Z.eqb_eq in E. subst k'. intuition congruence.
    + rewrite IH. tauto.
Qed.

Lemma add_to_keys (l : Z) (g : glyph) (cl : list (Z * list glyph)) :
  l <> (-1)%Z ->
  List.NoDup (List.map fst cl) -> ~ In (-1)%Z (List.map fst cl) ->
  List.NoDup (List.map fst (add_to l g cl))
  /\ ~ In (-1)%Z (List.map fst (add_to l g cl)).
Proof.
  intros Hl Hnd Hno. split.
  - clear Hno. revert Hnd. induction cl as [|[k gs] cl IH]; simpl; intros Hnd.
    + constructor; [intros [] | constructor].
    + inversion Hnd as [|x xs Hk Hnd']; subst.
      destruct (k =? l)%Z eqn:E; simpl; [exact Hnd|].
      apply Z.eqb_neq in E. constructor.
      * rewrite add_to_keys_iff. intros [->|H]; [congruence | exact (Hk H)].
      * apply IH. exact Hnd'.
  - rewrite add_to_keys_iff. intros [E|H]; [congruence | exact (Hno H)].
Qed.

Lemma fold_keys (lgs : list (Z * glyph)) (cl : list (Z * list glyph)) :
  List.NoDup (List.map fst cl) -> ~ In (-1)%Z (List.map fst cl) ->
  List.NoDup (List.map fst
           (fold_left
              (fun cl lg =>
                 if (fst lg =? -1)%Z then cl else add_to (fst lg) (snd lg) cl)
              lgs cl))
  /\ ~ In (-1)%Z
       (List.map fst
          (fold_left
             (fun cl lg =>
                if (fst lg =? -1)%Z then cl else add_to (fst lg) (snd lg) cl)
             lgs cl)).
Proof.
  revert cl. induction lgs as [|[l g] lgs IH]; intros cl Hnd Hno; simpl.
  - auto.
  - destruct (l =? -1)%Z eqn:E; [apply IH; assumption|].
    apply Z.eqb_neq in E.
    destruct (add_to_keys l g cl E Hnd Hno) as [H1 H2].
    apply IH; assumption.
Qed.

(** X26.  The clusters of a page: no cluster for the label -1, one cluster per
    other label, and in it exactly the glyphs that bear this label, in the
    order of the page; a glyph beyond the last label is in no cluster. *)
Theorem clusters_of_groups (labels : list Z) (refs : list glyph) :
  List.NoDup (List.map fst (clusters_of labels refs))
  /\ ~ In (-1)%Z (List.map fst (clusters_of labels refs))
  /\ forall lbl, lbl <> (-1)%Z ->
       group_of lbl (clusters_of labels refs) = labelled lbl labels refs.
Proof.
  unfold clusters_of, labelled.
  destruct (fold_keys (combine labels refs) []) as [H1 H2];
    [constructor | intros [] |].
  repeat split; [exact H1 | exact H2 |].
  intros lbl Hl. rewrite group_of_fold by exact Hl. reflexivity.
Qed.

End ClusterFacts.

(** ** The extractor classes of base.py *)

Module BaseFacts.
Import PyStr PyFloat Py Pdf Validators Base.
Import PyStrFacts ValidatorsFacts FlipkartFacts ClusterFacts.

Lemma convert_to_float_float (x : float) :
  convert_to_float (VFloat x) = Ok (unsigned_zero (VFloat x)).
Proof. destruct x as [[]|[]| |[] m e]; reflexivity. Qed.

Section Extractors.
Variable str_of_number : value -> option string.
Variable dbscan : float -> list (float * float) -> list Z.
Variable title : string -> string.
Variable extract_text : page -> string.
Variable extract_with_rules_amazon : string -> gmap string value.
Variable grab : string -> bool -> string -> string.
Variable extract_with_rules_zomato : string -> gmap string value.
Variable extract_header_blinkit : table -> result (gmap string value).

Lemma validate_with_totals (data : gmap string value) (tax total : float)
    (r : InvoiceData) :
  validate str_of_number (with_totals data tax total) = Ok r ->
  total_tax r = unsigned_zero (VFloat tax)
  /\ total_amount r = unsigned_zero (VFloat total).
Proof.
  intros H. rewrite validate_Ok in H.
  pose proof (H f_total_tax) as Ht. pose proof (H f_total_amount) as Ha.
  rewrite validate_field_float in Ht, Ha by reflexivity.
  unfold with_totals in Ht, Ha. cbn [name] in Ht, Ha.
  rewrite lookup_insert_ne, lookup_insert_eq in Ht by discriminate.
  rewrite lookup_insert_eq in Ha.
  rewrite convert_to_float_float in Ht, Ha. cbn [get] in Ht, Ha.
  split; congruence.
Qed.

(** X27.  The header of an Amazon, Zomato or Blinkit invoice carries the totals
    that the table functions return, whatever the header rules put under
    these keys; only the sign of a zero is dropped. *)
Theorem header_totals_from_tables (pages : document) (r : InvoiceData) :
  (amazon_extract_header str_of_number dbscan extract_with_rules_amazon pages
   = Ok r ->
   exists tax total,
     Amazon.extract_totals_amazon pages = Ok (tax, total)
     /\ total_tax r = unsigned_zero (VFloat tax)
     /\ total_amount r = unsigned_zero (VFloat total))
  /\ (zomato_extract_header str_of_number extract_text
        extract_with_rules_zomato pages = Ok r ->
      exists items net tax total,
        Zomato.extract_table_and_totals pages = Ok (items, net, tax, total)
        /\ total_tax r = unsigned_zero (VFloat tax)
        /\ total_amount r = unsigned_zero (VFloat total))
  /\ (blinkit_extract_header str_of_number extract_header_blinkit pages
      = Ok r ->
      exists t items tax total,
        first_table pages = Ok t
        /\ Blinkit.extract_items_and_totals t = Ok (items, tax, total)
        /\ total_tax r = unsigned_zero (VFloat tax)
        /\ total_amount r = unsigned_zero (VFloat total)).
Proof.
  split; [|split].
  - unfold amazon_extract_header. intros H.
    apply bind_Ok in H as (cluster_text & _ & H).
    apply bind_Ok in H as ([tax total] & Ht & H).
    exists tax, total. split; [exact Ht|].
    exact (validate_with_totals _ _ _ _ H).
  - unfold zomato_extract_header. intros H.
    apply bind_Ok in H as ([[[items net] tax] total] & Ht & H).
    exists items, net, tax, total. split; [exact Ht|].
    exact (validate_with_totals _ _ _ _ H).
  - unfold blinkit_extract_header. intros H.
    apply bind_Ok in H as (t & Ht & H).
    apply bind_Ok in H as (data & _ & H).
    apply bind_Ok in H as ([[items tax] total] & Hr & H).
    exists t, items, tax, total. split; [exact Ht|]. split; [exact Hr|].
    exact (validate_with_totals _ _ _ _ H).
Qed.

(** X28.  A page with a single glyph, after pages without glyphs, empties the
    whole result of the Amazon and the Flipkart extractor: the clusterer
    raises, and [extract] answers with the empty dictionary and the empty
    frame, whatever the tables of the document hold. *)
Theorem one_glyph_page_empties_extract (pre post : document) (p : page)
    (g : glyph) :
  (forall q, In q pre -> chars q = []) ->
  chars p = [g] ->
  valid_binary prec emax (fst (Cluster.center g)) = true ->
  valid_binary prec emax (snd (Cluster.center g)) = true ->
  amazon_extract str_of_number dbscan title extract_with_rules_amazon
    (pre ++ p :: post)%list = (∅, ([], []))
  /\ flipkart_extract str_of_number dbscan grab (pre ++ p :: post)%list
     = (∅, []).
Proof.
  intros Hpre Hc Hx Hy.
  unfold amazon_extract, amazon_extract_header, flipkart_extract,
    flipkart_extract_header, Cluster.extract_cluster_text_amazon,
    Cluster.extract_cluster_text.
  rewrite (all_blocks_raise (Cluster.page_blocks_amazon dbscan) pre post p
             ValueError).
  - rewrite (all_blocks_raise (Cluster.page_blocks_flipkart dbscan) pre post p
               ValueError); [split; reflexivity| |].
    + intros q Hq. unfold Cluster.page_blocks_flipkart. rewrite (Hpre q Hq).
      reflexivity.
    + apply (page_blocks_flipkart_single dbscan p g); assumption.
  - intros q Hq. unfold Cluster.page_blocks_amazon. rewrite (Hpre q Hq).
    reflexivity.
  - apply (page_blocks_amazon_single dbscan p g); assumption.
Qed.

Lemma insert_text (k : string) (s : string) (m : gmap string value) :
  (forall k' v, m !! k' = Some v -> exists s', v = VStr s') ->
  forall k' v, <[ k := VStr s ]> m !! k' = Some v -> exists s', v = VStr s'.
Proof.
  intros Hm k' v. destruct (decide (k = k')) as [->|Hne].
  - rewrite lookup_insert_eq. intros [= <-]. eauto.
  - rewrite lookup_insert_ne by exact Hne. apply Hm.
Qed.

Lemma extract_fields_text (cluster : string) (k : string) (v : value) :
  Flipkart.extract_fields grab cluster !! k = Some v ->
  exists s, v = VStr s.
Proof.
  revert k v. unfold Flipkart.extract_fields.
  repeat apply insert_text.
  intros k v H. rewrite lookup_empty in H. discriminate H.
Qed.

(** X29.  The header of a Flipkart invoice is always accepted by the schema
    once the cluster text is there, and its total amount and total tax
    are 0.0 on every invoice: the total-price rule yields no digit, and
    no rule sets the tax. *)
Theorem flipkart_header_totals_zero (pages : document) (cluster : string) :
  Cluster.extract_cluster_text dbscan pages = Ok cluster ->
  exists r,
    flipkart_extract_header str_of_number dbscan grab pages = Ok r
    /\ total_amount r = VFloat zero
    /\ total_tax r = VFloat zero.
Proof.
  intros Hc. unfold flipkart_extract_header. rewrite Hc. cbn [bind].
  destruct (validate str_of_number (Flipkart.extract_fields grab cluster))
    as [r|e] eqn:E.
  - exists r. split; [reflexivity|]. rewrite validate_Ok in E.
    pose proof (E f_total_tax) as Ht. pose proof (E f_total_amount) as Ha.
    rewrite validate_field_float in Ht, Ha by reflexivity.
    unfold Flipkart.extract_fields in Ht, Ha. cbn [name] in Ht, Ha.
    repeat (rewrite lookup_insert_ne in Ht by discriminate).
    rewrite lookup_empty in Ht.
    repeat (rewrite lookup_insert_ne in Ha by discriminate).
    rewrite lookup_insert_eq in Ha. cbn [get] in Ht, Ha.
    split; [|congruence].
    unfold convert_to_float in Ha. cbn [float_of truthy] in Ha.
    rewrite (float_of_str_price _ (total_amount_field_class cluster)) in Ha.
    destruct (negb _) in Ha; congruence.
  - exfalso. apply validate_Raise in E as [_ (f & v & Hk & Hv & Hbad)].
    destruct (extract_fields_text cluster _ v Hv) as [s ->].
    destruct Hbad as [[Hb _]|[[l Hb]|[_ [[n Hb]|[[b Hb]|[x Hb]]]]]];
      discriminate Hb.
Qed.

End Extractors.

Lemma one_glyph_page_empties_extract_witness :
  amazon_extract refuse_numbers Cluster.no_labels Amazon.plain_title no_rules
    numbered_then_items = (∅, ([], []))
  /\ flipkart_extract refuse_numbers Cluster.no_labels no_grab
       numbered_then_items = (∅, []).
Proof.
  apply (one_glyph_page_empties_extract refuse_numbers Cluster.no_labels
           Amazon.plain_title no_rules no_grab [] _ Cluster.one_glyph_page
           Cluster.page_number);
    try reflexivity. intros q [].
Defined.

Lemma flipkart_header_totals_zero_witness :
  exists r,
    flipkart_extract_header refuse_numbers Cluster.one_cluster no_grab
      [Cluster.two_line_page] = Ok r
    /\ total_amount r = VFloat zero
    /\ total_tax r = VFloat zero.
Proof.
  apply (flipkart_header_totals_zero refuse_numbers Cluster.one_cluster
           no_grab [Cluster.two_line_page]
           "Sold By: Acme Re tPrivate Limited").
  vm_compute. reflexivity.
Defined.

Lemma header_totals_from_tables_witness :
  exists r,
    amazon_extract_header refuse_numbers Cluster.no_labels no_rules
      (Amazon.one_table Amazon.two_totals_table) = Ok r
    /\ total_tax r = VFloat twelve_and_a_half
    /\ total_amount r = VFloat hundred_twelve_and_a_half.
Proof.
  assert (E : exists r,
             amazon_extract_header refuse_numbers Cluster.no_labels no_rules
               (Amazon.one_table Amazon.two_totals_table) = Ok r)
    by (vm_compute; eauto).
  destruct E as [r E]. exists r. split; [exact E|].
  destruct (proj1 (header_totals_from_tables refuse_numbers Cluster.no_labels
                     no_text no_rules no_rules no_header _ r) E)
    as (tax & total & Ht & H1 & H2).
  vm_compute in Ht. injection Ht as <- <-. split; assumption.
Defined.

End BaseFacts.
